(** * Graph attention layers and stacked GAT models

    A shallow embedding of [src/nets/gat.py]: the attention layer
    [GATConv] (constructor, [forward], [message]), the stacked models
    built from it, and the factory [create_gat].

    Tensors hold real numbers: the numeric content of the layer is stated
    over exact real arithmetic.  Shapes, indices and the control flow of
    [forward] are computable ([nat], [Z], [Q], [bool]).  Python exceptions
    are values of [Result]; the mutable attribute [_alpha] of a layer and
    the source of dropout randomness are threaded as explicit state.

    The operations of the tensor library and of the graph library that the
    file calls (linear layers, [view], [softmax], [propagate], the
    self-loop utilities, ...) are not part of the sources; each is modelled
    from the specification and says so.  Constructors are calls like any
    other: they return an instance or raise. *)

From Stdlib Require Import Reals QArith Qreals Lra Lia ZArith List.
From stdpp Require Import gmap strings list.
Import ListNotations.

Local Open Scope nat_scope.

(** ** Python exceptions and the state monad of a method call *)

Inductive PyErr : Type :=
| AssertionError
| ValueError
| IndexError
| RuntimeError
| TypeError
| AttributeError
| UnboundLocalError
| ZeroDivisionError.

Inductive Result (A : Type) : Type :=
| Ok (a : A)
| Raise (e : PyErr).

Arguments Ok {A} a.
Arguments Raise {A} e.

Definition is_ok {A} (r : Result A) : bool :=
  match r with Ok _ => true | Raise _ => false end.

#[global] Instance Result_ret : MRet Result := fun A => @Ok A.
#[global] Instance Result_bind : MBind Result :=
  fun A B k r => match r with Ok a => k a | Raise e => Raise e end.

(** The value of a call that returns. *)
Definition returned {A} (r : Result A) : is_ok r = true -> A :=
  match r as r0 return is_ok r0 = true -> A with
  | Ok a => fun _ => a
  | Raise _ => fun H => False_rect A (Bool.diff_false_true H)
  end.

(** The dropout randomness: an unbounded stream of keep/drop decisions and
    the position of the next unread one. *)
Record Rng : Type := mkRng { draws : nat -> bool; pos : nat }.

(** A method of an object of type [T]: it reads and writes the object and
    the random stream, and returns a value or raises.  A raised exception
    keeps the writes made before it, as in Python. *)
Definition M (T A : Type) : Type := T * Rng -> Result A * (T * Rng).

Definition ret {T A} (a : A) : M T A := fun s => (Ok a, s).

Definition raise {T A} (e : PyErr) : M T A := fun s => (Raise e, s).

Definition bind {T A B} (m : M T A) (k : A -> M T B) : M T B :=
  fun s =>
    match m s with
    | (Ok a, s') => k a s'
    | (Raise e, s') => (Raise e, s')
    end.

#[global] Instance M_ret {T} : MRet (M T) := fun A => @ret T A.
#[global] Instance M_bind {T} : MBind (M T) := fun A B k m => @bind T A B m k.

Definition get_self {T} : M T T := fun s => (Ok (fst s), s).

Definition put_self {T} (t : T) : M T unit := fun s => (Ok tt, (t, snd s)).

Definition lift {T A} (r : Result A) : M T A := fun s => (r, s).

(** [assert b] *)
Definition py_assert {T} (b : bool) : M T unit :=
  if b then ret tt else raise AssertionError.

(** Run a method of a sub-object stored in the object [S]. *)
Definition zoom {S T A} (proj : S -> T) (upd : T -> S -> S) (m : M T A)
  : M S A :=
  fun s =>
    match m (proj (fst s), snd s) with
    | (r, (t', g')) => (r, (upd t' (fst s), g'))
    end.

(** ** Tensors *)

(** A dense tensor: its shape and its entries in row-major order. *)
Record Tensor : Type := mkTensor { shape : list nat; data : list R }.

(** [t.dim()] *)
Definition dim (t : Tensor) : nat := length (shape t).

(** [t.numel()] *)
Definition numel (t : Tensor) : nat := fold_right Nat.mul 1 (shape t).

(** The last dimension of a tensor (0 for a scalar). *)
Definition last_dim (t : Tensor) : nat := List.last (shape t) 0.

Definition Rsum (l : list R) : R := fold_right Rplus 0%R l.

Definition dot (u v : list R) : R := Rsum (zip_with Rmult u v).

(** [n] consecutive rows of [m] entries each, read from row-major data. *)
Definition unflatten (n m : nat) (d : list R) : list (list R) :=
  map (fun i => map (fun j => nth (i * m + j) d 0%R) (seq 0 m)) (seq 0 n).

(** Node features after [view(-1, H, C)]: nodes x heads x channels. *)
Definition Tensor3 : Type := list (list (list R)).

(** Per-edge (or per-node) values for every head. *)
Definition Alpha : Type := list (list R).

(** [torch.nn.Linear(in_features, out_features, bias=False)] *)
Record Linear : Type := mkLinear {
  in_features : nat;
  out_features : nat;
  weight : list R               (* shape (out_features, in_features) *)
}.

Definition weight_rows (l : Linear) : list (list R) :=
  unflatten (out_features l) (in_features l) (weight l).

(** Modelled from the spec: calling a linear layer of the tensor library,
    absent from the sources ("apply linear projection to input features").
    Every row of length [in_features] (over the last dimension) is
    multiplied by the transposed weight; an input whose last dimension is
    not [in_features] is rejected. *)
Definition Linear_call (l : Linear) (x : Tensor) : Result Tensor :=
  match dim x with
  | 0 => Raise RuntimeError
  | _ =>
      if last_dim x =? in_features l then
        let lead := removelast (shape x) in
        let rows := unflatten (fold_right Nat.mul 1 lead) (in_features l) (data x) in
        Ok {| shape := lead ++ [out_features l];
              data := flat_map (fun row => map (dot row) (weight_rows l)) rows |}
      else Raise RuntimeError
  end.

(** Modelled from the spec: [t.view(-1, H, C)] of the tensor library,
    absent from the sources ("reshape to (num_nodes, heads, out_channels)").
    The leading dimension is inferred; it cannot be when [H * C] is zero
    or does not divide the number of entries. *)
Definition view3 (t : Tensor) (H C : nat) : Result Tensor3 :=
  if H * C =? 0 then Raise RuntimeError
  else if numel t mod (H * C) =? 0 then
    Ok (map (unflatten H C) (unflatten (numel t / (H * C)) (H * C) (data t)))
  else Raise RuntimeError.

(** [(x * att).sum(dim=-1)] with [att] of shape (1, H, C) broadcast over
    the nodes. *)
Definition att_score (x : Tensor3) (att : list (list R)) : Alpha :=
  map (fun node => zip_with dot node att) x.

(** Modelled from the spec: [out.view(-1, H * C)] of the tensor library
    on a (nodes, H, C) tensor ("reshape (num_nodes, heads, out_channels) to
    (num_nodes, heads x out_channels)"). *)
Definition view2 (out : Tensor3) (HC : nat) : Result Tensor :=
  if HC =? 0 then Raise RuntimeError
  else
    let flat := List.concat (map (@List.concat R) out) in
    if length flat mod HC =? 0 then
      Ok {| shape := [length flat / HC; HC]; data := flat |}
    else Raise RuntimeError.

(** Entry-wise sum of a list of equally long vectors of length [C]. *)
Definition vsum (C : nat) (vs : list (list R)) : list R :=
  fold_right (zip_with Rplus) (repeat 0%R C) vs.

(** Modelled from the spec: [out.mean(dim=1)] of the tensor library on a
    (nodes, H, C) tensor ("average over the heads axis"). *)
Definition mean_dim1 (out : Tensor3) (H C : nat) : Tensor :=
  {| shape := [length out; C];
     data := flat_map (fun node => map (fun v => (v / INR H)%R) (vsum C node)) out |}.

(** Modelled from the spec: [out += bias] of the tensor library ("add bias
    vector if configured"), the bias broadcast along the last dimension. *)
Definition add_bias (out : Tensor) (b : list R) : Tensor :=
  {| shape := shape out;
     data := imap (fun k v => (v + nth (k mod length b) b 0)%R) (data out) |}.

(** ** Edge structures and the self-loop utilities *)

(** One column of a 2 x E edge-index tensor: (source, destination). *)
Definition Edge : Type := (nat * nat)%type.

(** A sparse (transposed) adjacency: its two sizes, the stored entries as
    (row, column) = (destination, source), and optional entry values. *)
Record SparseTensor : Type := mkSparse {
  sparse_sizes : nat * nat;
  coo : list (nat * nat);
  value : option Alpha
}.

(** [Adj]: an edge-index tensor or a sparse adjacency. *)
Inductive Adj : Type :=
| EdgeIndex (ei : list Edge)
| Sparse (adj_t : SparseTensor).

Definition is_loop (e : nat * nat) : bool := fst e =? snd e.

(** Modelled from the spec: the library utility [remove_self_loops], absent
    from the sources, "strip any existing self-loops from the edge set". *)
Definition remove_self_loops (ei : list Edge) : list Edge :=
  List.filter (fun e => negb (is_loop e)) ei.

(** Modelled from the spec: the library utility [add_self_loops], absent
    from the sources, "append exactly one self-loop per node index in range
    [0, num_nodes)".  A negative count is not a range. *)
Definition add_self_loops (ei : list Edge) (num_nodes : Z) : Result (list Edge) :=
  if (num_nodes <? 0)%Z then Raise RuntimeError
  else Ok (ei ++ map (fun i => (i, i)) (seq 0 (Z.to_nat num_nodes))).

(** Modelled from the spec: the library utility [set_diag], absent from the
    sources, "for sparse-adjacency representation, set the diagonal
    directly": stored diagonal entries are replaced by one entry per index
    below both sizes; entries of a valued matrix get the value one. *)
Definition set_diag (sp : SparseTensor) : SparseTensor :=
  let k := Nat.min (fst (sparse_sizes sp)) (snd (sparse_sizes sp)) in
  {| sparse_sizes := sparse_sizes sp;
     coo := List.filter (fun e => negb (is_loop e)) (coo sp)
              ++ map (fun i => (i, i)) (seq 0 k);
     value :=
       match value sp with
       | None => None
       | Some v =>
           Some (map snd (List.filter (fun ev => negb (is_loop (fst ev)))
                            (combine (coo sp) v))
                   ++ repeat [1%R] k)
       end |}.

(** [adj_t.set_value(alpha, layout='coo')] *)
Definition set_value (sp : SparseTensor) (a : Alpha) : SparseTensor :=
  {| sparse_sizes := sparse_sizes sp; coo := coo sp; value := Some a |}.

(** Source and destination index of every edge, in storage order. *)
Definition sources (a : Adj) : list nat :=
  match a with
  | EdgeIndex ei => map fst ei
  | Sparse sp => map snd (coo sp)
  end.

Definition destinations (a : Adj) : list nat :=
  match a with
  | EdgeIndex ei => map snd ei
  | Sparse sp => map fst (coo sp)
  end.

(** Row pointer of a sparse adjacency (entries stored before each row). *)
Definition rowptr (sp : SparseTensor) : list nat :=
  map (fun i => length (List.filter (fun e => fst e <? i) (coo sp)))
      (seq 0 (S (fst (sparse_sizes sp)))).

(** ** Python values of the loosely typed arguments *)

(** What a caller may pass for [return_attention_weights]. *)
Inductive PyVal : Type :=
| PyNone
| PyBool (b : bool)
| PyInt (z : Z).

(** [isinstance(v, bool)] *)
Definition isinstance_bool (v : PyVal) : bool :=
  match v with PyBool _ => true | _ => false end.

(** A Python sequence of integers: what [size] is indexed as.  The stacked
    models hand their [edge_weight] argument on in this position. *)
Definition PySeq : Type := list Z.

(** [s[i]] *)
Definition getitem (s : PySeq) (i : nat) : Result Z :=
  match nth_error s i with
  | Some z => Ok z
  | None => Raise IndexError
  end.

(** [Union[Tensor, OptPairTensor]] *)
Inductive Features : Type :=
| XTensor (x : Tensor)
| XPair (x0 : Tensor) (x1 : option Tensor).

(** ** The attention layer *)

(** [Union[int, Tuple[int, int]]] *)
Inductive InChannels : Type :=
| IntCh (n : nat)
| PairCh (n_src n_dst : nat).

Record GATConv : Type := mkGATConv {
  in_channels : InChannels;
  out_channels : nat;
  heads : nat;
  concat : bool;
  negative_slope : Q;
  dropout : Q;
  lin_l : Linear;
  lin_r : Linear;
  att_l : list R;               (* shape (1, heads, out_channels) *)
  att_r : list R;
  bias : option (list R);
  training : bool;              (* [nn.Module.training] *)
  _alpha : option Alpha
}.

Definition set_alpha (self : GATConv) (a : option Alpha) : GATConv :=
  {| in_channels := in_channels self; out_channels := out_channels self;
     heads := heads self; concat := concat self;
     negative_slope := negative_slope self; dropout := dropout self;
     lin_l := lin_l self; lin_r := lin_r self;
     att_l := att_l self; att_r := att_r self; bias := bias self;
     training := training self; _alpha := a |}.

(** [module.train(mode)] on a layer. *)
Definition set_training (self : GATConv) (mode : bool) : GATConv :=
  {| in_channels := in_channels self; out_channels := out_channels self;
     heads := heads self; concat := concat self;
     negative_slope := negative_slope self; dropout := dropout self;
     lin_l := lin_l self; lin_r := lin_r self;
     att_l := att_l self; att_r := att_r self; bias := bias self;
     training := mode; _alpha := _alpha self |}.

(** The random numbers of the initialiser: the entries written by its
    [k]-th use into a tensor of the given shape. *)
Definition Init : Type := nat -> list nat -> list R.

(** Modelled from the spec: [glorot(tensor)] of the graph library, absent
    from the sources (the weights are "randomized per a variance-scaling
    scheme"): the entries are drawn within the bound
    [sqrt(6.0 / (tensor.size(-2) + tensor.size(-1)))].  The quotient is
    computed first, so a tensor whose last two sizes are both zero raises
    the division error of Python. *)
Definition glorot (rnd : Init) (k : nat) (sh : list nat) : Result (list R) :=
  match rev sh with
  | n :: m :: _ =>
      if m + n =? 0 then Raise ZeroDivisionError else Ok (rnd k sh)
  | _ => Raise IndexError
  end.

(** [GATConv.__init__] followed by [reset_parameters], called without
    further keyword arguments, as everywhere in the file (the aggregation
    is 'add' and messages flow from source to target).  With an integer
    [in_channels] the two projections are one shared module, whose weight
    is written by both [glorot] calls, the second one last; the bias is
    zeroed.  [k] numbers the first [glorot] call of this layer.  The
    instance exists only when no [glorot] call raises. *)
Definition GATConv_init (rnd : Init) (k : nat)
    (in_channels : InChannels) (out_channels : nat) (heads : nat)
    (concat : bool) (negative_slope dropout : Q) (bias : bool) : Result GATConv :=
  let HC := heads * out_channels in
  '(l, r) ←
    match in_channels with
    | IntCh n =>
        _ ← glorot rnd k [HC; n];
        w ← glorot rnd (S k) [HC; n];
        let temp_weight := mkLinear n HC w in
        Ok (temp_weight, temp_weight)
    | PairCh n0 n1 =>
        wl ← glorot rnd k [HC; n0];
        wr ← glorot rnd (S k) [HC; n1];
        Ok (mkLinear n0 HC wl, mkLinear n1 HC wr)
    end;
  al ← glorot rnd (2 + k) [1; heads; out_channels];
  ar ← glorot rnd (3 + k) [1; heads; out_channels];
  Ok {| in_channels := in_channels; out_channels := out_channels;
        heads := heads; concat := concat;
        negative_slope := negative_slope; dropout := dropout;
        lin_l := l; lin_r := r;
        att_l := al;
        att_r := ar;
        bias := if bias && concat then Some (repeat 0%R HC)
                else if bias && negb concat then Some (repeat 0%R out_channels)
                else None;
        training := true;
        _alpha := None |}.

(** The defaults of the constructor: [heads=1, concat=True,
    negative_slope=0.2, dropout=0.0, bias=True]. *)
Definition GATConv_new (rnd : Init) (k : nat) (in_channels out_channels : nat)
    (heads : nat) (concat : bool) : Result GATConv :=
  GATConv_init rnd k (IntCh in_channels) out_channels heads concat
    (2 # 10)%Q 0%Q true.

(** A learnable parameter: its name inside the module and its value. *)
Definition Param : Type := (string * Tensor)%type.

(** [layer.parameters()]: the layer's own parameters in registration order
    ([att_l], [att_r], [bias] when present), then those of its sub-modules,
    a shared module counted once under its first name. *)
Definition GATConv_parameters (c : GATConv) : list Param :=
  [("att_l"%string, mkTensor [1; heads c; out_channels c] (att_l c));
   ("att_r"%string, mkTensor [1; heads c; out_channels c] (att_r c))]
  ++ match bias c with
     | Some b => [("bias"%string, mkTensor [length b] b)]
     | None => []
     end
  ++ match in_channels c with
     | IntCh _ =>
         [("temp_weight.weight"%string,
           mkTensor [out_features (lin_l c); in_features (lin_l c)] (weight (lin_l c)))]
     | PairCh _ _ =>
         [("lin_l.weight"%string,
           mkTensor [out_features (lin_l c); in_features (lin_l c)] (weight (lin_l c)));
          ("lin_r.weight"%string,
           mkTensor [out_features (lin_r c); in_features (lin_r c)] (weight (lin_r c)))]
     end.

(** The scoring vectors as [heads] rows of [out_channels] entries. *)
Definition att_rows (self : GATConv) (att : list R) : list (list R) :=
  unflatten (heads self) (out_channels self) att.

(** ** Library primitives used by message passing *)

(** Modelled from the spec: [src.index_select(0, index)] of the tensor
    library, which message passing uses to read "each edge's source feature
    vector"; an index outside the tensor raises. *)
Definition index_select {A} (src : list A) (index : list nat) : Result (list A) :=
  match mapM (fun i => src !! i) index with
  | Some l => Ok l
  | None => Raise IndexError
  end.

(** Modelled from the spec: [F.leaky_relu(alpha, negative_slope)] of the
    tensor library ("apply leaky-rectification with configurable negative
    slope"). *)
Definition leaky_relu (a : Alpha) (negative_slope : Q) : Alpha :=
  map (map (fun v => (Rmax 0 v + Q2R negative_slope * Rmin 0 v)%R)) a.

(** Modelled from the spec: the node count a segmented reduction of the
    graph library works with: the given one, else one more than the largest
    index ("grouped by a key array"). *)
Definition maybe_num_nodes (index : list nat) (num_nodes : option Z) : Z :=
  match num_nodes with
  | Some n => n
  | None => Z.of_nat (fold_right Nat.max 0 (map S index))
  end.

Definition in_range (index : list nat) (n : Z) : bool :=
  forallb (fun i => (Z.of_nat i <? n)%Z) index.

(** The values of head [h] on the edges whose index is [i]. *)
Definition group (src : Alpha) (index : list nat) (i h : nat) : list R :=
  map (fun p => nth h (fst p) 0%R)
      (List.filter (fun p => snd p =? i) (combine src index)).

Definition Rmaxl (l : list R) : R :=
  match l with
  | [] => 0%R
  | v :: r => fold_right Rmax v r
  end.

(** Modelled from the spec: the library's segmented [softmax], absent from
    the sources.  "For each destination node, its incoming edge alphas
    (across all heads independently) are exponentiated and divided by the
    sum of exponentials over that same destination group", after
    "subtract per-group max before exponentiating".  [ptr] carries the same
    grouping as [index] when it is given. *)
Definition softmax (src : Alpha) (index : list nat) (ptr : option (list nat))
    (num_nodes : option Z) : Result Alpha :=
  if in_range index (maybe_num_nodes index num_nodes) then
    Ok (map (fun p =>
               imap (fun h v =>
                       let g := group src index (snd p) h in
                       (exp (v - Rmaxl g)
                        / Rsum (map (fun u => exp (u - Rmaxl g)) g))%R)
                    (fst p))
            (combine src index))
  else Raise RuntimeError.

(** The attention mass a node receives on head [h]: the sum of the
    coefficients of its incoming edges. *)
Definition attention_mass (a : Alpha) (index : list nat) (i h : nat) : R :=
  Rsum (group a index i h).

Fixpoint dropout_rows (d : nat -> bool) (k : nat) (scale : R) (a : Alpha) : Alpha :=
  match a with
  | [] => []
  | row :: rest =>
      imap (fun h v => if d (k + h) then (v * scale)%R else 0%R) row
        :: dropout_rows d (k + length row) scale rest
  end.

(** Modelled from the spec: [F.dropout(a, p, training)] of the tensor
    library ("independently zero out each normalized attention coefficient
    with a configured probability during training only; no-op during
    inference").  A probability outside [0, 1] is rejected; in training
    mode every entry is dropped or kept (and rescaled) as the random stream
    decides (all dropped for [p = 1], all kept for [p = 0]). *)
Definition F_dropout {T} (a : Alpha) (p : Q) (training : bool) : M T Alpha :=
  fun s =>
    if negb (Qle_bool 0 p) || negb (Qle_bool p 1) then (Raise ValueError, s)
    else if training then
      let g := snd s in
      let n := length (List.concat a) in
      let out :=
        if Qeq_bool p 1 then map (map (fun _ => 0%R)) a
        else if Qeq_bool p 0 then a
        else dropout_rows (draws g) (pos g) (/ (1 - Q2R p))%R a in
      (Ok out, (fst s, {| draws := draws g; pos := pos g + n |}))
    else (Ok a, s).

(** The optional pair of node counts of message passing. *)
Definition OptSize : Type := (option Z * option Z)%type.

(** Modelled from the spec: the input check of the library's [propagate],
    absent from the sources.  An "explicit node-count pair" is read from
    [size]; a sparse adjacency brings its own sizes. *)
Definition check_input (edge_index : Adj) (size : option PySeq) : Result OptSize :=
  match edge_index with
  | EdgeIndex _ =>
      match size with
      | None => Ok (None, None)
      | Some s => a ← getitem s 0; b ← getitem s 1; Ok (Some a, Some b)
      end
  | Sparse sp =>
      Ok (Some (Z.of_nat (snd (sparse_sizes sp))),
          Some (Z.of_nat (fst (sparse_sizes sp))))
  end.

(** A node count that is already known must agree with the tensor. *)
Definition set_size (known : option Z) (n : nat) : Result (option Z) :=
  match known with
  | None => Ok (Some (Z.of_nat n))
  | Some k => if (k =? Z.of_nat n)%Z then Ok known else Raise ValueError
  end.

(** [a or b] on optional integers. *)
Definition py_or (a b : option Z) : option Z :=
  match a with
  | Some z => if (z =? 0)%Z then b else a
  | None => b
  end.

(** What [propagate] hands to [message] and to the aggregation. *)
Record Collected : Type := mkCollected {
  x_j : Tensor3;
  alpha_j : Alpha;
  alpha_i : option Alpha;
  index : list nat;
  ptr : option (list nat);
  size_i : option Z
}.

(** Modelled from the spec: the argument collection of the library's
    [propagate], absent from the sources.  Source-side tensors are lifted
    to the edges by the source index and target-side ones by the
    destination index ("for every edge (i->j)"), "grouped by destination
    node index"; every tensor must agree with the node counts. *)
Definition collect (edge_index : Adj) (x : Tensor3 * option Tensor3)
    (alpha : Alpha * option Alpha) (size : OptSize) : Result Collected :=
  let '(s0, s1) := size in
  s1 ← match snd x with Some xr => set_size s1 (length xr) | None => Ok s1 end;
  s0 ← set_size s0 (length (fst x));
  xj ← index_select (fst x) (sources edge_index);
  s1 ← match snd alpha with Some ar => set_size s1 (length ar) | None => Ok s1 end;
  s0 ← set_size s0 (length (fst alpha));
  aj ← index_select (fst alpha) (sources edge_index);
  s0 ← set_size s0 (length (fst alpha));
  '(s1, ai) ← match snd alpha with
              | Some ar =>
                  s1 ← set_size s1 (length ar);
                  ai ← index_select ar (destinations edge_index);
                  Ok (s1, Some ai)
              | None => Ok (s1, None)
              end;
  Ok {| x_j := xj; alpha_j := aj; alpha_i := ai;
        index := destinations edge_index;
        ptr := match edge_index with
               | Sparse sp => Some (rowptr sp)
               | EdgeIndex _ => None
               end;
        size_i := py_or s1 s0 |}.

(** Modelled from the spec: the library's segmented sum, absent from the
    sources: "sum all scaled messages per destination node (segmented sum,
    same grouping key as step 5)". *)
Definition scatter_add (inputs : Tensor3) (index : list nat) (dim_size : option Z)
    (H C : nat) : Result Tensor3 :=
  let n := maybe_num_nodes index dim_size in
  if (n <? 0)%Z then Raise RuntimeError
  else if in_range index n then
    Ok (map (fun i =>
               fold_right (zip_with (zip_with Rplus)) (repeat (repeat 0%R C) H)
                 (map fst (List.filter (fun p => snd p =? i) (combine inputs index))))
            (seq 0 (Z.to_nat n)))
  else Raise RuntimeError.

(** ** [GATConv.message] *)

Definition message (x_j : Tensor3) (alpha_j : Alpha) (alpha_i : option Alpha)
    (index : list nat) (ptr : option (list nat)) (size_i : option Z)
  : M GATConv Tensor3 :=
  self ← get_self;
  let alpha := match alpha_i with
               | None => alpha_j
               | Some a_i => zip_with (zip_with Rplus) alpha_j a_i
               end in
  let alpha := leaky_relu alpha (negative_slope self) in
  alpha ← lift (softmax alpha index ptr size_i);
  put_self (set_alpha self (Some alpha));;
  alpha ← F_dropout alpha (dropout self) (training self);
  mret (zip_with (fun xe ae => zip_with (fun xh a => map (Rmult a) xh) xe ae)
                 x_j alpha).

(** Modelled from the spec: the library's [propagate] for this layer
    (aggregation 'add', no update step), absent from the sources: check
    the sizes, collect the per-edge arguments, call [message], aggregate. *)
Definition propagate (edge_index : Adj) (x : Tensor3 * option Tensor3)
    (alpha : Alpha * option Alpha) (size : option PySeq) : M GATConv Tensor3 :=
  self ← get_self;
  sz ← lift (check_input edge_index size);
  c ← lift (collect edge_index x alpha sz);
  msg ← message (x_j c) (alpha_j c) (alpha_i c) (index c) (ptr c) (size_i c);
  lift (scatter_add msg (index c) (size_i c) (heads self) (out_channels self)).

(** ** [GATConv.forward] *)

(** The second component of the value returned by [forward]. *)
Inductive Second : Type :=
| WithAttention (edge_index : list Edge) (alpha : Alpha)
| Plain (edge_index : Adj).

(** The projections and raw attention terms of steps 1 and 2:
    [x_l], [x_r], [alpha_l], [alpha_r]. *)
Definition Projected : Type :=
  (Tensor3 * option Tensor3 * Alpha * option Alpha)%type.

(** The first block of [forward]: the rank assertion on the feature tensor
    (on [x[0]] for a pair), the projections and the attention terms.  It
    reads the layer and writes nothing. *)

Definition project (self : GATConv) (x : Features) : Result Projected :=
  let H := heads self in
  let C := out_channels self in
  match x with
  | XTensor x =>
      if dim x =? 2 then
        x ← Linear_call (lin_l self) x;
        x_l ← view3 x H C;
        let x_r := x_l in
        let alpha_l := att_score x_l (att_rows self (att_l self)) in
        let alpha_r := att_score x_r (att_rows self (att_r self)) in
        Ok (x_l, Some x_r, alpha_l, Some alpha_r)
      else Raise AssertionError
  | XPair x0 x1 =>
      if dim x0 =? 2 then
        x_l ← Linear_call (lin_l self) x0;
        x_l ← view3 x_l H C;
        let alpha_l := att_score x_l (att_rows self (att_l self)) in
        match x1 with
        | Some x_r =>
            x_r ← Linear_call (lin_r self) x_r;
            x_r ← view3 x_r H C;
            let alpha_r := att_score x_r (att_rows self (att_r self)) in
            Ok (x_l, Some x_r, alpha_l, Some alpha_r)
        | None => Ok (x_l, None, alpha_l, None)
        end
      else Raise AssertionError
  end.

(** The node count of the self-loop adjustment ([num_nodes] in
    [forward]). *)
Definition loop_count (x_l : Tensor3) (x_r : option Tensor3) (size : option PySeq)
  : Result Z :=
  let num_nodes := Z.of_nat (length x_l) in
  let num_nodes := match x_r with
                   | Some x_r => Z.min num_nodes (Z.of_nat (length x_r))
                   | None => num_nodes
                   end in
  match size with
  | Some size => a ← getitem size 0; b ← getitem size 1; Ok (Z.min a b)
  | None => Ok num_nodes
  end.

(** Step 3: the self-loop adjustment of the edge structure. *)
Definition adjust_self_loops (is_add_self_loops : bool) (edge_index : Adj)
    (x_l : Tensor3) (x_r : option Tensor3) (size : option PySeq) : Result Adj :=
  if is_add_self_loops then
    match edge_index with
    | EdgeIndex ei =>
        num_nodes ← loop_count x_l x_r size;
        let ei := remove_self_loops ei in
        ei ← add_self_loops ei num_nodes;
        Ok (EdgeIndex ei)
    | Sparse adj_t => Ok (Sparse (set_diag adj_t))
    end
  else Ok edge_index.

(** [edge_index.shape[1]]: an edge-index tensor has the shape (2, E); the
    sparse adjacency class of the graph library, absent from the sources,
    gives its dimensions through [sizes()] and has no attribute [shape]. *)
Definition shape_1 (edge_index : Adj) : Result nat :=
  match edge_index with
  | EdgeIndex ei => Ok (length ei)
  | Sparse _ => Raise AttributeError
  end.

(** [GATConv.forward].  The local [original_size] is computed first and
    never read afterwards.  The two assertions on [x_l] and [alpha_l] are
    left out: both hold by construction. *)
Definition forward (x : Features) (edge_index : Adj) (size : option PySeq)
    (return_attention_weights : PyVal) (is_add_self_loops : bool)
  : M GATConv (Tensor * Second) :=
  self ← get_self;
  let H := heads self in
  let C := out_channels self in
  original_size ← lift (shape_1 edge_index);
  '(x_l, x_r, alpha_l, alpha_r) ← lift (project self x);
  edge_index ← lift (adjust_self_loops is_add_self_loops edge_index x_l x_r size);
  out ← propagate edge_index (x_l, x_r) (alpha_l, alpha_r) size;
  self ← get_self;
  let alpha := _alpha self in
  put_self (set_alpha self None);;
  out ← (if concat self then lift (view2 out (H * C))
         else mret (mean_dim1 out H C));
  let out := match bias self with
             | Some b => add_bias out b
             | None => out
             end in
  if isinstance_bool return_attention_weights then
    match alpha with
    | None => raise AssertionError
    | Some alpha =>
        match edge_index with
        | EdgeIndex ei => mret (out, WithAttention ei alpha)
        | Sparse adj_t => mret (out, Plain (Sparse (set_value adj_t alpha)))
        end
    end
  else mret (out, Plain edge_index).

(** ** Stacked models *)

(** Modelled from the spec: [F.relu(x)] of the tensor library (the
    "activation" between stacked layers). *)
Definition F_relu (x : Tensor) : Tensor :=
  {| shape := shape x; data := map (Rmax 0) (data x) |}.

(** [F.dropout(x, p, training)] on a feature tensor. *)
Definition F_dropout_tensor {T} (x : Tensor) (p : Q) (training : bool) : M T Tensor :=
  d ← F_dropout [data x] p training;
  mret {| shape := shape x; data := List.concat d |}.

(** Modelled from the spec: [F.elu(x)] of the tensor library (the "ELU
    activation" of the encoder): the identity on positive entries and
    [exp(v) - 1] on the others. *)
Definition F_elu (x : Tensor) : Tensor :=
  {| shape := shape x;
     data := map (fun v => (Rmax 0 v + Rmin 0 (exp v - 1))%R) (data x) |}.

(** Modelled from the spec: [F.log_softmax(x, dim=1)] of the tensor library
    ("log-softmax of logits"): every entry minus the logarithm of the sum of
    the exponentials along the second axis.  A tensor of rank below 2 has
    no such axis. *)
Definition F_log_softmax_dim1 (x : Tensor) : Result Tensor :=
  match shape x with
  | _ :: d1 :: rest =>
      let inner := fold_right Nat.mul 1 rest in
      let entry p := nth p (data x) 0%R in
      Ok {| shape := shape x;
            data :=
              map (fun p =>
                     let i := p / (d1 * inner) in
                     let k := p mod inner in
                     let along := map (fun j => entry (i * (d1 * inner) + j * inner + k))
                                      (seq 0 d1) in
                     (entry p - ln (Rsum (map exp along)))%R)
                  (seq 0 (numel x)) |}
  | _ => Raise IndexError
  end.

(** [x, edge_index = conv(x, edge_index, size, is_add_self_loops=...)]:
    the call of a layer by a stacked model, unpacking the returned pair;
    the second component is an edge structure because no attention export
    is requested. *)
Definition call_conv (x : Tensor) (edge_index : Adj) (size : option PySeq)
    (is_add_self_loops : bool) : M GATConv (Tensor * Adj) :=
  '(x, second) ← forward (XTensor x) edge_index size PyNone is_add_self_loops;
  match second with
  | Plain edge_index => mret (x, edge_index)
  | WithAttention _ _ => raise TypeError
  end.

(** The value of an instance attribute. *)
Inductive Attr : Type :=
| AConv (c : GATConv)
| AModuleList (l : list GATConv)
| ALinear (l : Linear) (b : list R)
| ABool (b : bool)
| AFloat (q : Q)
| AParams (l : list Param).

Module StandGAT1.

Record t : Type := mk {
  conv1 : GATConv;
  is_add_self_loops : bool;
  reg_params : list Param;
  non_reg_params : list Param;
  training : bool
}.

(** [StandGAT1.__init__] *)
Definition init (rnd : Init) (nfeat nhid nclass : nat) (dropout : Q)
    (nlayer : Z) (is_add_self_loops : bool) : Result t :=
  conv1 ← GATConv_new rnd 0 nfeat nclass 1 true;
  Ok {| conv1 := conv1;
        is_add_self_loops := is_add_self_loops;
        reg_params := [];
        non_reg_params := GATConv_parameters conv1;
        training := true |}.

(** The attributes the constructor leaves on the instance. *)
Definition attrs (self : t) : gmap string Attr :=
  <["non_reg_params" := AParams (non_reg_params self)]>
  (<["reg_params" := AParams (reg_params self)]>
  (<["is_add_self_loops" := ABool (is_add_self_loops self)]>
  (<["conv1" := AConv (conv1 self)]>
  (<["training" := ABool (training self)]> ∅)))).

Definition set_conv1 (c : GATConv) (self : t) : t :=
  mk c (is_add_self_loops self) (reg_params self) (non_reg_params self)
     (training self).

(** [StandGAT1.forward]; [edge_weight] is not used. *)
Definition forward (x : Tensor) (adj : Adj) (edge_weight : option PySeq)
  : M t Tensor :=
  self ← get_self;
  let edge_index := adj in
  '(x, edge_index) ←
    zoom conv1 set_conv1 (call_conv x edge_index None (is_add_self_loops self));
  let x := F_relu x in
  mret x.

(** Modelled from the spec: [model.train(mode)] of the tensor library (the
    "dropout training/inference flag" supplied by the training loop): the
    flag is set on the model and on every layer in it. *)
Definition train (mode : bool) (self : t) : t :=
  mk (set_training (conv1 self) mode) (is_add_self_loops self)
     (reg_params self) (non_reg_params self) mode.

End StandGAT1.

Module StandGAT2.

Record t : Type := mk {
  conv1 : GATConv;
  conv2 : GATConv;
  dropout_p : Q;
  is_add_self_loops : bool;
  reg_params : list Param;
  non_reg_params : list Param;
  training : bool
}.

(** [StandGAT2.__init__] *)
Definition init (rnd : Init) (nfeat nhid nclass : nat) (dropout : Q)
    (nlayer : Z) : Result t :=
  let num_head := 4 in
  let head_dim := nhid / num_head in
  conv1 ← GATConv_new rnd 0 nfeat head_dim num_head true;
  conv2 ← GATConv_new rnd 4 nhid nclass 1 false;
  Ok {| conv1 := conv1;
        conv2 := conv2;
        dropout_p := dropout;
        is_add_self_loops := true;
        reg_params := GATConv_parameters conv1;
        non_reg_params := GATConv_parameters conv2;
        training := true |}.

Definition attrs (self : t) : gmap string Attr :=
  <["non_reg_params" := AParams (non_reg_params self)]>
  (<["reg_params" := AParams (reg_params self)]>
  (<["is_add_self_loops" := ABool (is_add_self_loops self)]>
  (<["dropout_p" := AFloat (dropout_p self)]>
  (<["conv2" := AConv (conv2 self)]>
  (<["conv1" := AConv (conv1 self)]>
  (<["training" := ABool (training self)]> ∅)))))).

Definition set_conv1 (c : GATConv) (self : t) : t :=
  mk c (conv2 self) (dropout_p self) (is_add_self_loops self)
     (reg_params self) (non_reg_params self) (training self).

Definition set_conv2 (c : GATConv) (self : t) : t :=
  mk (conv1 self) c (dropout_p self) (is_add_self_loops self)
     (reg_params self) (non_reg_params self) (training self).

(** [StandGAT2.forward]; [edge_weight] is not used. *)
Definition forward (x : Tensor) (adj : Adj) (edge_weight : option PySeq)
  : M t Tensor :=
  self ← get_self;
  let edge_index := adj in
  '(x, edge_index) ←
    zoom conv1 set_conv1 (call_conv x edge_index None (is_add_self_loops self));
  let x := F_relu x in
  x ← F_dropout_tensor x (dropout_p self) (training self);
  '(x, edge_index) ←
    zoom conv2 set_conv2 (call_conv x edge_index None (is_add_self_loops self));
  mret x.

(** Modelled from the spec: [model.train(mode)] of the tensor library (the
    "dropout training/inference flag" supplied by the training loop): the
    flag is set on the model and on every layer in it. *)
Definition train (mode : bool) (self : t) : t :=
  mk (set_training (conv1 self) mode) (set_training (conv2 self) mode)
     (dropout_p self) (is_add_self_loops self)
     (reg_params self) (non_reg_params self) mode.

End StandGAT2.

Module StandGATX.

Record t : Type := mk {
  conv1 : GATConv;
  conv2 : GATConv;
  convx : list GATConv;
  dropout_p : Q;
  is_add_self_loops : bool;
  reg_params : list Param;
  non_reg_params : list Param;
  training : bool
}.

(** [StandGATX.__init__] *)
Definition init (rnd : Init) (nfeat nhid nclass : nat) (dropout : Q)
    (nlayer : Z) : Result t :=
  let num_head := 4 in
  let head_dim := nhid / num_head in
  conv1 ← GATConv_new rnd 0 nfeat head_dim num_head true;
  conv2 ← GATConv_new rnd 4 nhid nclass 1 true;
  convx ← mapM (fun i => GATConv_new rnd (8 + 4 * i) nhid head_dim num_head true)
               (seq 0 (Z.to_nat (nlayer - 2)));
  Ok {| conv1 := conv1;
        conv2 := conv2;
        convx := convx;
        dropout_p := dropout;
        is_add_self_loops := true;
        reg_params := GATConv_parameters conv1 ++ flat_map GATConv_parameters convx;
        non_reg_params := GATConv_parameters conv2;
        training := true |}.

Definition attrs (self : t) : gmap string Attr :=
  <["non_reg_params" := AParams (non_reg_params self)]>
  (<["reg_params" := AParams (reg_params self)]>
  (<["is_add_self_loops" := ABool (is_add_self_loops self)]>
  (<["dropout_p" := AFloat (dropout_p self)]>
  (<["convx" := AModuleList (convx self)]>
  (<["conv2" := AConv (conv2 self)]>
  (<["conv1" := AConv (conv1 self)]>
  (<["training" := ABool (training self)]> ∅))))))).

Definition set_conv1 (c : GATConv) (self : t) : t :=
  mk c (conv2 self) (convx self) (dropout_p self) (is_add_self_loops self)
     (reg_params self) (non_reg_params self) (training self).

Definition set_conv2 (c : GATConv) (self : t) : t :=
  mk (conv1 self) c (convx self) (dropout_p self) (is_add_self_loops self)
     (reg_params self) (non_reg_params self) (training self).

Definition set_convx (i : nat) (c : GATConv) (self : t) : t :=
  mk (conv1 self) (conv2 self) (<[i := c]> (convx self)) (dropout_p self)
     (is_add_self_loops self) (reg_params self) (non_reg_params self)
     (training self).

(** The loop [for iter_layer in self.convx], over the layer positions. *)
Fixpoint middle_layers (positions : list nat) (x : Tensor) (edge_index : Adj)
  : M t (Tensor * Adj) :=
  match positions with
  | [] => mret (x, edge_index)
  | i :: rest =>
      self ← get_self;
      x ← F_dropout_tensor x (dropout_p self) (training self);
      '(x, edge_index) ←
        zoom (fun s => nth i (convx s) (conv1 s)) (set_convx i)
             (call_conv x edge_index None (is_add_self_loops self));
      let x := F_relu x in
      middle_layers rest x edge_index
  end.

(** The body of [StandGATX.forward] up to its last assignment: the local
    variables [x] and [edge_index] after the final layer. *)
Definition forward_locals (x : Tensor) (adj : Adj) (edge_weight : option PySeq)
  : M t (Tensor * Adj) :=
  self ← get_self;
  let edge_index := adj in
  '(x, edge_index) ←
    zoom conv1 set_conv1 (call_conv x edge_index None (is_add_self_loops self));
  let x := F_relu x in
  '(x, edge_index) ← middle_layers (seq 0 (length (convx self))) x edge_index;
  x ← F_dropout_tensor x (dropout_p self) (training self);
  zoom conv2 set_conv2
       (call_conv x edge_index edge_weight (is_add_self_loops self)).

(** [StandGATX.forward] *)
Definition forward (x : Tensor) (adj : Adj) (edge_weight : option PySeq)
  : M t Tensor :=
  '(x, _) ← forward_locals x adj edge_weight;
  mret x.

(** Modelled from the spec: [model.train(mode)] of the tensor library (the
    "dropout training/inference flag" supplied by the training loop): the
    flag is set on the model and on every layer in it. *)
Definition train (mode : bool) (self : t) : t :=
  mk (set_training (conv1 self) mode) (set_training (conv2 self) mode)
     (map (fun c => set_training c mode) (convx self))
     (dropout_p self) (is_add_self_loops self)
     (reg_params self) (non_reg_params self) mode.

End StandGATX.

Module StandGATEncoder.

Record t : Type := mk {
  conv1 : GATConv;
  conv2 : GATConv;
  dropout : Q;
  is_add_self_loops : bool;
  training : bool
}.

(** [StandGATEncoder.__init__] *)
Definition init (rnd : Init) (nfeat nhid nembed : nat) (dropout : Q)
    (is_add_self_loops : bool) : Result t :=
  let num_head := 8 in
  let head_dim := nhid / num_head in
  let head_dim_2 := nembed / num_head in
  conv1 ← GATConv_new rnd 0 nfeat head_dim_2 num_head true;
  conv2 ← GATConv_new rnd 4 nhid head_dim_2 num_head true;
  Ok {| conv1 := conv1;
        conv2 := conv2;
        dropout := dropout;
        is_add_self_loops := is_add_self_loops;
        training := true |}.

Definition attrs (self : t) : gmap string Attr :=
  <["is_add_self_loops" := ABool (is_add_self_loops self)]>
  (<["dropout" := AFloat (dropout self)]>
  (<["conv2" := AConv (conv2 self)]>
  (<["conv1" := AConv (conv1 self)]>
  (<["training" := ABool (training self)]> ∅)))).

Definition set_conv1 (c : GATConv) (self : t) : t :=
  mk c (conv2 self) (dropout self) (is_add_self_loops self) (training self).

(** [StandGATEncoder.forward]: the second layer is not called. *)
Definition forward (x : Tensor) (adj : Adj) (edge_weight : option PySeq)
  : M t Tensor :=
  self ← get_self;
  let edge_index := adj in
  '(x, edge_index) ←
    zoom conv1 set_conv1 (call_conv x edge_index None (is_add_self_loops self));
  x ← F_dropout_tensor x (dropout self) (training self);
  let x := F_elu x in
  mret x.

(** Modelled from the spec: [model.train(mode)] of the tensor library (the
    "dropout training/inference flag" supplied by the training loop): the
    flag is set on the model and on every layer in it. *)
Definition train (mode : bool) (self : t) : t :=
  mk (set_training (conv1 self) mode) (set_training (conv2 self) mode)
     (dropout self) (is_add_self_loops self) mode.

End StandGATEncoder.

Module StandGATClssifier.

Record t : Type := mk {
  conv1 : GATConv;
  conv2 : GATConv;
  fakereal : Linear;
  fakereal_bias : list R;
  dropout_p : Q;
  is_add_self_loops : bool;
  training : bool
}.

(** [StandGATClssifier.__init__], with the re-initialisation of the
    weight of [fakereal] by [reset_parameters]. *)
Definition init (rnd : Init) (nembed nhid nclass : nat) (dropout : Q)
    (nlayer : Z) : Result t :=
  let num_head := 8 in
  let head_dim := nhid / num_head in
  conv1 ← GATConv_new rnd 0 nembed head_dim num_head true;
  conv2 ← GATConv_new rnd 4 nhid nclass 1 false;
  Ok {| conv1 := conv1;
        conv2 := conv2;
        fakereal := mkLinear nhid 2 (rnd 10 [2; nhid]);
        fakereal_bias := rnd 9 [2];
        dropout_p := dropout;
        is_add_self_loops := true;
        training := true |}.

Definition attrs (self : t) : gmap string Attr :=
  <["is_add_self_loops" := ABool (is_add_self_loops self)]>
  (<["dropout_p" := AFloat (dropout_p self)]>
  (<["fakereal" := ALinear (fakereal self) (fakereal_bias self)]>
  (<["conv2" := AConv (conv2 self)]>
  (<["conv1" := AConv (conv1 self)]>
  (<["training" := ABool (training self)]> ∅))))).

Definition set_conv1 (c : GATConv) (self : t) : t :=
  mk c (conv2 self) (fakereal self) (fakereal_bias self) (dropout_p self)
     (is_add_self_loops self) (training self).

Definition set_conv2 (c : GATConv) (self : t) : t :=
  mk (conv1 self) c (fakereal self) (fakereal_bias self) (dropout_p self)
     (is_add_self_loops self) (training self).

(** The four values returned by the classifier. *)
Record Outputs : Type := mkOutputs {
  logits : Tensor;
  fakeorreal : Tensor;
  x_class : Tensor;
  x_fakereal : Tensor
}.

(** [StandGATClssifier.forward] *)
Definition forward (x : Tensor) (adj : Adj) (edge_weight : option PySeq)
  : M t Outputs :=
  self ← get_self;
  let edge_index := adj in
  '(x, edge_index) ←
    zoom conv1 set_conv1 (call_conv x edge_index None (is_add_self_loops self));
  let x := F_relu x in
  x ← F_dropout_tensor x (dropout_p self) (training self);
  '(logits, edge_index) ←
    zoom conv2 set_conv2 (call_conv x edge_index None (is_add_self_loops self));
  fakeorreal ← lift (Linear_call (fakereal self) x);
  let fakeorreal := add_bias fakeorreal (fakereal_bias self) in
  x_class ← lift (F_log_softmax_dim1 logits);
  x_fakereal ← lift (F_log_softmax_dim1 fakeorreal);
  mret {| logits := logits; fakeorreal := fakeorreal;
          x_class := x_class; x_fakereal := x_fakereal |}.

(** Modelled from the spec: [model.train(mode)] of the tensor library (the
    "dropout training/inference flag" supplied by the training loop): the
    flag is set on the model and on every layer in it. *)
Definition train (mode : bool) (self : t) : t :=
  mk (set_training (conv1 self) mode) (set_training (conv2 self) mode)
     (fakereal self) (fakereal_bias self) (dropout_p self)
     (is_add_self_loops self) mode.

End StandGATClssifier.

(** ** The model factory *)

(** An instance of one of the stacked-model classes. *)
Inductive Model : Type :=
| IsStandGAT1 (m : StandGAT1.t)
| IsStandGAT2 (m : StandGAT2.t)
| IsStandGATX (m : StandGATX.t)
| IsStandGATEncoder (m : StandGATEncoder.t)
| IsStandGATClssifier (m : StandGATClssifier.t).

(** The attributes a model instance carries after construction: those its
    [__init__] assigns, and the [training] flag of every module. *)
Definition vars (m : Model) : gmap string Attr :=
  match m with
  | IsStandGAT1 m => StandGAT1.attrs m
  | IsStandGAT2 m => StandGAT2.attrs m
  | IsStandGATX m => StandGATX.attrs m
  | IsStandGATEncoder m => StandGATEncoder.attrs m
  | IsStandGATClssifier m => StandGATClssifier.attrs m
  end.

(** [getattr(m, name)] for the attributes of the instance. *)
Definition getattr (m : Model) (name : string) : Result Attr :=
  match vars m !! name with
  | Some a => Ok a
  | None => Raise AttributeError
  end.

(** The attention layers of a model in the order of its forward pass: the
    earlier ones and the final one. *)
Definition earlier_layers (m : Model) : list GATConv :=
  match m with
  | IsStandGAT1 _ => []
  | IsStandGAT2 m => [StandGAT2.conv1 m]
  | IsStandGATX m => StandGATX.conv1 m :: StandGATX.convx m
  | IsStandGATEncoder m => [StandGATEncoder.conv1 m]
  | IsStandGATClssifier m => [StandGATClssifier.conv1 m]
  end.

Definition final_layer (m : Model) : GATConv :=
  match m with
  | IsStandGAT1 m => StandGAT1.conv1 m
  | IsStandGAT2 m => StandGAT2.conv2 m
  | IsStandGATX m => StandGATX.conv2 m
  | IsStandGATEncoder m => StandGATEncoder.conv2 m
  | IsStandGATClssifier m => StandGATClssifier.conv2 m
  end.

(** [create_gat]: the local [model] is bound by one of the four branches or
    stays unbound, and [return model] reads it. *)
Definition create_gat (rnd : Init) (nfeat nhid nclass : nat) (dropout : Q)
    (nlayer : Z) (nembed : nat) : Result Model :=
  model ←
    (if (nlayer =? 1)%Z then
       m ← StandGAT1.init rnd nfeat nhid nclass dropout nlayer true;
       Ok (Some (IsStandGAT1 m))
     else if (nlayer =? 2)%Z then
       m ← StandGAT2.init rnd nfeat nhid nclass dropout nlayer;
       Ok (Some (IsStandGAT2 m))
     else if (nlayer =? 3)%Z then
       m ← StandGATEncoder.init rnd nfeat nhid nembed dropout true;
       Ok (Some (IsStandGATEncoder m))
     else if (nlayer =? 4)%Z then
       m ← StandGATClssifier.init rnd nhid nembed nclass dropout 2;
       Ok (Some (IsStandGATClssifier m))
     else Ok None);
  match model with
  | Some model => Ok model
  | None => Raise UnboundLocalError
  end.

(** ** Derived notions used in the statements *)

(** The per-edge scores that [message] normalises: the sum of the source
    and target terms (the source term alone without target terms) after
    the leaky rectification. *)
Definition edge_scores (self : GATConv) (alpha_j : Alpha) (alpha_i : option Alpha)
  : Alpha :=
  leaky_relu (match alpha_i with
              | None => alpha_j
              | Some a_i => zip_with (zip_with Rplus) alpha_j a_i
              end) (negative_slope self).

(** Steps 9 and 10 of [forward]: head combination and bias. *)
Definition head_output (self : GATConv) (out : Tensor3) : Result Tensor :=
  out ← (if concat self then view2 out (heads self * out_channels self)
         else Ok (mean_dim1 out (heads self) (out_channels self)));
  Ok (match bias self with
      | Some b => add_bias out b
      | None => out
      end).

(** Step 11 of [forward]: what is returned next to the features. *)
Definition export (return_attention_weights : PyVal) (edge_index : Adj)
    (alpha : Alpha) : Second :=
  if isinstance_bool return_attention_weights then
    match edge_index with
    | EdgeIndex ei => WithAttention ei alpha
    | Sparse adj_t => Plain (Sparse (set_value adj_t alpha))
    end
  else Plain edge_index.

(** The edge structure inside a returned second component. *)
Definition returned_edges (s : Second) : Adj :=
  match s with
  | WithAttention ei _ => EdgeIndex ei
  | Plain a => a
  end.

(** The attention weights inside a returned second component, if any. *)
Definition returned_attention (s : Second) : option Alpha :=
  match s with
  | WithAttention _ a => Some a
  | Plain (Sparse adj_t) => value adj_t
  | Plain (EdgeIndex _) => None
  end.


(** The number of rows of a feature tensor: the product of its leading
    dimensions. *)
Definition node_count (t : Tensor) : nat :=
  fold_right Nat.mul 1 (removelast (shape t)).

(** The node count of the self-loop adjustment as the specification words
    it, from the source-side and target-side node counts: "the minimum of
    source-side and target-side node counts (or explicit size override)".
    Without target features only the source side counts; an override with
    fewer than two entries names no count. *)
Definition spec_num_nodes (n_src : nat) (n_dst : option nat) (size : option PySeq)
  : option Z :=
  match size with
  | Some (a :: b :: _) => Some (Z.min a b)
  | Some _ => None
  | None =>
      Some (match n_dst with
            | Some m => Z.min (Z.of_nat n_src) (Z.of_nat m)
            | None => Z.of_nat n_src
            end)
  end.

(** A layer whose projections have [heads * out_channels] outputs, as the
    constructor builds them. *)
Definition well_formed (self : GATConv) : Prop :=
  out_features (lin_l self) = heads self * out_channels self
  /\ out_features (lin_r self) = heads self * out_channels self.

(** The self-loops on the nodes [0 .. n-1], in index order. *)
Definition self_loops (n : nat) : list Edge := map (fun i => (i, i)) (seq 0 n).

(** An edge list over the nodes [0 .. N-1]. *)
Definition in_bounds (N : nat) (ei : list Edge) : Prop :=
  Forall (fun e => fst e < N /\ snd e < N) ei.

(** A middle layer of the N-layer model, up to its [_alpha] and mode: it
    maps [nhid] features to [nhid] features over concatenated heads. *)
Definition hidden_layer (nhid : nat) (c : GATConv) : Prop :=
  well_formed c
  /\ in_features (lin_l c) = nhid
  /\ heads c * out_channels c = nhid
  /\ concat c = true
  /\ Qle_bool 0 (dropout c) && Qle_bool (dropout c) 1 = true.

(** A list of [H] rows of [C] entries. *)
Definition is_matrix (H C : nat) (m : list (list R)) : Prop :=
  length m = H /\ Forall (fun r => length r = C) m.

(** The tensor whose rank [forward] asserts. *)
Definition checked_tensor (x : Features) : Tensor :=
  match x with
  | XTensor t => t
  | XPair t _ => t
  end.


(** The name of the class of a model instance. *)
Definition class_name (m : Model) : string :=
  match m with
  | IsStandGAT1 _ => "StandGAT1"
  | IsStandGAT2 _ => "StandGAT2"
  | IsStandGATX _ => "StandGATX"
  | IsStandGATEncoder _ => "StandGATEncoder"
  | IsStandGATClssifier _ => "StandGATClssifier"
  end.

(** A model exposes its two parameter groups when [reg_params] holds the
    parameters of its earlier layers and [non_reg_params] those of its final
    layer. *)
Definition exposes_parameter_groups (m : Model) : Prop :=
  vars m !! "reg_params"%string
    = Some (AParams (flat_map GATConv_parameters (earlier_layers m)))
  /\ vars m !! "non_reg_params"%string
    = Some (AParams (GATConv_parameters (final_layer m))).




(** ** Concrete layers and graphs *)

(** An initialiser that writes ones. *)
Definition glorot_ones : Init := fun _ sh => repeat 1%R (fold_right Nat.mul 1 sh).

Definition rng_keep : Rng := {| draws := fun _ => true; pos := 0 |}.

(** The path graph on four nodes with three input features, one head and
    two output channels, in inference mode. *)
Definition path_layer : GATConv :=
  set_training (returned (GATConv_new glorot_ones 0 3 2 1 true) eq_refl) false.

Definition path_x : Features :=
  XTensor {| shape := [4; 3];
             data := [1; 0; 0;  0; 1; 0;  0; 0; 1;  1; 1; 1]%R |}.

Definition path_edges : Adj := EdgeIndex [(0, 1); (1, 2); (2, 3)].








(** The features and the edges of the path graph, as the stacked models
    take them. *)
Definition path_tensor : Tensor :=
  {| shape := [4; 3];
     data := [1; 0; 0;  0; 1; 0;  0; 0; 1;  1; 1; 1]%R |}.

Definition path_edge_list : list Edge := [(0, 1); (1, 2); (2, 3)].

(** Self-loops on two of the four nodes and nothing else. *)
Definition loops_only : list Edge := [(0, 0); (2, 2)].

(** * Properties *)

(** Run a layer on concrete inputs, leaving the real-number operations
    unevaluated. *)
Ltac run_layer := lazy -[exp Rmax Rmin Q2R]; reflexivity.

(** ** Running the monad *)

Lemma bind_run {T A B} (m : M T A) (k : A -> M T B) s :
  (m ≫= k) s = match m s with
               | (Ok a, s') => k a s'
               | (Raise e, s') => (Raise e, s')
               end.
Proof. reflexivity. Qed.

Lemma F_dropout_self {T} a p tr (s : T * Rng) :
  fst (snd (F_dropout a p tr s)) = fst s.
Proof.
  unfold F_dropout.
  destruct (negb (Qle_bool 0 p) || negb (Qle_bool p 1)); [reflexivity|].
  destruct tr; reflexivity.
Qed.

(** Outside training mode dropout neither reads nor advances the random
    stream. *)
Lemma F_dropout_eval {T} a p (s : T * Rng) :
  F_dropout a p false s
  = (if negb (Qle_bool 0 p) || negb (Qle_bool p 1) then Raise ValueError else Ok a, s).
Proof.
  unfold F_dropout.
  destruct (negb (Qle_bool 0 p) || negb (Qle_bool p 1)); reflexivity.
Qed.

Lemma message_run x_j alpha_j alpha_i index ptr size_i self g :
  message x_j alpha_j alpha_i index ptr size_i (self, g) =
  match softmax (edge_scores self alpha_j alpha_i) index ptr size_i with
  | Raise e => (Raise e, (self, g))
  | Ok a =>
      match F_dropout a (dropout self) (training self) (set_alpha self (Some a), g) with
      | (Ok a', s') =>
          (Ok (zip_with (fun xe ae => zip_with (fun xh a => map (Rmult a) xh) xe ae)
                        x_j a'), s')
      | (Raise e, s') => (Raise e, s')
      end
  end.
Proof.
  unfold message. rewrite bind_run. cbn [get_self fst snd].
  rewrite bind_run. unfold lift at 1. fold (edge_scores self alpha_j alpha_i).
  destruct (softmax _ _ _ _) as [a|e]; [|reflexivity].
  rewrite bind_run. cbn [put_self fst snd]. rewrite bind_run.
  cbn [dropout training set_alpha].
  destruct (F_dropout _ _ _ _) as [[a'|e] s']; reflexivity.
Qed.

Lemma propagate_run edge_index x alpha size self g :
  propagate edge_index x alpha size (self, g) =
  match check_input edge_index size with
  | Raise e => (Raise e, (self, g))
  | Ok sz =>
      match collect edge_index x alpha sz with
      | Raise e => (Raise e, (self, g))
      | Ok c =>
          match message (x_j c) (alpha_j c) (alpha_i c) (index c) (ptr c) (size_i c)
                        (self, g) with
          | (Ok msg, s') =>
              (scatter_add msg (index c) (size_i c) (heads self) (out_channels self), s')
          | (Raise e, s') => (Raise e, s')
          end
      end
  end.
Proof.
  unfold propagate. rewrite bind_run. cbn [get_self fst snd].
  rewrite bind_run. unfold lift at 1.
  destruct (check_input _ _) as [sz|e]; [|reflexivity].
  rewrite bind_run. unfold lift at 1.
  destruct (collect _ _ _ _) as [c|e]; [|reflexivity].
  rewrite bind_run.
  destruct (message _ _ _ _ _ _ _) as [[msg|e] s']; reflexivity.
Qed.

(** The layer after message passing: untouched when [message] was not
    reached or failed in the normalisation, else holding the normalised
    coefficients in [_alpha]. *)
Lemma propagate_state edge_index x alpha size self g r s' :
  propagate edge_index x alpha size (self, g) = (r, s') ->
  (fst s' = self /\ is_ok r = false)
  \/ exists sz c a,
       check_input edge_index size = Ok sz
       /\ collect edge_index x alpha sz = Ok c
       /\ softmax (edge_scores self (alpha_j c) (alpha_i c))
                  (index c) (ptr c) (size_i c) = Ok a
       /\ fst s' = set_alpha self (Some a).
Proof.
  rewrite propagate_run.
  destruct (check_input _ _) as [sz|e] eqn:Hci; [|intros [= <- <-]; left; auto].
  destruct (collect _ _ _ _) as [c|e] eqn:Hco; [|intros [= <- <-]; left; auto].
  rewrite message_run.
  destruct (softmax _ _ _ _) as [a|e] eqn:Hs; [|intros [= <- <-]; left; auto].
  pose proof (F_dropout_self a (dropout self) (training self)
                (set_alpha self (Some a), g)) as Hd.
  destruct (F_dropout _ _ _ _) as [[a'|e] s1]; cbn [fst snd] in Hd;
    intros [= <- <-]; right; exists sz, c, a; repeat split; auto.
Qed.

Lemma forward_run x edge_index size rw flag self g :
  forward x edge_index size rw flag (self, g) =
  match shape_1 edge_index with
  | Raise e => (Raise e, (self, g))
  | Ok _ =>
  match project self x with
  | Raise e => (Raise e, (self, g))
  | Ok (x_l, x_r, alpha_l, alpha_r) =>
      match adjust_self_loops flag edge_index x_l x_r size with
      | Raise e => (Raise e, (self, g))
      | Ok edge_index' =>
          match propagate edge_index' (x_l, x_r) (alpha_l, alpha_r) size (self, g) with
          | (Raise e, s') => (Raise e, s')
          | (Ok out, s') =>
              let s'' := (set_alpha (fst s') None, snd s') in
              match (if concat (fst s')
                     then view2 out (heads self * out_channels self)
                     else Ok (mean_dim1 out (heads self) (out_channels self))) with
              | Raise e => (Raise e, s'')
              | Ok out =>
                  let out := match bias (fst s') with
                             | Some b => add_bias out b
                             | None => out
                             end in
                  if isinstance_bool rw then
                    match _alpha (fst s') with
                    | None => (Raise AssertionError, s'')
                    | Some alpha => (Ok (out, export rw edge_index' alpha), s'')
                    end
                  else (Ok (out, Plain edge_index'), s'')
              end
          end
      end
  end
  end.
Proof.
  unfold forward. rewrite bind_run. cbn [get_self fst snd].
  rewrite bind_run. unfold lift at 1.
  destruct (shape_1 edge_index) as [original_size|e]; [|reflexivity].
  rewrite bind_run. unfold lift at 1.
  destruct (project self x) as [[[[x_l x_r] alpha_l] alpha_r]|e]; [|reflexivity].
  rewrite bind_run. unfold lift at 1.
  destruct (adjust_self_loops _ _ _ _ _) as [edge_index'|e]; [|reflexivity].
  rewrite bind_run.
  destruct (propagate _ _ _ _ _) as [[out|e] [self' g']]; [|reflexivity].
  rewrite bind_run. cbn [get_self fst snd].
  rewrite bind_run. cbn [put_self fst snd].
  rewrite bind_run.
  destruct (concat self').
  - unfold lift at 1. destruct (view2 _ _) as [o|e]; [|reflexivity].
    unfold export. destruct (isinstance_bool rw); [|reflexivity].
    destruct (_alpha self'); [|reflexivity].
    destruct edge_index'; reflexivity.
  - cbn [mret M_ret ret].
    unfold export. destruct (isinstance_bool rw); [|reflexivity].
    destruct (_alpha self'); [|reflexivity].
    destruct edge_index'; reflexivity.
Qed.


(** For an edge-index tensor the first line of [forward] has no effect. *)
Ltac skip_shape :=
  match goal with
  | |- context [shape_1 ?e] =>
      destruct (shape_1 e) as [?original_size|?e];
      [|first [reflexivity | discriminate | eauto; fail]]
  | H : context [shape_1 ?e] |- _ =>
      destruct (shape_1 e) as [?original_size|?e]; [|first [discriminate H | congruence]]
  end.

(** What a returning [forward] went through. *)
Lemma forward_ok x edge_index size rw flag self g out second s' :
  forward x edge_index size rw flag (self, g) = (Ok (out, second), s') ->
  exists x_l x_r alpha_l alpha_r edge_index' sz c a,
    project self x = Ok (x_l, x_r, alpha_l, alpha_r)
    /\ adjust_self_loops flag edge_index x_l x_r size = Ok edge_index'
    /\ check_input edge_index' size = Ok sz
    /\ collect edge_index' (x_l, x_r) (alpha_l, alpha_r) sz = Ok c
    /\ softmax (edge_scores self (alpha_j c) (alpha_i c))
               (index c) (ptr c) (size_i c) = Ok a
    /\ (exists agg, head_output self agg = Ok out)
    /\ second = (if isinstance_bool rw then export rw edge_index' a
                 else Plain edge_index')
    /\ fst s' = set_alpha self None.
Proof.
  rewrite forward_run. skip_shape.
  destruct (project self x) as [[[[x_l x_r] alpha_l] alpha_r]|e] eqn:Hp;
    [|discriminate].
  destruct (adjust_self_loops _ _ _ _ _) as [edge_index'|e] eqn:Ha; [|discriminate].
  destruct (propagate _ _ _ _ _) as [[agg|e] s1] eqn:Hpr; [|discriminate].
  apply propagate_state in Hpr as [[_ [=]]|(sz & c & a & Hci & Hco & Hsm & Hs1)].
  rewrite Hs1. cbn [fst snd set_alpha concat bias _alpha].
  destruct (if concat self then _ else _) as [o|e] eqn:Ho; [|discriminate].
  intros H.
  exists x_l, x_r, alpha_l, alpha_r, edge_index', sz, c, a.
  repeat (split; [first [assumption | reflexivity]|]).
  assert (Hh : head_output self agg
               = Ok (match bias self with Some b => add_bias o b | None => o end)).
  { unfold head_output. rewrite Ho. reflexivity. }
  destruct (isinstance_bool rw); inversion H; subst; cbn [fst snd];
    (split; [exists agg; exact Hh|]); auto.
Qed.

(** ** Which exceptions the steps of [forward] can raise *)
















Ltac destruct_innermost H :=
  repeat match type of H with
         | context [match ?t with _ => _ end] =>
             lazymatch t with
             | context [match _ with _ => _ end] => fail
             | _ => destruct t eqn:?; cbn [fst snd] in H
             end
         end.



(** ** The rank check *)




(** ** The transient attention cache *)









(** ** Output dimensionality *)

Lemma head_output_shape self agg out :
  head_output self agg = Ok out ->
  exists n, shape out
            = [n; if concat self then heads self * out_channels self
                  else out_channels self].
Proof.
  unfold head_output, mbind, Result_bind.
  destruct (concat self).
  - unfold view2. destruct (_ =? 0); [discriminate|].
    destruct (_ mod _ =? 0); [|discriminate].
    intros [= <-]. destruct (bias self); eexists; reflexivity.
  - intros [= <-]. destruct (bias self); eexists; reflexivity.
Qed.

(** C3: every call of [forward] that returns yields a feature matrix whose
    last dimension is [heads * out_channels] when the heads are
    concatenated and [out_channels] when they are averaged. *)
Theorem forward_output_dimension x edge_index size rw flag self g out second s' :
  forward x edge_index size rw flag (self, g) = (Ok (out, second), s') ->
  dim out = 2
  /\ last_dim out = if concat self then heads self * out_channels self
                    else out_channels self.
Proof.
  intros H. apply forward_ok in H as (? & ? & ? & ? & ? & ? & ? & ? & H).
  destruct H as (_ & _ & _ & _ & _ & [agg Hh] & _).
  apply head_output_shape in Hh as [n Hn].
  unfold dim, last_dim. rewrite Hn. split; reflexivity.
Qed.

Lemma forward_output_dimension_witness :
  exists out second s',
    forward path_x path_edges None PyNone true (path_layer, rng_keep)
    = (Ok (out, second), s')
    /\ dim out = 2 /\ last_dim out = 2.
Proof.
  eexists _, _, _.
  assert (E : forall r, r = forward path_x path_edges None PyNone true (path_layer, rng_keep) ->
                        forward path_x path_edges None PyNone true (path_layer, rng_keep) = r)
    by (intros; subst; reflexivity).
  split.
  - apply E. lazy -[exp Rmax Rmin Q2R]. reflexivity.
  - eapply (forward_output_dimension path_x path_edges None PyNone true
              path_layer rng_keep).
    apply E. lazy -[exp Rmax Rmin Q2R]. reflexivity.
Defined.

(** ** Segmented softmax *)

Lemma Rsum_map_div (f : R -> R) (S : R) (l : list R) :
  Rsum (map (fun v => (f v / S)%R) l) = (Rsum (map f l) / S)%R.
Proof.
  induction l as [|v l IH]; cbn [map Rsum fold_right].
  - unfold Rdiv. ring.
  - fold (Rsum (map (fun v => (f v / S)%R) l)). fold (Rsum (map f l)).
    rewrite IH. unfold Rdiv. ring.
Qed.

Lemma Rsum_exp_nonneg (m : R) (l : list R) :
  (0 <= Rsum (map (fun u => exp (u - m)) l))%R.
Proof.
  induction l as [|v l IH]; cbn [map Rsum fold_right].
  - lra.
  - fold (Rsum (map (fun u => exp (u - m)) l)).
    pose proof (exp_pos (v - m)). lra.
Qed.

Lemma Rsum_exp_pos (m : R) (l : list R) :
  l <> [] -> (0 < Rsum (map (fun u => exp (u - m)) l))%R.
Proof.
  destruct l as [|v l]; [congruence|]. intros _.
  cbn [map Rsum fold_right]. fold (Rsum (map (fun u => exp (u - m)) l)).
  pose proof (exp_pos (v - m)). pose proof (Rsum_exp_nonneg m l). lra.
Qed.

Lemma combine_map_keys {A B C} (f : A * B -> C) (src : list A) : forall index : list B,
  combine (map f (combine src index)) index
  = map (fun p => (f p, snd p)) (combine src index).
Proof.
  induction src as [|r src IH]; intros [|d index]; cbn; try reflexivity.
  f_equal. apply IH.
Qed.

Lemma in_combine_key {A B} (src : list A) : forall (index : list B) i,
  length src = length index -> In i index -> exists r, In (r, i) (combine src index).
Proof.
  induction src as [|r src IH]; intros [|d index] i Hl Hi; cbn in *; try tauto; try discriminate.
  destruct Hi as [->|Hi].
  - exists r. auto.
  - destruct (IH index i) as [r' Hr]; [lia|assumption|]. exists r'. auto.
Qed.

Lemma softmax_mass src index ptr n a i h :
  softmax src index ptr n = Ok a ->
  Forall (fun row => h < length row) src ->
  length src = length index ->
  In i index ->
  attention_mass a index i h = 1%R.
Proof.
  unfold softmax. destruct (in_range _ _); [|discriminate].
  intros [= <-] Hrows Hlen Hi.
  unfold attention_mass, group at 1.
  rewrite combine_map_keys, filter_map_swap, map_map. cbn [fst snd].
  set (g := group src index i h).
  set (E := fun v => (exp (v - Rmaxl g) / Rsum (map (fun u => exp (u - Rmaxl g)) g))%R).
  rewrite (map_ext_in _ (fun p => E (nth h (fst p) 0%R))).
  - rewrite <- (map_map (fun p => nth h (fst p) 0%R) E).
    fold (group src index i h). fold g. unfold E.
    rewrite (Rsum_map_div (fun v => exp (v - Rmaxl g))).
    apply Rinv_r. apply Rgt_not_eq, Rsum_exp_pos.
    destruct (in_combine_key src index i Hlen Hi) as [r Hr].
    assert (Hf : In (r, i) (List.filter (fun p => snd p =? i) (combine src index))); cycle 1.
    2:{ apply filter_In. split; [assumption|]. cbn. apply Nat.eqb_refl. }
    unfold g, group. intros Hnil. apply map_eq_nil in Hnil. rewrite Hnil in Hf. destruct Hf.
  - intros [row d] Hp. apply filter_In in Hp as [Hp Hd]. cbn [fst snd] in *.
    apply Nat.eqb_eq in Hd. subst d.
    assert (Hh : h < length row).
    { apply in_combine_l in Hp. rewrite List.Forall_forall in Hrows. auto. }
    rewrite nth_lookup, list_lookup_imap.
    destruct (lookup_lt_is_Some_2 row h Hh) as [v Hv].
    rewrite Hv. cbn. rewrite (nth_lookup_Some _ _ _ _ Hv). reflexivity.
Qed.

(** ** Shapes of the projections and of the collected arguments *)

Lemma index_select_ok {A} (src : list A) idx l :
  index_select src idx = Ok l ->
  length l = length idx /\ Forall (fun r => In r src) l.
Proof.
  unfold index_select. destruct (mapM _ _) as [k|] eqn:Hm; [|discriminate].
  intros [= <-]. apply mapM_Some_1 in Hm.
  split; [symmetry; eapply Forall2_length; eauto|].
  induction Hm as [|i y idx k Hy _ IH]; constructor; [|assumption].
  apply list_elem_of_In. eapply list_elem_of_lookup_2. eassumption.
Qed.

Lemma length_unflatten n m d : length (unflatten n m d) = n.
Proof. unfold unflatten. rewrite length_map, length_seq. reflexivity. Qed.

Lemma unflatten_rows n m d : Forall (fun row => length row = m) (unflatten n m d).
Proof.
  unfold unflatten. apply List.Forall_forall. intros row Hin.
  apply in_map_iff in Hin as (i & <- & _).
  rewrite length_map, length_seq. reflexivity.
Qed.

Lemma att_score_rows H (x : Tensor3) att :
  Forall (fun node => length node = H) x ->
  length att = H ->
  Forall (fun row => length row = H) (att_score x att).
Proof.
  intros Hx Ha. unfold att_score. apply List.Forall_forall. intros row Hin.
  apply in_map_iff in Hin as (node & <- & Hn).
  rewrite List.Forall_forall in Hx. rewrite length_zip_with, (Hx _ Hn), Ha. lia.
Qed.

Lemma fold_mul_snoc l k :
  fold_right Nat.mul 1 (l ++ [k]) = fold_right Nat.mul 1 l * k.
Proof. induction l as [|a l IH]; cbn; [lia|]. rewrite IH. lia. Qed.

Lemma view3_ok t H C x :
  view3 t H C = Ok x ->
  H * C <> 0
  /\ length x = numel t / (H * C)
  /\ Forall (fun node => length node = H) x.
Proof.
  unfold view3. destruct (H * C =? 0) eqn:Hz; [discriminate|].
  apply Nat.eqb_neq in Hz.
  destruct (_ mod _ =? 0); [|discriminate]. intros [= <-].
  split; [assumption|]. split.
  - rewrite length_map, length_unflatten. reflexivity.
  - apply List.Forall_forall. intros node Hin.
    apply in_map_iff in Hin as (row & <- & _). apply length_unflatten.
Qed.

Lemma Linear_call_ok l x y :
  Linear_call l x = Ok y -> shape y = removelast (shape x) ++ [out_features l].
Proof.
  unfold Linear_call. destruct (dim x); [discriminate|].
  destruct (_ =? _); [|discriminate]. intros [= <-]. reflexivity.
Qed.

(** Projecting a tensor and viewing it as (-1, H, C) keeps one row per
    row of the input, when the layer projects onto [H * C] channels. *)
Lemma projected_rows l t H C y x :
  out_features l = H * C ->
  Linear_call l t = Ok y -> view3 y H C = Ok x ->
  length x = node_count t /\ Forall (fun node => length node = H) x.
Proof.
  intros Ho Hl Hv. apply Linear_call_ok in Hl.
  apply view3_ok in Hv as (Hz & Hlen & Hrows). split; [|assumption].
  rewrite Hlen. unfold numel, node_count. rewrite Hl, fold_mul_snoc, Ho.
  apply Nat.div_mul. assumption.
Qed.

Lemma project_rows self x x_l x_r alpha_l alpha_r :
  project self x = Ok (x_l, x_r, alpha_l, alpha_r) ->
  length alpha_l = length x_l
  /\ Forall (fun row => length row = heads self) alpha_l
  /\ match x_r, alpha_r with
     | Some x_r, Some alpha_r =>
         length alpha_r = length x_r
         /\ Forall (fun row => length row = heads self) alpha_r
     | None, None => True
     | _, _ => False
     end.
Proof.
  assert (Hatt : forall att, length (att_rows self att) = heads self)
    by (intros; apply length_unflatten).
  assert (Hlen : forall (y : Tensor3) att, length (att_score y att) = length y)
    by (intros; apply length_map).
  unfold project, mbind, Result_bind. intros H.
  destruct x as [t|t0 [t1|]]; destruct_innermost H; try discriminate;
    injection H as <- <- <- <-;
    repeat match goal with
           | H : view3 _ _ _ = Ok _ |- _ => apply view3_ok in H as (_ & _ & H)
           end;
    repeat split; auto using att_score_rows.
Qed.

Lemma length_sources_destinations e : length (sources e) = length (destinations e).
Proof. destruct e; cbn; rewrite !length_map; reflexivity. Qed.

Lemma collect_ok edge_index x alpha sz c :
  collect edge_index x alpha sz = Ok c ->
  index c = destinations edge_index
  /\ index_select (fst alpha) (sources edge_index) = Ok (alpha_j c)
  /\ match snd alpha with
     | Some ar =>
         exists ai, alpha_i c = Some ai
                    /\ index_select ar (destinations edge_index) = Ok ai
     | None => alpha_i c = None
     end.
Proof.
  unfold collect, mbind, Result_bind. destruct sz as [s0 s1].
  destruct x as [xl xr], alpha as [al ar]. cbn [fst snd]. intros H.
  destruct_innermost H; try discriminate; injection H as <-; cbn;
    repeat match goal with
           | H : Ok _ = Ok _ |- _ => injection H as ?; subst
           end;
    repeat split; eauto.
Qed.

Lemma Forall_zip_with {A B C} (P : A -> Prop) (Q : B -> Prop) (S : C -> Prop)
    (f : A -> B -> C) l k :
  (forall a b, P a -> Q b -> S (f a b)) ->
  Forall P l -> Forall Q k -> Forall S (zip_with f l k).
Proof.
  intros Hf Hl. revert k. induction Hl as [|a l Ha _ IH]; intros k Hk; cbn.
  - constructor.
  - destruct Hk as [|b k Hb Hk]; constructor; auto.
Qed.

Lemma Forall_in_Forall {A} (P : A -> Prop) src l :
  Forall P src -> Forall (fun r => In r src) l -> Forall P l.
Proof.
  rewrite !List.Forall_forall. intros Hs Hl r Hr. apply Hs, Hl, Hr.
Qed.

(** The scores normalised by [message] in a returning [forward]: one row
    per edge, one entry per head. *)
Lemma edge_scores_shape self x edge_index x_l x_r alpha_l alpha_r sz c :
  project self x = Ok (x_l, x_r, alpha_l, alpha_r) ->
  collect edge_index (x_l, x_r) (alpha_l, alpha_r) sz = Ok c ->
  length (edge_scores self (alpha_j c) (alpha_i c)) = length (index c)
  /\ Forall (fun row => length row = heads self)
            (edge_scores self (alpha_j c) (alpha_i c)).
Proof.
  intros Hp Hc. apply project_rows in Hp as (_ & Hl & Hr).
  apply collect_ok in Hc as (Hidx & Hj & Hi). cbn [fst snd] in Hj, Hi.
  apply index_select_ok in Hj as (Hjlen & Hjrows).
  pose proof (Forall_in_Forall _ _ _ Hl Hjrows) as Hjr.
  unfold edge_scores, leaky_relu. rewrite length_map, Hidx.
  destruct alpha_r as [ar|].
  - destruct x_r as [xr|]; [|contradiction]. destruct Hr as (_ & Hr).
    destruct Hi as (ai & -> & Hi). apply index_select_ok in Hi as (Hilen & Hirows).
    pose proof (Forall_in_Forall _ _ _ Hr Hirows) as Hir.
    split.
    + rewrite length_zip_with, Hjlen, Hilen, length_sources_destinations. lia.
    + apply List.Forall_forall. intros row Hin.
      apply in_map_iff in Hin as (row0 & <- & Hin). rewrite length_map.
      revert row0 Hin. apply List.Forall_forall.
      eapply Forall_zip_with; [|exact Hjr|exact Hir].
      cbn. intros a b Ha Hb. rewrite length_zip_with, Ha, Hb. lia.
  - rewrite Hi. split.
    + rewrite Hjlen. apply length_sources_destinations.
    + apply List.Forall_forall. intros row Hin.
      apply in_map_iff in Hin as (row0 & <- & Hin). rewrite length_map.
      rewrite List.Forall_forall in Hjr. auto.
Qed.

(** ** Normalisation of the attention coefficients *)

(** C1: in a returning call of [forward] that exports the attention
    weights, the coefficients of every head sum to one over the incoming
    edges of every destination node of the self-loop-adjusted edge set
    (over exact real arithmetic). *)
Theorem attention_sums_to_one x edge_index size b flag self g out second s' a i h :
  forward x edge_index size (PyBool b) flag (self, g) = (Ok (out, second), s') ->
  returned_attention second = Some a ->
  In i (destinations (returned_edges second)) ->
  h < heads self ->
  attention_mass a (destinations (returned_edges second)) i h = 1%R.
Proof.
  intros H Ha Hi Hh.
  apply forward_ok in H
    as (x_l & x_r & alpha_l & alpha_r & e' & sz & c & a0 & Hp & _ & _ & Hc & Hs & _ & Hsec & _).
  cbn [isinstance_bool] in Hsec.
  assert (Hret : returned_attention second = Some a0
                 /\ destinations (returned_edges second) = destinations e').
  { subst second. unfold export. cbn [isinstance_bool]. destruct e'; split; reflexivity. }
  destruct Hret as [Hra Hd]. rewrite Hra in Ha. injection Ha as ->.
  rewrite Hd in *.
  pose proof (collect_ok _ _ _ _ _ Hc) as (Hidx & _).
  destruct (edge_scores_shape _ _ _ _ _ _ _ _ _ Hp Hc) as (Hlen & Hrows).
  rewrite <- Hidx in *.
  eapply softmax_mass; eauto.
  eapply List.Forall_impl; [|exact Hrows]. cbn. intros row ->. exact Hh.
Qed.


Lemma attention_sums_to_one_witness :
  exists out second s' a,
    forward path_x path_edges None (PyBool true) true (path_layer, rng_keep)
    = (Ok (out, second), s')
    /\ returned_attention second = Some a
    /\ In 1 (destinations (returned_edges second))
    /\ 0 < heads path_layer
    /\ attention_mass a (destinations (returned_edges second)) 1 0 = 1%R.
Proof.
  eexists _, _, _, _.
  split; [run_layer|]. split; [reflexivity|].
  split; [cbn; auto|]. split; [cbv; lia|].
  eapply (attention_sums_to_one path_x path_edges None true true path_layer rng_keep).
  - run_layer.
  - reflexivity.
  - cbn; auto.
  - cbv; lia.
Defined.

(** ** Self-loop adjustment *)




(** The source computes the node count the specification words. *)
Lemma loop_count_spec x_l x_r size n :
  loop_count x_l x_r size = Ok n ->
  spec_num_nodes (length x_l) (length <$> x_r) size = Some n.
Proof.
  unfold loop_count, spec_num_nodes, getitem, mbind, Result_bind.
  destruct size as [[|a [|b s]]|]; cbn; try discriminate.
  - intros [= <-]. reflexivity.
  - intros [= <-]. destruct x_r; reflexivity.
Qed.

Lemma adjust_edge_list ei x_l x_r size e' :
  adjust_self_loops true (EdgeIndex ei) x_l x_r size = Ok e' ->
  exists n,
    loop_count x_l x_r size = Ok n
    /\ (0 <= n)%Z
    /\ e' = EdgeIndex (remove_self_loops ei
                         ++ map (fun i => (i, i)) (seq 0 (Z.to_nat n))).
Proof.
  unfold adjust_self_loops, add_self_loops, mbind, Result_bind.
  destruct (loop_count _ _ _) as [n|]; [|discriminate].
  destruct (n <? 0)%Z eqn:Hn; [discriminate|]. intros [= <-].
  exists n. repeat split. apply Z.ltb_ge. assumption.
Qed.



(** ** Export of the attention weights *)

Lemma softmax_length src index ptr n a :
  softmax src index ptr n = Ok a ->
  length src = length index -> length a = length index.
Proof.
  unfold softmax. destruct (in_range _ _); [|discriminate].
  intros [= <-] Hl. rewrite length_map, length_combine. lia.
Qed.

(** C9: [forward] called with [return_attention_weights=False] behaves as
    with [True]: when it returns, the attention weights (one row per edge
    of the returned edge structure) come back with the edges.  Only a value
    that is not a boolean, such as the default [None], suppresses the
    export: the plain self-loop-adjusted edge structure is returned. *)
Theorem attention_export_selected_by_type x edge_index size flag self g :
  forward x edge_index size (PyBool false) flag (self, g)
  = forward x edge_index size (PyBool true) flag (self, g)
  /\ (forall out second s',
         forward x edge_index size (PyBool false) flag (self, g)
         = (Ok (out, second), s') ->
         exists a, returned_attention second = Some a
                   /\ length a = length (destinations (returned_edges second)))
  /\ (forall rw out second s',
         isinstance_bool rw = false ->
         forward x edge_index size rw flag (self, g) = (Ok (out, second), s') ->
         exists x_l x_r alpha_l alpha_r edge_index',
           project self x = Ok (x_l, x_r, alpha_l, alpha_r)
           /\ adjust_self_loops flag edge_index x_l x_r size = Ok edge_index'
           /\ second = Plain edge_index').
Proof.
  split; [|split].
  - rewrite !forward_run. reflexivity.
  - intros out second s' H.
    apply forward_ok in H
      as (x_l & x_r & al & ar & e' & sz & c & a & Hp & _ & _ & Hc & Hs & _ & Hsec & _).
    exists a. cbn [isinstance_bool] in Hsec. unfold export in Hsec.
    cbn [isinstance_bool] in Hsec.
    destruct (edge_scores_shape _ _ _ _ _ _ _ _ _ Hp Hc) as (Hlen & _).
    apply softmax_length in Hs; [|assumption].
    apply collect_ok in Hc as (Hidx & _). rewrite Hidx in Hs.
    subst second. destruct e'; cbn; auto.
  - intros rw out second s' Hrw H.
    apply forward_ok in H
      as (x_l & x_r & al & ar & e' & sz & c & a & Hp & Ha & _ & _ & _ & _ & Hsec & _).
    rewrite Hrw in Hsec. exists x_l, x_r, al, ar, e'. auto.
Qed.

Lemma attention_export_selected_by_type_witness :
  exists out ei a s',
    forward path_x path_edges None (PyBool false) true (path_layer, rng_keep)
    = (Ok (out, WithAttention ei a), s')
    /\ length a = 7.
Proof.
  eexists _, _, _, _. split; [run_layer|].
  destruct (proj1 (proj2 (attention_export_selected_by_type
                            path_x path_edges None true path_layer rng_keep))
              _ _ _ ltac:(run_layer)) as (a & Ha & Hl).
  injection Ha as <-. exact Hl.
Defined.

(** ** Determinism in inference mode *)

Lemma set_alpha_id self : set_alpha self (_alpha self) = self.
Proof. destruct self; reflexivity. Qed.

(** In inference mode the value of [forward] depends neither on what
    [_alpha] held before the call nor on the random stream. *)
Lemma forward_eval_result x edge_index size rw flag self a1 a2 g1 g2 :
  training self = false ->
  fst (forward x edge_index size rw flag (set_alpha self a1, g1))
  = fst (forward x edge_index size rw flag (set_alpha self a2, g2)).
Proof.
  intros Htr. rewrite !forward_run.
  destruct (shape_1 edge_index) as [original_size|e]; [|reflexivity].
  change (project (set_alpha self a1) x) with (project self x).
  change (project (set_alpha self a2) x) with (project self x).
  destruct (project self x) as [[[[x_l x_r] alpha_l] alpha_r]|e]; [|reflexivity].
  destruct (adjust_self_loops _ _ _ _ _) as [edge_index'|e]; [|reflexivity].
  rewrite !propagate_run.
  destruct (check_input _ _) as [sz|e]; [|reflexivity].
  destruct (collect _ _ _ _) as [c|e]; [|reflexivity].
  rewrite !message_run.
  change (edge_scores (set_alpha self a1) (alpha_j c) (alpha_i c))
    with (edge_scores self (alpha_j c) (alpha_i c)).
  change (edge_scores (set_alpha self a2) (alpha_j c) (alpha_i c))
    with (edge_scores self (alpha_j c) (alpha_i c)).
  destruct (softmax _ _ _ _) as [a|e]; [|reflexivity].
  cbn [training dropout set_alpha]. rewrite Htr, !F_dropout_eval.
  destruct (negb _ || negb _); [reflexivity|].
  cbn [heads out_channels set_alpha].
  destruct (scatter_add _ _ _ _ _) as [agg|e]; [|reflexivity].
  cbn [fst snd concat bias _alpha set_alpha heads out_channels].
  destruct (if concat self then _ else _); [|reflexivity].
  destruct (isinstance_bool rw); reflexivity.
Qed.

(** [forward] changes nothing of a layer but its [_alpha]. *)
Lemma forward_keeps_configuration x edge_index size rw flag self g :
  exists a,
    fst (snd (forward x edge_index size rw flag (self, g))) = set_alpha self a.
Proof.
  rewrite forward_run.
  destruct (shape_1 edge_index) as [original_size|e];
    [|exists (_alpha self); symmetry; apply set_alpha_id].
  destruct (project self x) as [[[[x_l x_r] alpha_l] alpha_r]|e];
    [|exists (_alpha self); symmetry; apply set_alpha_id].
  destruct (adjust_self_loops _ _ _ _ _) as [edge_index'|e];
    [|exists (_alpha self); symmetry; apply set_alpha_id].
  destruct (propagate _ _ _ _ _) as [r s1] eqn:Hpr.
  apply propagate_state in Hpr as [[Hs1 Hr]|(sz & c & a & _ & _ & _ & Hs1)].
  - destruct r; [discriminate|]. exists (_alpha self). cbn [fst snd].
    rewrite Hs1. symmetry; apply set_alpha_id.
  - destruct r as [agg|e]; [|exists (Some a); exact Hs1].
    exists None. rewrite Hs1. cbn [fst snd concat bias _alpha set_alpha].
    destruct (if concat self then _ else _); [|reflexivity].
    destruct (isinstance_bool rw); reflexivity.
Qed.

(** C8: with the layer in inference mode, [forward] is a function of its
    inputs and the parameters alone: its value is the same whatever
    [_alpha] held and whatever the random stream is, and a second
    invocation on the same inputs, run in the state the first one left,
    produces the same value. *)
Theorem forward_deterministic_in_eval x edge_index size rw flag self :
  training self = false ->
  (forall a1 a2 g1 g2,
      fst (forward x edge_index size rw flag (set_alpha self a1, g1))
      = fst (forward x edge_index size rw flag (set_alpha self a2, g2)))
  /\ (forall g r1 s1 r2 s2,
         forward x edge_index size rw flag (self, g) = (r1, s1) ->
         forward x edge_index size rw flag s1 = (r2, s2) ->
         r1 = r2).
Proof.
  intros Htr. split.
  - intros. apply forward_eval_result. assumption.
  - intros g r1 s1 r2 s2 H1 H2.
    destruct (forward_keeps_configuration x edge_index size rw flag self g) as [a Ha].
    rewrite H1 in Ha. cbn [fst snd] in Ha. destruct s1 as [self1 g1].
    cbn [fst] in Ha. subst self1.
    pose proof (forward_eval_result x edge_index size rw flag self
                  (_alpha self) a g g1 Htr) as He.
    rewrite set_alpha_id, H1, H2 in He. exact He.
Qed.

Lemma forward_deterministic_in_eval_witness :
  training path_layer = false
  /\ fst (forward path_x path_edges None (PyBool true) true
            (set_alpha path_layer None, rng_keep))
     = fst (forward path_x path_edges None (PyBool true) true
              (set_alpha path_layer (Some [[1%R]]),
               {| draws := fun _ => false; pos := 5 |})).
Proof.
  split; [reflexivity|].
  apply (forward_deterministic_in_eval path_x path_edges None (PyBool true) true
           path_layer).
  reflexivity.
Defined.

(** ** The constructors *)

Lemma glorot_ok rnd k sh w : glorot rnd k sh = Ok w -> w = rnd k sh.
Proof.
  unfold glorot. destruct (rev sh) as [|n [|m l]]; try discriminate.
  destruct (m + n =? 0); [discriminate|]. congruence.
Qed.

Lemma glorot_error rnd k a b e :
  glorot rnd k [a; b] = Raise e -> e = ZeroDivisionError /\ a = 0 /\ b = 0.
Proof.
  unfold glorot. cbn [rev app]. destruct (a + b =? 0) eqn:H; [|discriminate].
  apply Nat.eqb_eq in H. intros [= <-]. split; [reflexivity|lia].
Qed.

Lemma glorot_error3 rnd k a b e :
  glorot rnd k [1; a; b] = Raise e -> e = ZeroDivisionError /\ a = 0 /\ b = 0.
Proof.
  unfold glorot. cbn [rev app]. destruct (a + b =? 0) eqn:H; [|discriminate].
  apply Nat.eqb_eq in H. intros [= <-]. split; [reflexivity|lia].
Qed.

Lemma glorot_returns rnd k a b : a + b <> 0 -> glorot rnd k [a; b] = Ok (rnd k [a; b]).
Proof.
  intros H. unfold glorot. cbn [rev app]. apply Nat.eqb_neq in H. rewrite H. reflexivity.
Qed.

Lemma glorot_returns3 rnd k a b :
  a + b <> 0 -> glorot rnd k [1; a; b] = Ok (rnd k [1; a; b]).
Proof.
  intros H. unfold glorot. cbn [rev app]. apply Nat.eqb_neq in H. rewrite H. reflexivity.
Qed.

(** The constructor of a layer raises nothing but the division error. *)
Lemma GATConv_init_error rnd k in_channels out_channels heads concat
    negative_slope dropout bias e :
  GATConv_init rnd k in_channels out_channels heads concat negative_slope dropout bias
  = Raise e ->
  e = ZeroDivisionError.
Proof.
  unfold GATConv_init, mbind, Result_bind. intros H.
  destruct in_channels as [n|n0 n1];
    repeat match type of H with
           | context [match glorot ?r ?k ?sh with _ => _ end] =>
               let E := fresh "E" in destruct (glorot r k sh) eqn:E
           end;
    try discriminate; injection H as <-;
    repeat match goal with
           | E : glorot _ _ [1; _; _] = Raise _ |- _ => apply glorot_error3 in E
           | E : glorot _ _ [_; _] = Raise _ |- _ => apply glorot_error in E
           end; tauto.
Qed.

Lemma GATConv_init_fields rnd k ic oc h cat ns p b L :
  GATConv_init rnd k ic oc h cat ns p b = Ok L ->
  in_channels L = ic /\ out_channels L = oc /\ heads L = h /\ concat L = cat
  /\ negative_slope L = ns /\ dropout L = p
  /\ bias L = (if b && cat then Some (repeat 0%R (h * oc))
               else if b && negb cat then Some (repeat 0%R oc) else None)
  /\ training L = true /\ _alpha L = None.
Proof.
  unfold GATConv_init, mbind, Result_bind. intros H.
  destruct ic as [n|n0 n1];
    repeat match type of H with
           | context [match glorot ?r ?k ?sh with _ => _ end] =>
               destruct (glorot r k sh)
           end;
    try discriminate; injection H as <-; repeat split; reflexivity.
Qed.

Lemma GATConv_new_error rnd k nin nout h cat e :
  GATConv_new rnd k nin nout h cat = Raise e -> e = ZeroDivisionError.
Proof. apply GATConv_init_error. Qed.

(** What the constructor of a layer leaves on the instance it returns. *)
Lemma GATConv_new_ok rnd k nin nout h cat L :
  GATConv_new rnd k nin nout h cat = Ok L ->
  L = {| in_channels := IntCh nin; out_channels := nout; heads := h; concat := cat;
         negative_slope := (2 # 10)%Q; dropout := 0%Q;
         lin_l := mkLinear nin (h * nout) (rnd (S k) [h * nout; nin]);
         lin_r := mkLinear nin (h * nout) (rnd (S k) [h * nout; nin]);
         att_l := rnd (2 + k) [1; h; nout];
         att_r := rnd (3 + k) [1; h; nout];
         bias := Some (repeat 0%R (if cat then h * nout else nout));
         training := true; _alpha := None |}
  /\ (h * nout + nin <> 0).
Proof.
  unfold GATConv_new, GATConv_init, mbind, Result_bind. intros H.
  destruct (glorot rnd k _) as [w0|] eqn:E0; [|discriminate].
  destruct (glorot rnd (S k) _) as [w1|] eqn:E1; [|discriminate].
  destruct (glorot rnd (2 + k) _) as [al|] eqn:E2; [|discriminate].
  destruct (glorot rnd (3 + k) _) as [ar|] eqn:E3; [|discriminate].
  apply glorot_ok in E1, E2, E3. subst. injection H as <-. split.
  - destruct cat; reflexivity.
  - intros Hz. unfold glorot in E0. cbn [rev app] in E0.
    apply Nat.eqb_eq in Hz. rewrite Hz in E0. discriminate.
Qed.

Lemma GATConv_new_returns rnd k nin nout h cat :
  h * nout + nin <> 0 -> h + nout <> 0 ->
  exists L, GATConv_new rnd k nin nout h cat = Ok L.
Proof.
  intros Hz E. unfold GATConv_new, GATConv_init, mbind, Result_bind.
  rewrite !glorot_returns by exact Hz.
  rewrite !glorot_returns3 by exact E. eexists. reflexivity.
Qed.

(** The facts about a constructed layer that the calls of the stacked
    models need. *)
Lemma GATConv_new_facts rnd k nin nout h cat L mode :
  GATConv_new rnd k nin nout h cat = Ok L ->
  well_formed (set_training L mode)
  /\ in_features (lin_l (set_training L mode)) = nin
  /\ heads (set_training L mode) = h
  /\ out_channels (set_training L mode) = nout
  /\ concat (set_training L mode) = cat
  /\ dropout (set_training L mode) = 0%Q.
Proof.
  intros H. apply GATConv_new_ok in H as [-> _]. repeat split; reflexivity.
Qed.

Lemma mapM_Result_ok {A B} (f : A -> Result B) : forall l l',
  mapM f l = Ok l' -> Forall2 (fun a b => f a = Ok b) l l'.
Proof.
  induction l as [|a l IH]; intros l'.
  - intros [= <-]. constructor.
  - change (mapM f (a :: l)) with (y ← f a; k ← mapM f l; mret (y :: k)).
    destruct (f a) as [b|] eqn:Ha; [|discriminate].
    change ((k ← mapM f l; mret (b :: k)) = Ok l' -> Forall2 (fun a b => f a = Ok b) (a :: l) l').
    destruct (mapM f l) as [k|] eqn:Hl; [|discriminate].
    intros [= <-]. constructor; [exact Ha|]. apply IH. reflexivity.
Qed.

Lemma mapM_Result_returns {A B} (f : A -> Result B) : forall l,
  Forall (fun a => exists b, f a = Ok b) l -> exists l', mapM f l = Ok l'.
Proof.
  induction 1 as [|a l [b Hb] _ [k Hk]].
  - eexists. reflexivity.
  - change (mapM f (a :: l)) with (y ← f a; k ← mapM f l; mret (y :: k)).
    rewrite Hb. change (exists l', (k ← mapM f l; mret (b :: k)) = Ok l').
    rewrite Hk. eexists. reflexivity.
Qed.

(** ** The model factory *)

(** C7 as stated fails: at depth 1 with no input features and no classes
    the weight of the only layer has neither rows nor columns, its
    initialisation divides by zero and [create_gat] returns no model. *)
Lemma create_gat_raises_on_empty_weight :
  In 1%Z [1; 2; 3; 4]%Z
  /\ create_gat glorot_ones 0 8 0 0%Q 1 64 = Raise ZeroDivisionError.
Proof. split; [left; reflexivity|reflexivity]. Qed.

(** C7 (as amended): for a depth of 1, 2, 3 or 4 [create_gat] is the call
    of the constructor of the class of that branch on the arguments of
    the factory ([StandGAT1], [StandGAT2], [StandGATEncoder], and
    [StandGATClssifier] with [nhid], [nembed], [nclass] in this order): it
    returns the instance when the constructor returns, which it does
    whenever [nfeat], [nhid] and [nembed] are positive, and otherwise ends
    in the division error of the constructor; a returned model is of the
    class of its depth.  For any other depth no model is constructed and
    none is returned: reading the unbound local [model] raises. *)
Theorem create_gat_by_depth rnd nfeat nhid nclass dropout nlayer nembed :
  (nlayer = 1%Z ->
   create_gat rnd nfeat nhid nclass dropout nlayer nembed
   = (m ← StandGAT1.init rnd nfeat nhid nclass dropout 1 true; Ok (IsStandGAT1 m)))
  /\ (nlayer = 2%Z ->
      create_gat rnd nfeat nhid nclass dropout nlayer nembed
      = (m ← StandGAT2.init rnd nfeat nhid nclass dropout 2; Ok (IsStandGAT2 m)))
  /\ (nlayer = 3%Z ->
      create_gat rnd nfeat nhid nclass dropout nlayer nembed
      = (m ← StandGATEncoder.init rnd nfeat nhid nembed dropout true;
         Ok (IsStandGATEncoder m)))
  /\ (nlayer = 4%Z ->
      create_gat rnd nfeat nhid nclass dropout nlayer nembed
      = (m ← StandGATClssifier.init rnd nhid nembed nclass dropout 2;
         Ok (IsStandGATClssifier m)))
  /\ (forall name,
         In (nlayer, name)
            [(1%Z, "StandGAT1"); (2%Z, "StandGAT2");
             (3%Z, "StandGATEncoder"); (4%Z, "StandGATClssifier")]%string ->
         (0 < nfeat -> 0 < nhid -> 0 < nembed ->
          exists m, create_gat rnd nfeat nhid nclass dropout nlayer nembed = Ok m
                    /\ class_name m = name)
         /\ (forall m, create_gat rnd nfeat nhid nclass dropout nlayer nembed = Ok m ->
                       class_name m = name)
         /\ (forall e, create_gat rnd nfeat nhid nclass dropout nlayer nembed = Raise e ->
                       e = ZeroDivisionError))
  /\ (~ In nlayer [1; 2; 3; 4]%Z ->
      create_gat rnd nfeat nhid nclass dropout nlayer nembed
      = Raise UnboundLocalError).
Proof.
  assert (E1 : create_gat rnd nfeat nhid nclass dropout 1 nembed
               = (m ← StandGAT1.init rnd nfeat nhid nclass dropout 1 true;
                  Ok (IsStandGAT1 m))).
  { unfold create_gat. cbn [Z.eqb Pos.eqb]. unfold mbind, Result_bind.
    destruct (StandGAT1.init _ _ _ _ _ _ _); reflexivity. }
  assert (E2 : create_gat rnd nfeat nhid nclass dropout 2 nembed
               = (m ← StandGAT2.init rnd nfeat nhid nclass dropout 2;
                  Ok (IsStandGAT2 m))).
  { unfold create_gat. cbn [Z.eqb Pos.eqb]. unfold mbind, Result_bind.
    destruct (StandGAT2.init _ _ _ _ _ _); reflexivity. }
  assert (E3 : create_gat rnd nfeat nhid nclass dropout 3 nembed
               = (m ← StandGATEncoder.init rnd nfeat nhid nembed dropout true;
                  Ok (IsStandGATEncoder m))).
  { unfold create_gat. cbn [Z.eqb Pos.eqb]. unfold mbind, Result_bind.
    destruct (StandGATEncoder.init _ _ _ _ _ _); reflexivity. }
  assert (E4 : create_gat rnd nfeat nhid nclass dropout 4 nembed
               = (m ← StandGATClssifier.init rnd nhid nembed nclass dropout 2;
                  Ok (IsStandGATClssifier m))).
  { unfold create_gat. cbn [Z.eqb Pos.eqb]. unfold mbind, Result_bind.
    destruct (StandGATClssifier.init _ _ _ _ _ _); reflexivity. }
  split; [intros ->; exact E1|]. split; [intros ->; exact E2|].
  split; [intros ->; exact E3|]. split; [intros ->; exact E4|]. split.
  - intros name Hin. cbn [In] in Hin.
    destruct Hin as [H|[H|[H|[H|[]]]]]; injection H as <- <-.
    + rewrite E1. unfold StandGAT1.init, mbind, Result_bind. split; [|split].
      * intros Hf Hh He.
        destruct (GATConv_new_returns rnd 0 nfeat nclass 1 true) as [c1 ->]; [lia|lia|].
        eexists. split; reflexivity.
      * intros m. destruct (GATConv_new _ _ _ _ _ _); [|discriminate].
        intros [= <-]. reflexivity.
      * intros e. destruct (GATConv_new _ _ _ _ _ _) eqn:Hc; [discriminate|].
        intros [= <-]. eapply GATConv_new_error. exact Hc.
    + rewrite E2. unfold StandGAT2.init, mbind, Result_bind. split; [|split].
      * intros Hf Hh He.
        destruct (GATConv_new_returns rnd 0 nfeat (nhid / 4) 4 true) as [c1 ->]; [lia|lia|].
        destruct (GATConv_new_returns rnd 4 nhid nclass 1 false) as [c2 ->]; [lia|lia|].
        eexists. split; reflexivity.
      * intros m. destruct (GATConv_new rnd 0 _ _ _ _); [|discriminate].
        destruct (GATConv_new rnd 4 _ _ _ _); [|discriminate].
        intros [= <-]. reflexivity.
      * intros e. destruct (GATConv_new rnd 0 _ _ _ _) eqn:Hc1;
          [|intros [= <-]; eapply GATConv_new_error; exact Hc1].
        destruct (GATConv_new rnd 4 _ _ _ _) eqn:Hc2; [discriminate|].
        intros [= <-]. eapply GATConv_new_error. exact Hc2.
    + rewrite E3. unfold StandGATEncoder.init, mbind, Result_bind. split; [|split].
      * intros Hf Hh He.
        destruct (GATConv_new_returns rnd 0 nfeat (nembed / 8) 8 true) as [c1 ->]; [lia|lia|].
        destruct (GATConv_new_returns rnd 4 nhid (nembed / 8) 8 true) as [c2 ->]; [lia|lia|].
        eexists. split; reflexivity.
      * intros m. destruct (GATConv_new rnd 0 _ _ _ _); [|discriminate].
        destruct (GATConv_new rnd 4 _ _ _ _); [|discriminate].
        intros [= <-]. reflexivity.
      * intros e. destruct (GATConv_new rnd 0 _ _ _ _) eqn:Hc1;
          [|intros [= <-]; eapply GATConv_new_error; exact Hc1].
        destruct (GATConv_new rnd 4 _ _ _ _) eqn:Hc2; [discriminate|].
        intros [= <-]. eapply GATConv_new_error. exact Hc2.
    + rewrite E4. unfold StandGATClssifier.init, mbind, Result_bind. split; [|split].
      * intros Hf Hh He.
        destruct (GATConv_new_returns rnd 0 nhid (nembed / 8) 8 true) as [c1 ->]; [lia|lia|].
        destruct (GATConv_new_returns rnd 4 nembed nclass 1 false) as [c2 ->]; [lia|lia|].
        eexists. split; reflexivity.
      * intros m. destruct (GATConv_new rnd 0 _ _ _ _); [|discriminate].
        destruct (GATConv_new rnd 4 _ _ _ _); [|discriminate].
        intros [= <-]. reflexivity.
      * intros e. destruct (GATConv_new rnd 0 _ _ _ _) eqn:Hc1;
          [|intros [= <-]; eapply GATConv_new_error; exact Hc1].
        destruct (GATConv_new rnd 4 _ _ _ _) eqn:Hc2; [discriminate|].
        intros [= <-]. eapply GATConv_new_error. exact Hc2.
  - intros Hn. unfold create_gat.
    destruct (nlayer =? 1)%Z eqn:H1;
      [apply Z.eqb_eq in H1; exfalso; apply Hn; subst; cbn; auto|].
    destruct (nlayer =? 2)%Z eqn:H2;
      [apply Z.eqb_eq in H2; exfalso; apply Hn; subst; cbn; auto|].
    destruct (nlayer =? 3)%Z eqn:H3;
      [apply Z.eqb_eq in H3; exfalso; apply Hn; subst; cbn; auto|].
    destruct (nlayer =? 4)%Z eqn:H4;
      [apply Z.eqb_eq in H4; exfalso; apply Hn; subst; cbn; auto 6|].
    reflexivity.
Qed.

Lemma create_gat_by_depth_witness :
  (exists m, create_gat glorot_ones 3 8 2 0%Q 3 64 = Ok m
             /\ class_name m = "StandGATEncoder"%string)
  /\ create_gat glorot_ones 3 8 2 0%Q 5 64 = Raise UnboundLocalError.
Proof.
  pose proof (create_gat_by_depth glorot_ones 3 8 2 0%Q 3 64) as (_ & _ & _ & _ & H3 & _).
  pose proof (create_gat_by_depth glorot_ones 3 8 2 0%Q 5 64) as (_ & _ & _ & _ & _ & H5).
  split.
  - apply (proj1 (H3 "StandGATEncoder"%string ltac:(cbn; auto))); lia.
  - apply H5. cbn. intros [H|[H|[H|[H|[]]]]]; discriminate.
Defined.

(** ** Parameter groups *)

(** C4 as stated fails: the encoder defines no parameter groups (nor does
    the classifier). *)
Lemma encoder_exposes_no_parameter_groups :
  ~ exposes_parameter_groups
      (IsStandGATEncoder (returned (StandGATEncoder.init glorot_ones 3 8 8 0%Q true) eq_refl))
  /\ ~ exposes_parameter_groups
        (IsStandGATClssifier
           (returned (StandGATClssifier.init glorot_ones 8 8 2 0%Q 2) eq_refl)).
Proof.
  split; intros [H _]; vm_compute in H; discriminate.
Qed.

(** C4 (as amended): the 1-layer, 2-layer and N-layer models hold the
    parameters of their earlier layers in [reg_params] and those of their
    final layer in [non_reg_params]; the encoder and the classifier have
    neither attribute.  This holds of every instance that a constructor
    returns. *)
Theorem parameter_groups_of_the_variants rnd nfeat nhid nclass nembed dropout
    nlayer flag :
  (forall m, StandGAT1.init rnd nfeat nhid nclass dropout nlayer flag = Ok m ->
             exposes_parameter_groups (IsStandGAT1 m))
  /\ (forall m, StandGAT2.init rnd nfeat nhid nclass dropout nlayer = Ok m ->
                exposes_parameter_groups (IsStandGAT2 m))
  /\ (forall m, StandGATX.init rnd nfeat nhid nclass dropout nlayer = Ok m ->
                exposes_parameter_groups (IsStandGATX m))
  /\ (forall m, StandGATEncoder.init rnd nfeat nhid nembed dropout flag = Ok m ->
                getattr (IsStandGATEncoder m) "reg_params" = Raise AttributeError
                /\ getattr (IsStandGATEncoder m) "non_reg_params" = Raise AttributeError)
  /\ (forall m, StandGATClssifier.init rnd nembed nhid nclass dropout nlayer = Ok m ->
                getattr (IsStandGATClssifier m) "reg_params" = Raise AttributeError
                /\ getattr (IsStandGATClssifier m) "non_reg_params"
                   = Raise AttributeError).
Proof.
  split; [|split; [|split; [|split]]]; intros m H.
  - unfold StandGAT1.init in H.
    destruct (GATConv_new rnd 0 _ _ _ _) as [c1|]; [|discriminate].
    injection H as <-. split; reflexivity.
  - unfold StandGAT2.init in H.
    destruct (GATConv_new rnd 0 _ _ _ _) as [c1|]; [|discriminate].
    destruct (GATConv_new rnd 4 _ _ _ _) as [c2|]; [|discriminate].
    injection H as <-. split; [|reflexivity].
    unfold earlier_layers, flat_map. rewrite app_nil_r. reflexivity.
  - unfold StandGATX.init in H.
    destruct (GATConv_new rnd 0 _ _ _ _) as [c1|]; [|discriminate].
    destruct (GATConv_new rnd 4 _ _ _ _) as [c2|]; [|discriminate].
    cbn [mbind Result_bind] in H.
    destruct (mapM _ _) as [cx|]; [|discriminate].
    injection H as <-. split; reflexivity.
  - unfold StandGATEncoder.init in H.
    destruct (GATConv_new rnd 0 _ _ _ _) as [c1|]; [|discriminate].
    destruct (GATConv_new rnd 4 _ _ _ _) as [c2|]; [|discriminate].
    injection H as <-. split; reflexivity.
  - unfold StandGATClssifier.init in H.
    destruct (GATConv_new rnd 0 _ _ _ _) as [c1|]; [|discriminate].
    destruct (GATConv_new rnd 4 _ _ _ _) as [c2|]; [|discriminate].
    injection H as <-. split; reflexivity.
Qed.

Lemma parameter_groups_of_the_variants_witness :
  exposes_parameter_groups
    (IsStandGAT2 (returned (StandGAT2.init glorot_ones 3 8 2 0%Q 2) eq_refl))
  /\ getattr (IsStandGATEncoder
                (returned (StandGATEncoder.init glorot_ones 3 8 8 0%Q true) eq_refl))
             "reg_params" = Raise AttributeError.
Proof.
  pose proof (parameter_groups_of_the_variants glorot_ones 3 8 2 8 0%Q 2 true)
    as (_ & H2 & _ & He & _).
  split.
  - apply H2. reflexivity.
  - apply He. reflexivity.
Defined.

(** ** The [edge_weight] argument of the N-layer model *)

Lemma bind_ok {T A B} (m : M T A) (k : A -> M T B) s b s' :
  (m ≫= k) s = (Ok b, s') ->
  exists a s1, m s = (Ok a, s1) /\ k a s1 = (Ok b, s').
Proof.
  rewrite bind_run. destruct (m s) as [[a|e] s1]; [|discriminate].
  intros H. exists a, s1. auto.
Qed.


Lemma call_conv_ok x edge_index size flag s out e s' :
  call_conv x edge_index size flag s = (Ok (out, e), s') ->
  forward (XTensor x) edge_index size PyNone flag s = (Ok (out, Plain e), s').
Proof.
  unfold call_conv. intros H.
  apply bind_ok in H as ([x' second] & s1 & H1 & H2).
  destruct second as [|e1]; [discriminate|]. injection H2 as <- <- <-. exact H1.
Qed.




(** ** Calls that return *)

Lemma GATConv_init_well_formed rnd k in_channels out_channels heads concat
    negative_slope dropout bias L :
  GATConv_init rnd k in_channels out_channels heads concat negative_slope dropout bias
  = Ok L ->
  well_formed L.
Proof.
  unfold GATConv_init, mbind, Result_bind. intros H.
  destruct in_channels as [n|n0 n1];
    repeat match type of H with
           | context [match glorot ?r ?k ?sh with _ => _ end] =>
               destruct (glorot r k sh)
           end;
    try discriminate; injection H as <-; split; reflexivity.
Qed.

Lemma index_select_in_range {A} (src : list A) idx :
  Forall (fun i => i < length src) idx ->
  exists l, index_select src idx = Ok l.
Proof.
  intros H. unfold index_select.
  destruct (mapM (fun i => src !! i) idx) as [l|] eqn:Hm; [eauto|].
  exfalso. apply mapM_None_1 in Hm. apply Exists_exists in Hm as (i & Hi & Hn).
  rewrite List.Forall_forall in H. apply list_elem_of_In in Hi. apply H in Hi.
  apply lookup_lt_is_Some_2 in Hi as [v Hv]. congruence.
Qed.

Lemma project_homogeneous self t N :
  well_formed self ->
  heads self * out_channels self <> 0 ->
  shape t = [N; in_features (lin_l self)] ->
  exists x_l alpha_l alpha_r,
    project self (XTensor t) = Ok (x_l, Some x_l, alpha_l, Some alpha_r)
    /\ length x_l = N /\ length alpha_l = N /\ length alpha_r = N
    /\ Forall (fun node => length node = heads self
                           /\ Forall (fun row => length row = out_channels self) node) x_l.
Proof.
  intros [Hwf _] Hz Hs. unfold project, Linear_call, view3, dim, last_dim, numel.
  rewrite Hs. cbn [length Nat.eqb List.last removelast app fold_right].
  rewrite Nat.eqb_refl. cbn [mbind Result_bind shape data].
  rewrite Hwf. apply Nat.eqb_neq in Hz. rewrite Hz. apply Nat.eqb_neq in Hz.
  set (HC := heads self * out_channels self) in *.
  change (foldr Nat.mul 1 [N; HC]) with (N * (HC * 1)).
  replace (N * (HC * 1)) with (N * HC) by lia.
  rewrite Nat.Div0.mod_mul, Nat.div_mul by assumption. cbn [Nat.eqb mbind Result_bind].
  eexists _, _, _. split; [reflexivity|].
  unfold att_score. rewrite !length_map, length_unflatten.
  repeat split; try reflexivity.
  apply List.Forall_forall. intros node Hin.
  apply in_map_iff in Hin as (row & <- & _). split.
  - apply length_unflatten.
  - apply unflatten_rows.
Qed.

Lemma adjust_in_bounds flag ei (x_l : Tensor3) :
  in_bounds (length x_l) ei ->
  exists ei',
    adjust_self_loops flag (EdgeIndex ei) x_l (Some x_l) None = Ok (EdgeIndex ei')
    /\ in_bounds (length x_l) ei'.
Proof.
  intros Hb. unfold adjust_self_loops, loop_count, add_self_loops.
  destruct flag; [|eauto].
  cbn [mbind Result_bind]. rewrite Z.min_id.
  replace (Z.of_nat (length x_l) <? 0)%Z with false by (symmetry; apply Z.ltb_ge; lia).
  eexists. split; [reflexivity|]. rewrite Nat2Z.id.
  unfold in_bounds in *. apply Forall_app. split.
  - unfold remove_self_loops. rewrite List.Forall_forall in *.
    intros e He. apply filter_In in He as [He _]. auto.
  - apply List.Forall_forall. intros e He.
    apply in_map_iff in He as (i & <- & Hi). apply in_seq in Hi. cbn. lia.
Qed.

Lemma collect_homogeneous ei (x_l : Tensor3) (al ar : Alpha) :
  length al = length x_l -> length ar = length x_l ->
  in_bounds (length x_l) ei ->
  exists c,
    collect (EdgeIndex ei) (x_l, Some x_l) (al, Some ar) (None, None) = Ok c
    /\ size_i c = Some (Z.of_nat (length x_l))
    /\ index c = map snd ei.
Proof.
  intros Hal Har Hb. unfold collect, set_size. cbn [fst snd mbind Result_bind sources destinations].
  assert (Hsrc : forall (A : Type) (l : list A), length l = length x_l ->
                   Forall (fun i => i < length l) (map fst ei)).
  { intros A l Hl. rewrite Hl. apply List.Forall_forall. intros i Hi.
    apply in_map_iff in Hi as (e & <- & He).
    unfold in_bounds in Hb. rewrite List.Forall_forall in Hb. apply Hb in He. tauto. }
  assert (Hdst : forall (A : Type) (l : list A), length l = length x_l ->
                   Forall (fun i => i < length l) (map snd ei)).
  { intros A l Hl. rewrite Hl. apply List.Forall_forall. intros i Hi.
    apply in_map_iff in Hi as (e & <- & He).
    unfold in_bounds in Hb. rewrite List.Forall_forall in Hb. apply Hb in He. tauto. }
  destruct (index_select_in_range x_l (map fst ei) (Hsrc _ _ eq_refl)) as [xj ->].
  rewrite Har, Hal, !Z.eqb_refl.
  destruct (index_select_in_range al (map fst ei) (Hsrc _ _ Hal)) as [aj ->].
  destruct (index_select_in_range ar (map snd ei) (Hdst _ _ Har)) as [ai ->].
  cbn [mbind Result_bind]. rewrite !Z.eqb_refl. cbn [mbind Result_bind].
  eexists. split; [reflexivity|]. cbn [size_i index]. split; [|reflexivity].
  unfold py_or. destruct (_ =? 0)%Z; reflexivity.
Qed.

Lemma dropout_rows_lengths d scale H a : forall k,
  Forall (fun row => length row = H) a ->
  Forall (fun row => length row = H) (dropout_rows d k scale a).
Proof.
  induction a as [|row a IH]; intros k Ha; cbn [dropout_rows]; [constructor|].
  inversion Ha; subst. constructor; [apply length_imap|]. apply IH. assumption.
Qed.

Lemma F_dropout_rows {T} a p tr (s : T * Rng) a' s' H :
  F_dropout a p tr s = (Ok a', s') ->
  Forall (fun row => length row = H) a ->
  Forall (fun row => length row = H) a'.
Proof.
  unfold F_dropout. intros Hd Ha.
  destruct (negb _ || negb _); [discriminate|].
  destruct tr; [|injection Hd as <- <-; assumption].
  destruct (Qeq_bool p 1).
  - injection Hd as <- <-. apply List.Forall_forall. intros row Hin.
    apply in_map_iff in Hin as (r0 & <- & Hr0). rewrite length_map.
    rewrite List.Forall_forall in Ha. auto.
  - destruct (Qeq_bool p 0); injection Hd as <- <-; [assumption|].
    apply dropout_rows_lengths. assumption.
Qed.

Lemma softmax_rows src idx ptr n a H :
  softmax src idx ptr n = Ok a ->
  Forall (fun row => length row = H) src ->
  Forall (fun row => length row = H) a.
Proof.
  unfold softmax. destruct (in_range _ _); [|discriminate]. intros [= <-] Hs.
  apply List.Forall_forall. intros row Hin.
  apply in_map_iff in Hin as ([r d] & <- & Hp). rewrite length_imap. cbn.
  apply in_combine_l in Hp. rewrite List.Forall_forall in Hs. auto.
Qed.

Lemma message_shape H C (x_j : Tensor3) (a : Alpha) :
  Forall (is_matrix H C) x_j ->
  Forall (fun row => length row = H) a ->
  Forall (is_matrix H C)
         (zip_with (fun xe ae => zip_with (fun xh v => map (Rmult v) xh) xe ae) x_j a).
Proof.
  intros Hx Ha. eapply Forall_zip_with; [|exact Hx|exact Ha].
  cbn. intros xe ae [Hl Hr] Hae. split.
  - rewrite length_zip_with, Hl, Hae. lia.
  - eapply Forall_zip_with; [|exact Hr|apply Forall_true; exact (fun _ => I)].
    cbn. intros xh v Hxh _. rewrite length_map. exact Hxh.
Qed.

Lemma sum_shape H C (ms : Tensor3) :
  Forall (is_matrix H C) ms ->
  is_matrix H C (fold_right (zip_with (zip_with Rplus)) (repeat (repeat 0%R C) H) ms).
Proof.
  induction 1 as [|m ms [Hl Hr] _ [IHl IHr]]; cbn [fold_right].
  - split; [apply repeat_length|]. apply List.Forall_forall. intros r Hin.
    apply repeat_spec in Hin. subst. apply repeat_length.
  - split; [rewrite length_zip_with, Hl, IHl; lia|].
    eapply Forall_zip_with; [|exact Hr|exact IHr].
    cbn. intros a b Ha Hb. rewrite length_zip_with, Ha, Hb. lia.
Qed.

Lemma scatter_add_ok (msgs : Tensor3) idx N H C :
  in_range idx (Z.of_nat N) = true ->
  Forall (is_matrix H C) msgs ->
  exists agg, scatter_add msgs idx (Some (Z.of_nat N)) H C = Ok agg
              /\ length agg = N /\ Forall (is_matrix H C) agg.
Proof.
  intros Hr Hm. unfold scatter_add. cbn [maybe_num_nodes]. rewrite Hr.
  replace (Z.of_nat N <? 0)%Z with false by (symmetry; apply Z.ltb_ge; lia).
  eexists. split; [reflexivity|]. split.
  - rewrite length_map, length_seq. apply Nat2Z.id.
  - apply List.Forall_forall. intros m Hin. apply in_map_iff in Hin as (i & <- & _).
    apply sum_shape. apply List.Forall_forall. intros m Hin.
    apply in_map_iff in Hin as ([m0 d] & <- & Hp). apply filter_In in Hp as [Hp _].
    apply in_combine_l in Hp. rewrite List.Forall_forall in Hm. auto.
Qed.

Lemma length_concat_uniform {A} (C : nat) (m : list (list A)) :
  Forall (fun r => length r = C) m -> length (List.concat m) = length m * C.
Proof.
  induction 1 as [|r m Hr _ IH]; cbn; [reflexivity|].
  rewrite List.length_app, Hr, IH. reflexivity.
Qed.

Lemma view2_ok H C (agg : Tensor3) :
  H * C <> 0 ->
  Forall (is_matrix H C) agg ->
  exists o, view2 agg (H * C) = Ok o.
Proof.
  intros Hz Ha. unfold view2. apply Nat.eqb_neq in Hz. rewrite Hz.
  rewrite (length_concat_uniform (H * C)).
  - rewrite Nat.Div0.mod_mul. cbn. eauto.
  - apply List.Forall_forall. intros r Hin. apply in_map_iff in Hin as (m & <- & Hm).
    rewrite List.Forall_forall in Ha. destruct (Ha _ Hm) as [Hl Hr].
    rewrite (length_concat_uniform C), Hl by assumption. reflexivity.
Qed.

Lemma in_range_destinations N ei :
  in_bounds N ei -> in_range (map snd ei) (Z.of_nat N) = true.
Proof.
  intros Hb. unfold in_range. apply forallb_forall. intros i Hi.
  apply in_map_iff in Hi as (e & <- & He).
  unfold in_bounds in Hb. rewrite List.Forall_forall in Hb. apply Hb in He.
  apply Z.ltb_lt. lia.
Qed.

Lemma collect_x_j edge_index x alpha sz c :
  collect edge_index x alpha sz = Ok c ->
  index_select (fst x) (sources edge_index) = Ok (x_j c).
Proof.
  unfold collect, mbind, Result_bind. destruct sz as [s0 s1].
  destruct x as [xl xr], alpha as [al ar]. cbn [fst snd]. intros H.
  destruct_innermost H; try discriminate; injection H as <-; reflexivity.
Qed.

(** On a well-formed layer with at least one head and one channel and a
    valid dropout probability, [forward] returns for every feature matrix
    with [in_features] columns and every edge list over its rows. *)
Lemma forward_returns self t N ei rw flag g :
  well_formed self ->
  heads self * out_channels self <> 0 ->
  shape t = [N; in_features (lin_l self)] ->
  in_bounds N ei ->
  Qle_bool 0 (dropout self) && Qle_bool (dropout self) 1 = true ->
  is_ok (fst (forward (XTensor t) (EdgeIndex ei) None rw flag (self, g))) = true.
Proof.
  intros Hwf Hz Hs Hb Hp.
  destruct (project_homogeneous self t N Hwf Hz Hs)
    as (x_l & al & ar & Hproj & Hxl & Hal & Har & Hnodes).
  rewrite forward_run, Hproj. cbn [shape_1]. subst N.
  destruct (adjust_in_bounds flag ei x_l Hb) as (ei' & -> & Hb').
  rewrite propagate_run. cbn [check_input].
  destruct (collect_homogeneous ei' x_l al ar Hal Har Hb') as (c & Hc & Hsz & Hidx).
  rewrite Hc, message_run.
  destruct (edge_scores_shape _ _ _ _ _ _ _ _ _ Hproj Hc) as (Hlen & Hrows).
  destruct (softmax _ _ _ _) as [a|e] eqn:Hsm.
  2:{ exfalso. unfold softmax in Hsm. rewrite Hsz, Hidx in Hsm. cbn [maybe_num_nodes] in Hsm.
      rewrite (in_range_destinations _ _ Hb') in Hsm. discriminate. }
  pose proof (softmax_rows _ _ _ _ _ _ Hsm Hrows) as Harows.
  destruct (F_dropout _ _ _ _) as [[a'|e] s1] eqn:Hd.
  2:{ exfalso. unfold F_dropout in Hd.
      apply andb_true_iff in Hp as [H0 H1]. rewrite H0, H1 in Hd. cbn in Hd.
      destruct (training self); discriminate. }
  pose proof (F_dropout_rows _ _ _ _ _ _ _ Hd Harows) as Ha'rows.
  pose proof (F_dropout_self a (dropout self) (training self) (set_alpha self (Some a), g)) as Hself.
  rewrite Hd in Hself. cbn [fst snd] in Hself.
  apply collect_x_j in Hc. cbn [fst] in Hc.
  apply index_select_ok in Hc as (_ & Hjin).
  assert (Hxj : Forall (is_matrix (heads self) (out_channels self)) (x_j c)).
  { eapply Forall_in_Forall; [|exact Hjin]. exact Hnodes. }
  rewrite Hsz, Hidx.
  destruct (scatter_add_ok _ (map snd ei') (length x_l) _ _
              (in_range_destinations _ _ Hb') (message_shape _ _ _ _ Hxj Ha'rows))
    as (agg & -> & _ & Hagg).
  rewrite Hself. cbn [fst snd concat bias _alpha set_alpha].
  destruct (concat self).
  - destruct (view2_ok _ _ agg Hz Hagg) as [o ->].
    destruct (isinstance_bool rw); reflexivity.
  - destruct (isinstance_bool rw); reflexivity.
Qed.

(** ** Node counts and isolated nodes *)

(** On a well-formed layer the source-side and target-side node counts are
    the numbers of rows of the feature tensors. *)
Lemma project_node_counts self x x_l x_r alpha_l alpha_r :
  well_formed self ->
  project self x = Ok (x_l, x_r, alpha_l, alpha_r) ->
  length x_l = node_count (checked_tensor x)
  /\ length <$> x_r = match x with
                      | XTensor t => Some (node_count t)
                      | XPair _ x1 => node_count <$> x1
                      end.
Proof.
  intros [Hl Hr]. unfold project, mbind, Result_bind. intros H.
  destruct x as [t|t0 [t1|]]; destruct_innermost H; try discriminate;
    injection H as <- <- <- <-; cbn [checked_tensor fmap option_fmap option_map];
    repeat match goal with
           | H1 : Linear_call ?l ?t = Ok ?y, H2 : view3 ?y ?H ?C = Ok ?x |- _ =>
               let Hn := fresh "Hn" in
               let Hm := fresh "Hm" in
               pose proof (projected_rows l t H C y x ltac:(assumption) H1 H2)
                 as [Hn Hm];
               clear H2
           end;
    split; congruence.
Qed.

(** A node without incoming edges receives no attention mass: the sum
    over its incoming edges is empty. *)
Lemma attention_mass_isolated a idx i h :
  ~ In i idx -> attention_mass a idx i h = 0%R.
Proof.
  intros Hi. unfold attention_mass, group.
  destruct (List.filter (fun p => snd p =? i) (combine a idx)) as [|[r d] l] eqn:Hf;
    [reflexivity|].
  exfalso. assert (Hin : In (r, d) (List.filter (fun p => snd p =? i) (combine a idx)))
    by (rewrite Hf; left; reflexivity).
  apply filter_In in Hin as [Hin Hd]. cbn in Hd. apply Nat.eqb_eq in Hd. subst d.
  apply in_combine_r in Hin. contradiction.
Qed.

(** After the self-loop adjustment of an edge list every node index below
    [num_nodes] has an incoming edge. *)
Lemma adjusted_nodes_are_destinations ei x_l x_r size e' n i :
  adjust_self_loops true (EdgeIndex ei) x_l x_r size = Ok e' ->
  loop_count x_l x_r size = Ok n ->
  (Z.of_nat i < n)%Z ->
  In i (destinations e').
Proof.
  intros H Hn Hi. apply adjust_edge_list in H as (n' & Hn' & _ & ->).
  rewrite Hn in Hn'. injection Hn' as <-.
  cbn [destinations]. rewrite map_app. apply in_or_app. right.
  rewrite map_map. cbn [snd]. rewrite map_id. apply in_seq. lia.
Qed.

(** * Further properties *)

(** ** Range of the attention coefficients *)

Lemma Rsum_exp_member (m v : R) (g : list R) :
  In v g -> (exp (v - m) <= Rsum (map (fun u => exp (u - m)) g))%R.
Proof.
  induction g as [|u g IH]; [contradiction|].
  cbn [map Rsum fold_right]. fold (Rsum (map (fun u => exp (u - m)) g)).
  intros [->|Hin].
  - pose proof (Rsum_exp_nonneg m g). lra.
  - pose proof (exp_pos (u - m)). specialize (IH Hin). lra.
Qed.

Lemma softmax_entries src idx ptr n a :
  softmax src idx ptr n = Ok a ->
  Forall (Forall (fun v => (0 < v <= 1)%R)) a.
Proof.
  unfold softmax. destruct (in_range _ _); [|discriminate]. intros [= <-].
  apply List.Forall_forall. intros row Hrow.
  apply in_map_iff in Hrow as ([r d] & <- & Hp). cbn [fst snd].
  apply List.Forall_forall. intros y Hy.
  apply list_elem_of_In, elem_of_lookup_imap in Hy as (h & v & -> & Hv).
  set (g := group src idx d h).
  assert (Hin : In v g).
  { unfold g, group. apply in_map_iff. exists (r, d). cbn [fst snd].
    split; [apply nth_lookup_Some; assumption|].
    apply filter_In. split; [assumption|]. cbn. apply Nat.eqb_refl. }
  pose proof (Rsum_exp_member (Rmaxl g) v g Hin) as Hle.
  pose proof (exp_pos (v - Rmaxl g)) as Hpos.
  set (S := Rsum (map (fun u => exp (u - Rmaxl g)) g)) in *.
  assert (HS : (0 < S)%R) by lra.
  split.
  - apply Rdiv_lt_0_compat; assumption.
  - unfold Rdiv. replace 1%R with (S * / S)%R by (apply Rinv_r; lra).
    apply Rmult_le_compat_r; [|lra]. apply Rlt_le, Rinv_0_lt_compat. assumption.
Qed.

(** X1: no attention coefficient that a returning call of
    [GATConv.forward] exports is negative, and none exceeds 1, in either
    mode: the exported values are the softmax output stored by [message]
    before dropout. *)
Theorem forward_attention_in_unit_interval x edge_index size b flag self g out second s' a :
  forward x edge_index size (PyBool b) flag (self, g) = (Ok (out, second), s') ->
  returned_attention second = Some a ->
  Forall (Forall (fun v => ~ (v < 0)%R /\ ~ (1 < v)%R)) a.
Proof.
  intros H Ha.
  apply forward_ok in H
    as (x_l & x_r & alpha_l & alpha_r & e' & sz & c & a0 & _ & _ & _ & _ & Hs & _ & Hsec & _).
  cbn [isinstance_bool] in Hsec. unfold export in Hsec. cbn [isinstance_bool] in Hsec.
  assert (a = a0) as -> by (subst second; destruct e'; cbn in Ha; congruence).
  apply softmax_entries in Hs.
  eapply List.Forall_impl; [|exact Hs]. intros row Hrow.
  eapply List.Forall_impl; [|exact Hrow]. cbn beta. intros v Hv. lra.
Qed.

Lemma forward_attention_in_unit_interval_witness :
  exists out second s' a,
    forward path_x path_edges None (PyBool true) true (path_layer, rng_keep)
    = (Ok (out, second), s')
    /\ returned_attention second = Some a
    /\ Forall (Forall (fun v => ~ (v < 0)%R /\ ~ (1 < v)%R)) a.
Proof.
  eexists _, _, _, _.
  split; [run_layer|]. split; [reflexivity|].
  eapply (forward_attention_in_unit_interval path_x path_edges None true true
            path_layer rng_keep).
  - run_layer.
  - reflexivity.
Defined.

(** ** The returned edge set *)

Lemma forward_returned_edges x ei size rw self g out second s' :
  forward x (EdgeIndex ei) size rw true (self, g) = (Ok (out, second), s') ->
  exists n,
    returned_edges second = EdgeIndex (remove_self_loops ei ++ self_loops n)
    /\ length (remove_self_loops ei ++ self_loops n) <= length ei + n
    /\ (forall x_l x_r alpha_l alpha_r,
           project self x = Ok (x_l, x_r, alpha_l, alpha_r) ->
           spec_num_nodes (length x_l) (length <$> x_r) size = Some (Z.of_nat n)).
Proof.
  intros H.
  apply forward_ok in H
    as (x_l & x_r & al & ar & e' & sz & c & a & Hp & Hadj & _ & _ & _ & _ & Hsec & _).
  apply adjust_edge_list in Hadj as (n & Hn & Hpos & ->).
  exists (Z.to_nat n). split; [|split].
  - subst second. unfold export. destruct (isinstance_bool rw); reflexivity.
  - unfold self_loops. rewrite List.length_app, length_map, length_seq.
    unfold remove_self_loops. apply Nat.add_le_mono_r, List.filter_length_le.
  - intros x_l' x_r' al' ar' Hp'. rewrite Hp in Hp'. injection Hp' as <- <- <- <-.
    rewrite Z2Nat.id by assumption. apply loop_count_spec. assumption.
Qed.

Lemma remove_self_loops_adjusted ei n :
  remove_self_loops (remove_self_loops ei ++ self_loops n) = remove_self_loops ei.
Proof.
  unfold remove_self_loops, self_loops. rewrite List.filter_app.
  rewrite <- (app_nil_r (List.filter _ ei)) at 2. f_equal.
  - induction ei as [|e ei IH]; [reflexivity|]. cbn [List.filter].
    destruct (negb (is_loop e)) eqn:He; cbn [List.filter]; [rewrite He|]; congruence.
  - generalize 0. induction n as [|n IH]; intros k; [reflexivity|].
    cbn [seq map List.filter]. unfold is_loop at 1. cbn [fst snd].
    rewrite Nat.eqb_refl. cbn [negb]. apply IH.
Qed.

(** X2: the self-loop adjustment of [GATConv.forward] is idempotent on edge
    lists: feeding the edges returned by one call into a second call over
    the same number of nodes returns the same edges again. *)
Theorem forward_returned_edges_stable xA xB ei sizeA sizeB rwA rwB selfA selfB gA gB
    x_lA x_rA alA arA x_lB x_rB alB arB outA secA sA outB secB sB :
  project selfA xA = Ok (x_lA, x_rA, alA, arA) ->
  project selfB xB = Ok (x_lB, x_rB, alB, arB) ->
  spec_num_nodes (length x_lA) (length <$> x_rA) sizeA
  = spec_num_nodes (length x_lB) (length <$> x_rB) sizeB ->
  forward xA (EdgeIndex ei) sizeA rwA true (selfA, gA) = (Ok (outA, secA), sA) ->
  forward xB (returned_edges secA) sizeB rwB true (selfB, gB) = (Ok (outB, secB), sB) ->
  returned_edges secB = returned_edges secA.
Proof.
  intros HpA HpB Hn HA HB.
  destruct (forward_returned_edges _ _ _ _ _ _ _ _ _ HA) as (nA & HeA & _ & HnA).
  rewrite HeA in HB |- *.
  destruct (forward_returned_edges _ _ _ _ _ _ _ _ _ HB) as (nB & HeB & _ & HnB).
  rewrite HeB, remove_self_loops_adjusted.
  specialize (HnA _ _ _ _ HpA). specialize (HnB _ _ _ _ HpB).
  rewrite Hn, HnB in HnA. injection HnA as HnA. apply Nat2Z.inj in HnA. subst. reflexivity.
Qed.

Lemma forward_returned_edges_stable_witness :
  exists outA secA sA outB secB sB,
    forward path_x path_edges None PyNone true (path_layer, rng_keep)
    = (Ok (outA, secA), sA)
    /\ forward path_x (returned_edges secA) None (PyBool true) true (path_layer, rng_keep)
       = (Ok (outB, secB), sB)
    /\ returned_edges secB = returned_edges secA.
Proof.
  eexists _, _, _, _, _, _.
  split; [run_layer|]. split; [run_layer|].
  eapply (forward_returned_edges_stable path_x path_x [(0, 1); (1, 2); (2, 3)]
            None None PyNone (PyBool true) path_layer path_layer rng_keep rng_keep).
  - run_layer.
  - run_layer.
  - reflexivity.
  - run_layer.
  - run_layer.
Defined.

(** ** What [forward] leaves unchanged *)

(** X3: whatever its arguments and however it ends, a call of
    [GATConv.forward] leaves the parameters, the training flag and the
    configuration of the layer as they were: [_alpha] is the only attribute
    it assigns. *)
Theorem forward_changes_only_alpha x edge_index size rw flag self g :
  let s' := snd (forward x edge_index size rw flag (self, g)) in
  GATConv_parameters (fst s') = GATConv_parameters self
  /\ training (fst s') = training self
  /\ dropout (fst s') = dropout self
  /\ negative_slope (fst s') = negative_slope self
  /\ (heads (fst s'), out_channels (fst s'), concat (fst s'))
     = (heads self, out_channels self, concat self).
Proof.
  cbv zeta.
  destruct (forward_keeps_configuration x edge_index size rw flag self g) as [a ->].
  repeat split; reflexivity.
Qed.

(** X4: in inference mode a call of [GATConv.forward] draws nothing from
    the random generator, on returning and on raising paths alike. *)
Theorem forward_eval_keeps_generator x edge_index size rw flag self g :
  training self = false ->
  snd (snd (forward x edge_index size rw flag (self, g))) = g.
Proof.
  intros Htr. rewrite forward_run.
  destruct (shape_1 edge_index) as [original_size|e]; [|reflexivity].
  destruct (project self x) as [[[[x_l x_r] alpha_l] alpha_r]|e]; [|reflexivity].
  destruct (adjust_self_loops _ _ _ _ _) as [edge_index'|e]; [|reflexivity].
  rewrite propagate_run.
  destruct (check_input _ _) as [sz|e]; [|reflexivity].
  destruct (collect _ _ _ _) as [c|e]; [|reflexivity].
  rewrite message_run.
  destruct (softmax _ _ _ _) as [a|e]; [|reflexivity].
  rewrite Htr, F_dropout_eval.
  destruct (negb _ || negb _); [reflexivity|].
  destruct (scatter_add _ _ _ _ _) as [agg|e]; [|reflexivity].
  cbn [fst snd concat bias _alpha set_alpha].
  destruct (if concat self then _ else _); [|reflexivity].
  destruct (isinstance_bool rw); reflexivity.
Qed.

Lemma forward_eval_keeps_generator_witness :
  training path_layer = false
  /\ snd (snd (forward path_x path_edges None (PyBool true) true (path_layer, rng_keep)))
     = rng_keep.
Proof.
  split; [reflexivity|].
  apply (forward_eval_keeps_generator path_x path_edges None (PyBool true) true
           path_layer rng_keep).
  reflexivity.
Defined.

(** ** A [size] with fewer than two entries *)

(** X5: with self-loops requested on an edge list, a [size] of fewer than
    two entries makes [GATConv.forward] raise [IndexError] at
    [min(size[0], size[1])], after the projection and before any message is
    passed; the layer is left untouched. *)
Theorem forward_short_size_raises x ei s rw self g x_l x_r alpha_l alpha_r :
  project self x = Ok (x_l, x_r, alpha_l, alpha_r) ->
  length s < 2 ->
  forward x (EdgeIndex ei) (Some s) rw true (self, g) = (Raise IndexError, (self, g)).
Proof.
  intros Hp Hs. rewrite forward_run, Hp. cbn [shape_1].
  unfold adjust_self_loops, loop_count, getitem, mbind, Result_bind.
  destruct s as [|a [|b s]]; cbn [nth_error]; try reflexivity.
  cbn in Hs. lia.
Qed.

Lemma forward_short_size_raises_witness :
  forward path_x (EdgeIndex path_edge_list) (Some [4%Z]) PyNone true (path_layer, rng_keep)
  = (Raise IndexError, (path_layer, rng_keep)).
Proof.
  destruct (project path_layer path_x) as [[[[x_l x_r] al] ar]|e] eqn:Hp.
  2:{ exfalso. revert Hp. lazy -[exp Rmax Rmin Q2R]. discriminate. }
  apply (forward_short_size_raises path_x path_edge_list [4%Z] PyNone path_layer rng_keep
           x_l x_r al ar Hp).
  cbn. lia.
Defined.

(** ** Nodes with a single incoming edge *)

Lemma filter_unique_key {A} (cs : list (A * nat)) p :
  List.NoDup (map snd cs) -> In p cs ->
  List.filter (fun q => snd q =? snd p) cs = [p].
Proof.
  induction cs as [|q cs IH]; [contradiction|].
  cbn [map]. intros Hnd Hin. apply NoDup_cons_iff in Hnd as [Hq Hnd].
  assert (Hrest : forall r : A * nat, snd r = snd q ->
                    List.filter (fun q0 => snd q0 =? snd r) cs = []).
  { intros r Hr.
    destruct (List.filter (fun q0 : A * nat => snd q0 =? snd r) cs) as [|z l] eqn:Hf;
      [reflexivity|]. exfalso.
    assert (Hz : In z (List.filter (fun q0 => snd q0 =? snd r) cs)) by (rewrite Hf; left; reflexivity).
    apply filter_In in Hz as [Hz Hk]. apply Nat.eqb_eq in Hk.
    apply Hq. rewrite <- Hr, <- Hk. apply in_map. assumption. }
  cbn [List.filter]. destruct Hin as [->|Hin].
  - rewrite Nat.eqb_refl. f_equal. apply Hrest. reflexivity.
  - destruct (snd q =? snd p) eqn:Hk; [|auto].
    apply Nat.eqb_eq in Hk. exfalso. apply Hq. rewrite Hk. apply in_map. assumption.
Qed.

Lemma NoDup_combine_keys {A} (src : list A) : forall idx : list nat,
  List.NoDup idx -> List.NoDup (map snd (combine src idx)).
Proof.
  induction src as [|r src IH]; intros [|d idx] Hnd; cbn; try constructor.
  - apply NoDup_cons_iff in Hnd as [Hd _]. intros Hin. apply Hd.
    apply in_map_iff in Hin as ([r' d'] & <- & Hin). cbn. eapply in_combine_r. eassumption.
  - apply IH. apply NoDup_cons_iff in Hnd. tauto.
Qed.

Lemma softmax_single_edge src idx ptr n a :
  softmax src idx ptr n = Ok a ->
  List.NoDup idx ->
  Forall (Forall (fun v => v = 1%R)) a.
Proof.
  unfold softmax. destruct (in_range _ _); [|discriminate]. intros [= <-] Hnd.
  apply List.Forall_forall. intros row Hrow.
  apply in_map_iff in Hrow as ([r d] & <- & Hp). cbn [fst snd].
  apply List.Forall_forall. intros y Hy.
  apply list_elem_of_In, elem_of_lookup_imap in Hy as (h & v & -> & Hv).
  unfold group.
  pose proof (filter_unique_key (combine src idx) (r, d)
                (NoDup_combine_keys src idx Hnd) Hp) as Hf.
  cbn [snd] in Hf. rewrite Hf.
  cbn [map fst Rmaxl Rsum fold_right]. rewrite (nth_lookup_Some _ _ _ _ Hv).
  replace (v - v)%R with 0%R by ring. rewrite exp_0. unfold Rdiv.
  rewrite Rplus_0_r, Rmult_1_l. apply Rinv_1.
Qed.

Lemma remove_self_loops_only_loops ei :
  Forall (fun e => is_loop e = true) ei -> remove_self_loops ei = [].
Proof.
  unfold remove_self_loops. induction 1 as [|e ei He _ IH]; [reflexivity|].
  cbn [List.filter]. rewrite He. exact IH.
Qed.

(** X6: with the self-loop adjustment on and an edge-index input that
    holds self-loops only, a returning call of [GATConv.forward] that
    exports the attention returns exactly one self-loop for every node
    index below [num_nodes] (the node count of the adjustment), in index
    order, with one attention row per node, and every exported
    coefficient is 1. *)
Theorem forward_only_self_loops_attention x ei size b self g out second s' a
    x_l x_r alpha_l alpha_r :
  project self x = Ok (x_l, x_r, alpha_l, alpha_r) ->
  forward x (EdgeIndex ei) size (PyBool b) true (self, g) = (Ok (out, second), s') ->
  Forall (fun e => is_loop e = true) ei ->
  returned_attention second = Some a ->
  exists n,
    loop_count x_l x_r size = Ok (Z.of_nat n)
    /\ returned_edges second = EdgeIndex (self_loops n)
    /\ length a = n
    /\ Forall (Forall (fun v => v = 1%R)) a.
Proof.
  intros Hp0 H Hloops Ha.
  apply forward_ok in H
    as (x_l' & x_r' & al & ar & e' & sz & c & a0 & Hp & Hadj & _ & Hc & Hs & _ & Hsec & _).
  rewrite Hp0 in Hp. injection Hp as <- <- <- <-.
  cbn [isinstance_bool] in Hsec. unfold export in Hsec. cbn [isinstance_bool] in Hsec.
  apply adjust_edge_list in Hadj as (n & Hn & Hpos & ->).
  subst second. cbn in Ha. injection Ha as <-.
  rewrite (remove_self_loops_only_loops ei Hloops) in *. cbn [app] in *.
  destruct (edge_scores_shape _ _ _ _ _ _ _ _ _ Hp0 Hc) as (Hlen & _).
  pose proof (softmax_length _ _ _ _ _ Hs Hlen) as Hla.
  apply collect_ok in Hc as (Hidx & _). cbn [destinations] in Hidx.
  rewrite map_map in Hidx. cbn [snd] in Hidx. rewrite map_id in Hidx.
  exists (Z.to_nat n). split; [rewrite Z2Nat.id by exact Hpos; exact Hn|].
  split; [reflexivity|]. split.
  - rewrite Hla, Hidx. apply length_seq.
  - eapply softmax_single_edge; [eassumption|]. rewrite Hidx. apply List.seq_NoDup.
Qed.

Lemma forward_only_self_loops_attention_witness :
  exists out second s' a,
    forward path_x (EdgeIndex loops_only) None (PyBool true) true (path_layer, rng_keep)
    = (Ok (out, second), s')
    /\ returned_attention second = Some a
    /\ returned_edges second = EdgeIndex (self_loops 4)
    /\ length a = 4
    /\ Forall (Forall (fun v => v = 1%R)) a.
Proof.
  destruct (project path_layer path_x) as [[[[x_l x_r] al] ar]|e] eqn:Hp.
  2:{ exfalso. revert Hp. lazy -[exp Rmax Rmin Q2R]. discriminate. }
  destruct (forward path_x (EdgeIndex loops_only) None (PyBool true) true
                    (path_layer, rng_keep)) as [[[out second]|e] s'] eqn:Hf.
  2:{ exfalso. revert Hf. lazy -[exp Rmax Rmin Q2R]. discriminate. }
  destruct (returned_attention second) as [a|] eqn:Ha.
  2:{ exfalso. revert Hf Ha. lazy -[exp Rmax Rmin Q2R]. intros [= _ <- _]. discriminate. }
  destruct (forward_only_self_loops_attention path_x loops_only None true path_layer
              rng_keep out second s' a x_l x_r al ar Hp Hf) as (n & Hn & He & Hl & Hones).
  - repeat constructor.
  - exact Ha.
  - assert (n = 4) as ->.
    { revert Hp. lazy -[exp Rmax Rmin Q2R]. intros [= <- <- <- <-].
      unfold loop_count in Hn. cbn [length] in Hn. injection Hn as Hn. lia. }
    exists out, second, s', a. auto.
Defined.

(** ** A graph without edges between different nodes *)

Lemma index_select_all {A} (l : list A) : index_select l (seq 0 (length l)) = Ok l.
Proof.
  unfold index_select.
  assert (H : mapM (fun i => l !! i) (seq 0 (length l)) = Some l).
  { apply mapM_Some_2.
    assert (G : forall pre : list A,
               Forall2 (fun i y => (pre ++ l) !! i = Some y) (seq (length pre) (length l)) l).
    { induction l as [|a l IH]; intros pre; cbn [length seq]; constructor.
      - apply list_lookup_middle. reflexivity.
      - specialize (IH (pre ++ [a])). rewrite <- app_assoc, length_app in IH.
        cbn [length app] in IH. rewrite Nat.add_1_r in IH. exact IH. }
    exact (G []). }
  rewrite H. reflexivity.
Qed.

Lemma in_combine_seq {A} (l : list A) d : forall a i,
  i < length l -> In (nth i l d, a + i) (combine l (seq a (length l))).
Proof.
  induction l as [|x l IH]; intros a i Hi; cbn [length] in *; [lia|].
  cbn [seq combine]. destruct i as [|i].
  - left. rewrite Nat.add_0_r. reflexivity.
  - right. cbn [nth]. replace (a + S i) with (S a + i) by lia. apply IH. lia.
Qed.

Lemma filter_combine_seq {A} (l : list A) d i :
  i < length l ->
  List.filter (fun p => snd p =? i) (combine l (seq 0 (length l))) = [(nth i l d, i)].
Proof.
  intros Hi.
  apply (filter_unique_key (combine l (seq 0 (length l))) (nth i l d, i)).
  - apply NoDup_combine_keys, List.seq_NoDup.
  - apply (in_combine_seq l d 0 i Hi).
Qed.

Lemma all_ones (row : list R) :
  Forall (fun v => v = 1%R) row -> row = repeat 1%R (length row).
Proof. induction 1 as [|v row -> _ IH]; cbn; [reflexivity|]. f_equal. exact IH. Qed.

Lemma scaled_row_plus_zero (r : list R) :
  zip_with Rplus (map (Rmult 1) r) (repeat 0%R (length r)) = r.
Proof. induction r as [|v r IH]; cbn; [reflexivity|]. f_equal; [ring|exact IH]. Qed.

Lemma own_message_sum C (node : list (list R)) :
  Forall (fun r => length r = C) node ->
  zip_with (zip_with Rplus)
           (zip_with (fun xh a => map (Rmult a) xh) node (repeat 1%R (length node)))
           (repeat (repeat 0%R C) (length node))
  = node.
Proof.
  induction 1 as [|r node Hr _ IH]; cbn; [reflexivity|].
  f_equal; [|exact IH]. rewrite <- Hr. apply scaled_row_plus_zero.
Qed.

Lemma map_nth_all {A} (l : list A) d :
  map (fun i => nth i l d) (seq 0 (length l)) = l.
Proof.
  assert (G : forall pre : list A,
             map (fun i => nth i (pre ++ l) d) (seq (length pre) (length l)) = l).
  { induction l as [|a l IH]; intros pre; cbn [length seq map]; [reflexivity|].
    f_equal.
    - rewrite app_nth2, Nat.sub_diag by lia. reflexivity.
    - specialize (IH (pre ++ [a])). rewrite <- app_assoc, length_app in IH.
      cbn [length app] in IH. rewrite Nat.add_1_r in IH. exact IH. }
  exact (G []).
Qed.

Lemma nth_zip_with {A B C} (f : A -> B -> C) (l : list A) (k : list B) dA dB dC : forall i,
  i < length l -> i < length k ->
  nth i (zip_with f l k) dC = f (nth i l dA) (nth i k dB).
Proof.
  revert k. induction l as [|a l IH]; intros [|b k] i Hl Hk; cbn [length] in *; try lia.
  destruct i as [|i]; cbn; [reflexivity|]. apply IH; lia.
Qed.

Lemma scatter_own_messages H C (x_l : Tensor3) (a : Alpha) :
  Forall (is_matrix H C) x_l ->
  length a = length x_l ->
  Forall (fun row => row = repeat 1%R H) a ->
  map (fun i =>
         fold_right (zip_with (zip_with Rplus)) (repeat (repeat 0%R C) H)
           (map fst
              (List.filter (fun p => snd p =? i)
                 (combine (zip_with (fun xe ae => zip_with (fun xh v => map (Rmult v) xh) xe ae)
                                    x_l a)
                          (seq 0 (length x_l))))))
      (seq 0 (length x_l))
  = x_l.
Proof.
  intros Hx Hlen Ha.
  transitivity (map (fun i => nth i x_l []) (seq 0 (length x_l))); [|apply map_nth_all].
  apply map_ext_in. intros i Hi. apply in_seq in Hi.
  set (msg := zip_with _ x_l a).
  assert (Hmsg : length msg = length x_l) by (unfold msg; rewrite length_zip_with; lia).
  rewrite <- Hmsg at 1. rewrite (filter_combine_seq msg [] i) by lia.
  cbn [map fst fold_right]. unfold msg.
  rewrite (nth_zip_with _ x_l a [] [] []) by lia.
  assert (Hrow : nth i a [] = repeat 1%R H).
  { rewrite List.Forall_forall in Ha. apply Ha, nth_In. lia. }
  assert (Hnode : is_matrix H C (nth i x_l [])).
  { rewrite List.Forall_forall in Hx. apply Hx, nth_In. lia. }
  destruct Hnode as [Hl Hr]. rewrite Hrow, <- Hl. apply own_message_sum. exact Hr.
Qed.

Lemma project_tensor self t x_l x_r alpha_l alpha_r :
  project self (XTensor t) = Ok (x_l, x_r, alpha_l, alpha_r) ->
  x_r = Some x_l
  /\ length alpha_l = length x_l
  /\ (exists ar, alpha_r = Some ar /\ length ar = length x_l)
  /\ Forall (is_matrix (heads self) (out_channels self)) x_l.
Proof.
  unfold project, mbind, Result_bind. intros H.
  destruct (dim t =? 2); [|discriminate].
  destruct (Linear_call _ _) as [y|]; [|discriminate].
  destruct (view3 _ _ _) as [x|] eqn:Hv; [|discriminate].
  injection H as <- <- <- <-. unfold att_score. rewrite !length_map.
  split; [reflexivity|]. split; [reflexivity|].
  split; [eexists; split; [reflexivity|rewrite !length_map; reflexivity]|].
  unfold view3 in Hv. destruct (_ =? 0); [discriminate|].
  destruct (_ mod _ =? 0); [|discriminate]. injection Hv as <-.
  apply List.Forall_forall. intros node Hin. apply in_map_iff in Hin as (row & <- & _).
  split; [apply length_unflatten|apply unflatten_rows].
Qed.

Lemma sources_self_loops n : map fst (self_loops n) = seq 0 n.
Proof. unfold self_loops. rewrite map_map. cbn [fst]. apply map_id. Qed.

Lemma destinations_self_loops n : map snd (self_loops n) = seq 0 n.
Proof. unfold self_loops. rewrite map_map. cbn [snd]. apply map_id. Qed.

Lemma adjust_only_loops ei (x_l : Tensor3) :
  Forall (fun e => is_loop e = true) ei ->
  adjust_self_loops true (EdgeIndex ei) x_l (Some x_l) None
  = Ok (EdgeIndex (self_loops (length x_l))).
Proof.
  intros Hloops. unfold adjust_self_loops, loop_count, add_self_loops.
  cbn [mbind Result_bind]. rewrite Z.min_id.
  replace (Z.of_nat (length x_l) <? 0)%Z with false by (symmetry; apply Z.ltb_ge; lia).
  rewrite (remove_self_loops_only_loops ei Hloops), Nat2Z.id. reflexivity.
Qed.

Lemma collect_self_loops (x_l : Tensor3) (al ar : Alpha) :
  length al = length x_l -> length ar = length x_l ->
  collect (EdgeIndex (self_loops (length x_l))) (x_l, Some x_l) (al, Some ar) (None, None)
  = Ok {| x_j := x_l; alpha_j := al; alpha_i := Some ar;
          index := seq 0 (length x_l); ptr := None;
          size_i := Some (Z.of_nat (length x_l)) |}.
Proof.
  intros Hal Har. unfold collect, set_size.
  cbn [fst snd mbind Result_bind sources destinations].
  rewrite sources_self_loops, destinations_self_loops, index_select_all.
  cbn [mbind Result_bind].
  rewrite Hal, Har, !Z.eqb_refl. cbn [mbind Result_bind].
  rewrite <- Hal at 1. rewrite index_select_all. cbn [mbind Result_bind].
  rewrite !Z.eqb_refl. cbn [mbind Result_bind].
  rewrite <- Har at 1. rewrite index_select_all. cbn [mbind Result_bind].
  unfold py_or. destruct (_ =? 0)%Z; reflexivity.
Qed.

(** X7: in inference mode, with the self-loop adjustment on and no
    explicit [size], on a single feature tensor and an edge-index input
    that holds self-loops only (an empty one in particular), the output of
    a returning [GATConv.forward] is the head combination (with the bias)
    of the projected features themselves: every node aggregates its own
    message with weight 1. *)
Theorem forward_only_self_loops_output t ei rw self g out second s' x_l x_r al ar :
  training self = false ->
  Forall (fun e => is_loop e = true) ei ->
  project self (XTensor t) = Ok (x_l, x_r, al, ar) ->
  forward (XTensor t) (EdgeIndex ei) None rw true (self, g) = (Ok (out, second), s') ->
  head_output self x_l = Ok out.
Proof.
  intros Htr Hloops Hp H.
  destruct (project_tensor _ _ _ _ _ _ Hp) as (-> & Hal & (ar' & -> & Har) & Hnodes).
  rewrite forward_run, Hp, (adjust_only_loops ei x_l Hloops) in H. cbn [shape_1] in H.
  rewrite propagate_run in H. cbn [check_input] in H.
  pose proof (collect_self_loops x_l al ar' Hal Har) as Hc.
  rewrite Hc in H.
  destruct (edge_scores_shape _ _ _ _ _ _ _ _ _ Hp Hc) as (Hlen & Hrows).
  cbn [x_j alpha_j alpha_i index ptr size_i] in *.
  rewrite message_run in H.
  destruct (softmax _ _ _ _) as [a|e] eqn:Hsm; [|discriminate].
  pose proof (softmax_length _ _ _ _ _ Hsm Hlen) as Hla.
  pose proof (softmax_rows _ _ _ _ _ _ Hsm Hrows) as Harows.
  assert (Hones : Forall (Forall (fun v => v = 1%R)) a).
  { eapply softmax_single_edge; [exact Hsm|]. apply List.seq_NoDup. }
  rewrite length_seq in Hla.
  rewrite Htr, F_dropout_eval in H.
  destruct (negb _ || negb _); [discriminate|].
  cbn [fst snd] in H.
  unfold scatter_add in H. cbn [maybe_num_nodes] in H.
  replace (Z.of_nat (length x_l) <? 0)%Z with false in H by (symmetry; apply Z.ltb_ge; lia).
  destruct (in_range _ _); [|discriminate].
  rewrite Nat2Z.id in H.
  rewrite (scatter_own_messages (heads self) (out_channels self) x_l a Hnodes Hla) in H.
  2:{ apply List.Forall_forall. intros row Hin.
      rewrite List.Forall_forall in Hones, Harows.
      rewrite <- (Harows row Hin). apply all_ones. auto. }
  cbn [fst snd concat bias _alpha set_alpha] in H.
  unfold head_output, mbind, Result_bind.
  destruct (if concat self then _ else _) as [o|e]; [|discriminate].
  destruct (isinstance_bool rw); injection H as <- _ _; reflexivity.
Qed.

Lemma forward_only_self_loops_output_witness :
  exists out second s' x_l x_r al ar,
    forward path_x (EdgeIndex loops_only) None PyNone true (path_layer, rng_keep)
    = (Ok (out, second), s')
    /\ project path_layer path_x = Ok (x_l, x_r, al, ar)
    /\ head_output path_layer x_l = Ok out.
Proof.
  destruct (project path_layer path_x) as [[[[x_l x_r] al] ar]|e] eqn:Hp.
  2:{ exfalso. revert Hp. lazy -[exp Rmax Rmin Q2R]. discriminate. }
  destruct (forward path_x (EdgeIndex loops_only) None PyNone true
                    (path_layer, rng_keep)) as [[[out second]|e] s'] eqn:Hf.
  2:{ exfalso. revert Hf. lazy -[exp Rmax Rmin Q2R]. discriminate. }
  exists out, second, s', x_l, x_r, al, ar.
  split; [reflexivity|]. split; [reflexivity|].
  apply (forward_only_self_loops_output path_tensor loops_only PyNone path_layer rng_keep
           out second s' x_l x_r al ar).
  - reflexivity.
  - repeat constructor.
  - exact Hp.
  - exact Hf.
Defined.

(** ** Shape of the result on a well-formed call *)

Lemma view2_shape H C (agg : Tensor3) o :
  H * C <> 0 ->
  Forall (is_matrix H C) agg ->
  view2 agg (H * C) = Ok o ->
  shape o = [length agg; H * C].
Proof.
  intros Hz Ha. unfold view2. apply Nat.eqb_neq in Hz. rewrite Hz.
  apply Nat.eqb_neq in Hz.
  rewrite (length_concat_uniform (H * C)).
  2:{ apply List.Forall_forall. intros r Hin. apply in_map_iff in Hin as (m & <- & Hm).
      rewrite List.Forall_forall in Ha. destruct (Ha _ Hm) as [Hl Hr].
      rewrite (length_concat_uniform C), Hl by assumption. reflexivity. }
  rewrite length_map, Nat.Div0.mod_mul, Nat.div_mul by assumption.
  cbn. intros [= <-]. reflexivity.
Qed.

Lemma forward_on_well_formed self t N ei rw flag g :
  well_formed self ->
  heads self * out_channels self <> 0 ->
  shape t = [N; in_features (lin_l self)] ->
  in_bounds N ei ->
  Qle_bool 0 (dropout self) && Qle_bool (dropout self) 1 = true ->
  exists out second g' ei',
    forward (XTensor t) (EdgeIndex ei) None rw flag (self, g)
    = (Ok (out, second), (set_alpha self None, g'))
    /\ shape out = [N; if concat self then heads self * out_channels self
                       else out_channels self]
    /\ returned_edges second = EdgeIndex ei'
    /\ in_bounds N ei'.
Proof.
  intros Hwf Hz Hs Hb Hp.
  destruct (project_homogeneous self t N Hwf Hz Hs)
    as (x_l & al & ar & Hproj & Hxl & Hal & Har & Hnodes).
  rewrite forward_run, Hproj. cbn [shape_1]. subst N.
  destruct (adjust_in_bounds flag ei x_l Hb) as (ei' & -> & Hb').
  rewrite propagate_run. cbn [check_input].
  destruct (collect_homogeneous ei' x_l al ar Hal Har Hb') as (c & Hc & Hsz & Hidx).
  rewrite Hc, message_run.
  destruct (edge_scores_shape _ _ _ _ _ _ _ _ _ Hproj Hc) as (Hlen & Hrows).
  destruct (softmax _ _ _ _) as [a|e] eqn:Hsm.
  2:{ exfalso. unfold softmax in Hsm. rewrite Hsz, Hidx in Hsm. cbn [maybe_num_nodes] in Hsm.
      rewrite (in_range_destinations _ _ Hb') in Hsm. discriminate. }
  pose proof (softmax_rows _ _ _ _ _ _ Hsm Hrows) as Harows.
  destruct (F_dropout _ _ _ _) as [[a'|e] [self1 g1]] eqn:Hd.
  2:{ exfalso. unfold F_dropout in Hd.
      apply andb_true_iff in Hp as [H0 H1]. rewrite H0, H1 in Hd. cbn in Hd.
      destruct (training self); discriminate. }
  pose proof (F_dropout_rows _ _ _ _ _ _ _ Hd Harows) as Ha'rows.
  pose proof (F_dropout_self a (dropout self) (training self) (set_alpha self (Some a), g)) as Hself.
  rewrite Hd in Hself. cbn [fst snd] in Hself. subst self1.
  apply collect_x_j in Hc. cbn [fst] in Hc.
  apply index_select_ok in Hc as (_ & Hjin).
  assert (Hxj : Forall (is_matrix (heads self) (out_channels self)) (x_j c)).
  { eapply Forall_in_Forall; [|exact Hjin]. exact Hnodes. }
  rewrite Hsz, Hidx.
  destruct (scatter_add_ok _ (map snd ei') (length x_l) _ _
              (in_range_destinations _ _ Hb') (message_shape _ _ _ _ Hxj Ha'rows))
    as (agg & -> & Hagglen & Hagg).
  cbn [fst snd concat bias _alpha set_alpha].
  destruct (concat self).
  - destruct (view2_ok _ _ agg Hz Hagg) as [o Ho]. rewrite Ho.
    apply (view2_shape _ _ _ _ Hz Hagg) in Ho. rewrite Hagglen in Ho.
    destruct (isinstance_bool rw) eqn:Hrw.
    + eexists _, _, g1, ei'. split; [reflexivity|]. split; [destruct (bias self); exact Ho|].
      unfold export. rewrite Hrw. auto.
    + eexists _, _, g1, ei'. split; [reflexivity|]. split; [destruct (bias self); exact Ho|]. auto.
  - destruct (isinstance_bool rw) eqn:Hrw.
    + eexists _, _, g1, ei'. split; [reflexivity|].
      split; [destruct (bias self); cbn; rewrite Hagglen; reflexivity|].
      unfold export. rewrite Hrw. auto.
    + eexists _, _, g1, ei'. split; [reflexivity|].
      split; [destruct (bias self); cbn; rewrite Hagglen; reflexivity|]. auto.
Qed.

(** X8: on a layer whose projections have [heads * out_channels] outputs
    (not zero) and a dropout probability in [0, 1], a call of
    [GATConv.forward] with an [N x in_channels] feature matrix, an edge list
    over the nodes below [N] and no [size] returns: the output is an
    [N]-row matrix of the announced width, [_alpha] is [None] again, the
    returned edges stay below [N], and exported attention weights hold one
    row of [heads] coefficients per returned edge. *)
Theorem forward_returns_on_well_formed_input self t N ei rw flag g :
  well_formed self ->
  heads self * out_channels self <> 0 ->
  shape t = [N; in_features (lin_l self)] ->
  in_bounds N ei ->
  Qle_bool 0 (dropout self) && Qle_bool (dropout self) 1 = true ->
  exists out second s' ei',
    forward (XTensor t) (EdgeIndex ei) None rw flag (self, g) = (Ok (out, second), s')
    /\ shape out = [N; if concat self then heads self * out_channels self
                       else out_channels self]
    /\ _alpha (fst s') = None
    /\ returned_edges second = EdgeIndex ei'
    /\ in_bounds N ei'
    /\ forall a, returned_attention second = Some a ->
                 length a = length ei' /\ Forall (fun row => length row = heads self) a.
Proof.
  intros Hwf Hz Hs Hb Hp.
  destruct (forward_on_well_formed self t N ei rw flag g Hwf Hz Hs Hb Hp)
    as (out & second & g' & ei' & Hf & Hsh & Hre & Hb').
  exists out, second, (set_alpha self None, g'), ei'.
  split; [exact Hf|]. split; [exact Hsh|]. split; [reflexivity|].
  split; [exact Hre|]. split; [exact Hb'|].
  intros a Ha.
  apply forward_ok in Hf
    as (x_l & x_r & al & ar & e' & sz & c & a0 & Hproj & _ & _ & Hc & Hsm & _ & Hsec & _).
  destruct (edge_scores_shape _ _ _ _ _ _ _ _ _ Hproj Hc) as (Hlen & Hrows).
  pose proof (softmax_length _ _ _ _ _ Hsm Hlen) as Hla.
  pose proof (softmax_rows _ _ _ _ _ _ Hsm Hrows) as Harows.
  apply collect_ok in Hc as (Hidx & _).
  assert (He' : e' = EdgeIndex ei' /\ a = a0).
  { subst second. unfold export in *.
    destruct (isinstance_bool rw); destruct e' as [l|sp]; cbn in Hre, Ha.
    - split; congruence.
    - discriminate.
    - discriminate.
    - discriminate. }
  destruct He' as [-> ->]. split; [|exact Harows].
  rewrite Hla, Hidx. cbn [destinations]. apply length_map.
Qed.

Lemma forward_returns_on_well_formed_input_witness :
  exists out second s' ei',
    forward path_x path_edges None (PyBool true) true (path_layer, rng_keep)
    = (Ok (out, second), s')
    /\ shape out = [4; 2]
    /\ _alpha (fst s') = None
    /\ returned_edges second = EdgeIndex ei'
    /\ in_bounds 4 ei'
    /\ forall a, returned_attention second = Some a ->
                 length a = length ei' /\ Forall (fun row => length row = 1) a.
Proof.
  apply (forward_returns_on_well_formed_input path_layer path_tensor 4 path_edge_list
           (PyBool true) true rng_keep).
  - split; reflexivity.
  - cbn. lia.
  - reflexivity.
  - repeat constructor; cbn; lia.
  - reflexivity.
Defined.

(** ** The constructor *)

(** X9: on every layer that [GATConv.__init__] returns for [bias=True]
    (put in either mode), whenever [forward] returns, the bias has as many
    entries as the output has columns, so the addition [out += self.bias]
    is between fitting shapes; as [reset_parameters] left it, every entry
    is zero. *)
Theorem constructed_bias_fits_output rnd k ic oc hds cat ns p L
    x edge_index size rw flag mode g out second s' :
  GATConv_init rnd k ic oc hds cat ns p true = Ok L ->
  forward x edge_index size rw flag (set_training L mode, g) = (Ok (out, second), s') ->
  exists b,
    bias L = Some b
    /\ length b = last_dim out
    /\ Forall (fun v => v = 0%R) b.
Proof.
  intros HL H.
  apply GATConv_init_fields in HL as (_ & Hoc & Hh & Hcat & _ & _ & Hb & _).
  apply forward_ok in H as (? & ? & ? & ? & ? & ? & ? & ? & H).
  destruct H as (_ & _ & _ & _ & _ & [agg Hh'] & _).
  apply head_output_shape in Hh' as [n Hn]. unfold last_dim. rewrite Hn.
  cbn [concat heads out_channels set_training List.last]. rewrite Hb, Hcat, Hh, Hoc.
  destruct cat; cbn; eexists; (split; [reflexivity|]);
    rewrite repeat_length; (split; [reflexivity|]);
    apply List.Forall_forall; intros v Hv; apply repeat_spec in Hv; assumption.
Qed.

Lemma constructed_bias_fits_output_witness :
  exists out second s',
    forward path_x path_edges None PyNone true (path_layer, rng_keep)
    = (Ok (out, second), s')
    /\ exists b, bias path_layer = Some b
                 /\ length b = last_dim out
                 /\ Forall (fun v => v = 0%R) b.
Proof.
  eexists _, _, _. split; [run_layer|].
  eapply (constructed_bias_fits_output glorot_ones 0 (IntCh 3) 2 1 true (2 # 10)%Q 0%Q
            (returned (GATConv_new glorot_ones 0 3 2 1 true) eq_refl)
            path_x path_edges None PyNone true false rng_keep).
  - reflexivity.
  - run_layer.
Defined.

(** ** Layers inside a stacked model *)

Lemma zoom_run {S T A} (proj : S -> T) (upd : T -> S -> S) (m : M T A) s r t' g' :
  m (proj (fst s), snd s) = (r, (t', g')) ->
  zoom proj upd m s = (r, (upd t' (fst s), g')).
Proof. unfold zoom. intros ->. reflexivity. Qed.

Lemma call_conv_run x edge_index size flag s :
  call_conv x edge_index size flag s
  = match forward (XTensor x) edge_index size PyNone flag s with
    | (Ok (out, Plain e), s') => (Ok (out, e), s')
    | (Ok (out, WithAttention _ _), s') => (Raise TypeError, s')
    | (Raise e, s') => (Raise e, s')
    end.
Proof.
  unfold call_conv. rewrite bind_run.
  destruct (forward _ _ _ _ _ _) as [[[out [ei a|e]]|e] s']; reflexivity.
Qed.

Lemma call_conv_shape x edge_index size flag self g out e s' :
  call_conv x edge_index size flag (self, g) = (Ok (out, e), s') ->
  exists n, shape out = [n; if concat self then heads self * out_channels self
                            else out_channels self].
Proof.
  intros H. apply call_conv_ok in H.
  apply forward_ok in H as (? & ? & ? & ? & ? & ? & ? & ? & H).
  destruct H as (_ & _ & _ & _ & _ & [agg Hh] & _).
  eapply head_output_shape. eassumption.
Qed.

Lemma call_conv_width_mismatch x edge_index size flag self g n d :
  shape x = [n; d] ->
  d <> in_features (lin_l self) ->
  exists e,
    call_conv x edge_index size flag (self, g) = (Raise e, (self, g))
    /\ (forall ei, edge_index = EdgeIndex ei -> e = RuntimeError).
Proof.
  intros Hs Hd. rewrite call_conv_run, forward_run.
  destruct edge_index as [ei|adj_t]; cbn [shape_1].
  - unfold project, Linear_call, dim, last_dim. rewrite Hs.
    cbn [length Nat.eqb List.last]. apply Nat.eqb_neq in Hd. rewrite Hd.
    exists RuntimeError. split; [reflexivity|auto].
  - exists AttributeError. split; [reflexivity|discriminate].
Qed.

Lemma call_conv_returns self t N ei flag g :
  well_formed self ->
  heads self * out_channels self <> 0 ->
  shape t = [N; in_features (lin_l self)] ->
  in_bounds N ei ->
  Qle_bool 0 (dropout self) && Qle_bool (dropout self) 1 = true ->
  exists out g' ei',
    call_conv t (EdgeIndex ei) None flag (self, g)
    = (Ok (out, EdgeIndex ei'), (set_alpha self None, g'))
    /\ shape out = [N; if concat self then heads self * out_channels self
                       else out_channels self]
    /\ in_bounds N ei'.
Proof.
  intros Hwf Hz Hs Hb Hp.
  destruct (forward_on_well_formed self t N ei PyNone flag g Hwf Hz Hs Hb Hp)
    as (out & second & g' & ei' & Hf & Hsh & Hre & Hb').
  exists out, g', ei'. rewrite call_conv_run, Hf.
  pose proof Hf as Hf'.
  apply forward_ok in Hf' as (? & ? & ? & ? & e' & ? & ? & ? & Hf').
  destruct Hf' as (_ & _ & _ & _ & _ & _ & Hsec & _). cbn [isinstance_bool] in Hsec.
  subst second. cbn [returned_edges] in Hre. subst e'. auto.
Qed.

Lemma F_dropout_tensor_ok {T} x p tr (s : T * Rng) x' s' :
  F_dropout_tensor x p tr s = (Ok x', s') ->
  shape x' = shape x /\ fst s' = fst s /\ length (data x') = length (data x).
Proof.
  unfold F_dropout_tensor. rewrite bind_run.
  pose proof (F_dropout_self [data x] p tr s) as Hself.
  destruct (F_dropout _ _ _ _) as [[d|e] s1] eqn:Hd; [|discriminate].
  intros [= <- <-]. cbn [shape data]. repeat split; [exact Hself|].
  unfold F_dropout in Hd.
  destruct (negb _ || negb _); [discriminate|].
  destruct tr; [|injection Hd as <- <-; cbn; rewrite List.app_nil_r; reflexivity].
  destruct (Qeq_bool p 1); [injection Hd as <- <-; cbn; rewrite List.app_nil_r; apply length_map|].
  destruct (Qeq_bool p 0); injection Hd as <- <-; cbn; rewrite List.app_nil_r;
    [reflexivity|apply length_imap].
Qed.

Lemma F_dropout_tensor_returns {T} x p tr (t : T) g :
  Qle_bool 0 p && Qle_bool p 1 = true ->
  exists x' g', F_dropout_tensor x p tr (t, g) = (Ok x', (t, g'))
                /\ shape x' = shape x.
Proof.
  intros Hp. apply andb_true_iff in Hp as [H0 H1].
  unfold F_dropout_tensor. rewrite bind_run. unfold F_dropout. rewrite H0, H1.
  cbn [negb orb fst snd]. destruct tr; eexists _, _; split; reflexivity.
Qed.

Lemma F_dropout_tensor_error {T} x p tr (s : T * Rng) e s' :
  F_dropout_tensor x p tr s = (Raise e, s') -> fst s' = fst s.
Proof.
  unfold F_dropout_tensor. rewrite bind_run.
  pose proof (F_dropout_self [data x] p tr s) as Hself.
  destruct (F_dropout _ _ _ _) as [[d|e1] s1]; [discriminate|].
  intros [= _ <-]. exact Hself.
Qed.

Lemma zoom_inv {S T A} (proj : S -> T) (upd : T -> S -> S) (m : M T A) s r s' :
  zoom proj upd m s = (r, s') ->
  exists t', m (proj (fst s), snd s) = (r, (t', snd s')) /\ fst s' = upd t' (fst s).
Proof.
  unfold zoom. destruct (m _) as [r1 [t' g']]. intros [= <- <-]. exists t'. auto.
Qed.

(** ** Constructed models *)

Lemma returned_eq {A} (r : Result A) (H : is_ok r = true) a :
  r = Ok a -> returned r H = a.
Proof. intros ->. reflexivity. Qed.

(** Name the instance that a concrete constructor call returns. *)
Ltac name_returned m Hm :=
  match goal with
  | |- context [returned ?r ?E] => rewrite (returned_eq r E m Hm)
  end.

Lemma StandGAT1_init_ok rnd nfeat nhid nclass p nlayer flag m :
  StandGAT1.init rnd nfeat nhid nclass p nlayer flag = Ok m ->
  exists c1,
    GATConv_new rnd 0 nfeat nclass 1 true = Ok c1
    /\ m = StandGAT1.mk c1 flag [] (GATConv_parameters c1) true.
Proof.
  unfold StandGAT1.init, mbind, Result_bind.
  destruct (GATConv_new rnd 0 _ _ _ _) as [c1|]; [|discriminate].
  intros [= <-]. eauto.
Qed.

Lemma StandGAT2_init_ok rnd nfeat nhid nclass p nlayer m :
  StandGAT2.init rnd nfeat nhid nclass p nlayer = Ok m ->
  exists c1 c2,
    GATConv_new rnd 0 nfeat (nhid / 4) 4 true = Ok c1
    /\ GATConv_new rnd 4 nhid nclass 1 false = Ok c2
    /\ m = StandGAT2.mk c1 c2 p true (GATConv_parameters c1) (GATConv_parameters c2) true.
Proof.
  unfold StandGAT2.init, mbind, Result_bind.
  destruct (GATConv_new rnd 0 _ _ _ _) as [c1|]; [|discriminate].
  destruct (GATConv_new rnd 4 _ _ _ _) as [c2|]; [|discriminate].
  intros [= <-]. eauto.
Qed.

Lemma StandGATX_init_ok rnd nfeat nhid nclass p nlayer m :
  StandGATX.init rnd nfeat nhid nclass p nlayer = Ok m ->
  exists c1 c2 cx,
    GATConv_new rnd 0 nfeat (nhid / 4) 4 true = Ok c1
    /\ GATConv_new rnd 4 nhid nclass 1 true = Ok c2
    /\ Forall2 (fun i c => GATConv_new rnd (8 + 4 * i) nhid (nhid / 4) 4 true = Ok c)
               (seq 0 (Z.to_nat (nlayer - 2))) cx
    /\ m = StandGATX.mk c1 c2 cx p true
             (GATConv_parameters c1 ++ flat_map GATConv_parameters cx)
             (GATConv_parameters c2) true.
Proof.
  unfold StandGATX.init.
  destruct (GATConv_new rnd 0 _ _ _ _) as [c1|]; [|discriminate].
  destruct (GATConv_new rnd 4 _ _ _ _) as [c2|]; [|discriminate].
  cbn [mbind Result_bind].
  destruct (mapM _ _) as [cx|] eqn:Hx; [|discriminate].
  intros [= <-]. apply mapM_Result_ok in Hx. eauto 8.
Qed.

Lemma StandGATEncoder_init_ok rnd nfeat nhid nembed p flag m :
  StandGATEncoder.init rnd nfeat nhid nembed p flag = Ok m ->
  exists c1 c2,
    GATConv_new rnd 0 nfeat (nembed / 8) 8 true = Ok c1
    /\ GATConv_new rnd 4 nhid (nembed / 8) 8 true = Ok c2
    /\ m = StandGATEncoder.mk c1 c2 p flag true.
Proof.
  unfold StandGATEncoder.init, mbind, Result_bind.
  destruct (GATConv_new rnd 0 _ _ _ _) as [c1|]; [|discriminate].
  destruct (GATConv_new rnd 4 _ _ _ _) as [c2|]; [|discriminate].
  intros [= <-]. eauto.
Qed.

Lemma StandGATClssifier_init_ok rnd nembed nhid nclass p nlayer m :
  StandGATClssifier.init rnd nembed nhid nclass p nlayer = Ok m ->
  exists c1 c2,
    GATConv_new rnd 0 nembed (nhid / 8) 8 true = Ok c1
    /\ GATConv_new rnd 4 nhid nclass 1 false = Ok c2
    /\ m = StandGATClssifier.mk c1 c2 (mkLinear nhid 2 (rnd 10 [2; nhid])) (rnd 9 [2])
             p true true.
Proof.
  unfold StandGATClssifier.init, mbind, Result_bind.
  destruct (GATConv_new rnd 0 _ _ _ _) as [c1|]; [|discriminate].
  destruct (GATConv_new rnd 4 _ _ _ _) as [c2|]; [|discriminate].
  intros [= <-]. eauto.
Qed.

(** A layer as the stacked models build it returns on a feature matrix of
    its input width. *)
Lemma new_layer_returns rnd k nin nout h cat L mode t N ei flag g :
  GATConv_new rnd k nin nout h cat = Ok L ->
  h * nout <> 0 ->
  shape t = [N; nin] ->
  in_bounds N ei ->
  exists out c' g' ei',
    call_conv t (EdgeIndex ei) None flag (set_training L mode, g)
    = (Ok (out, EdgeIndex ei'), (c', g'))
    /\ shape out = [N; if cat then h * nout else nout]
    /\ in_bounds N ei'.
Proof.
  intros HL Hz Hs Hb.
  destruct (GATConv_new_facts rnd k nin nout h cat L mode HL)
    as (Hwf & Hin & Hh & Ho & Hc & Hp).
  destruct (call_conv_returns (set_training L mode) t N ei flag g Hwf)
    as (out & g' & ei' & Hcall & Hsh & Hb');
    [rewrite Hh, Ho; exact Hz|rewrite Hin; exact Hs|exact Hb|rewrite Hp; reflexivity|].
  eexists out, _, g', ei'. split; [exact Hcall|]. split; [|exact Hb'].
  rewrite Hsh, Hc, Hh, Ho. reflexivity.
Qed.

(** The call of a layer on a feature matrix of another width than its own
    raises and leaves the layer as it was. *)
Ltac width_mismatch n d :=
  match goal with
  | |- context [call_conv ?x ?e ?sz ?fl (?c, ?g)] =>
      let e' := fresh "e" in
      let He := fresh "He" in
      destruct (call_conv_width_mismatch x e sz fl c g n d) as (e' & He & _);
      [..|rewrite He]
  end.

(** ** The two-layer model *)

Lemma not_multiple n k : k <> 0 -> n mod k <> 0 -> k * (n / k) <> n.
Proof.
  intros Hk Hm H. apply Hm. rewrite <- H at 1. rewrite Nat.mul_comm.
  apply Nat.Div0.mod_mul.
Qed.

(** X11: a [StandGAT2] built with a hidden width [nhid] that is not a
    multiple of its four heads never returns from [forward], whatever the
    input: the first layer emits [4 * (nhid // 4)] columns and the second
    layer was built for [nhid]. *)
Theorem StandGAT2_hidden_width rnd nfeat nhid nclass p nlayer m mode x adj ew g :
  nhid mod 4 <> 0 ->
  StandGAT2.init rnd nfeat nhid nclass p nlayer = Ok m ->
  is_ok (fst (StandGAT2.forward x adj ew (StandGAT2.train mode m, g))) = false.
Proof.
  intros Hm Hi. apply StandGAT2_init_ok in Hi as (c1 & c2 & Hc1 & Hc2 & ->).
  destruct (GATConv_new_facts _ _ _ _ _ _ _ mode Hc1) as (_ & _ & Hh1 & Ho1 & Hcat1 & _).
  destruct (GATConv_new_facts _ _ _ _ _ _ _ mode Hc2) as (_ & Hin2 & _).
  unfold StandGAT2.forward. rewrite bind_run. cbn [get_self fst snd].
  rewrite bind_run.
  destruct (zoom StandGAT2.conv1 _ _ _) as [[[x1 e1]|e] [m1 g1]] eqn:Hz; [|reflexivity].
  apply zoom_inv in Hz as (c1' & Hc & Hm1). cbn [fst snd] in Hc, Hm1.
  apply call_conv_shape in Hc as [n Hn].
  cbn [StandGAT2.conv1 StandGAT2.train] in Hn. rewrite Hcat1, Hh1, Ho1 in Hn.
  rewrite bind_run.
  destruct (F_dropout_tensor _ _ _ _) as [[x2|e] [m2 g2]] eqn:Hd; [|reflexivity].
  apply F_dropout_tensor_ok in Hd as (Hs2 & Hm2 & _). cbn [fst snd F_relu shape] in Hs2, Hm2.
  rewrite bind_run. unfold zoom. cbn [fst snd]. subst m2 m1.
  cbn [StandGAT2.conv2 StandGAT2.set_conv1 StandGAT2.train].
  width_mismatch n (4 * (nhid / 4)); [rewrite Hs2; exact Hn| |reflexivity].
  rewrite Hin2. apply not_multiple; [lia|assumption].
Qed.

Lemma StandGAT2_hidden_width_witness :
  is_ok (fst (StandGAT2.forward path_tensor path_edges None
                (StandGAT2.train false
                   (returned (StandGAT2.init glorot_ones 3 6 2 0%Q 2) eq_refl), rng_keep)))
  = false.
Proof.
  apply (StandGAT2_hidden_width glorot_ones 3 6 2 0%Q 2 _ false path_tensor path_edges None
           rng_keep).
  - cbn. lia.
  - reflexivity.
Defined.

(** X12: a [StandGAT2] whose hidden width is a positive multiple of four,
    with at least one class and a dropout probability in [0, 1], is
    constructed and returns from [forward] on every [N x nfeat] feature
    matrix and edge list over the nodes below [N], in either mode, with an
    [N x nclass] output; the [edge_weight] argument is ignored. *)
Theorem StandGAT2_returns rnd nfeat k nclass p nlayer mode x N ei ew g :
  0 < k -> 0 < nclass ->
  shape x = [N; nfeat] ->
  in_bounds N ei ->
  Qle_bool 0 p && Qle_bool p 1 = true ->
  exists m,
    StandGAT2.init rnd nfeat (4 * k) nclass p nlayer = Ok m
    /\ exists out s',
         StandGAT2.forward x (EdgeIndex ei) ew (StandGAT2.train mode m, g) = (Ok out, s')
         /\ shape out = [N; nclass].
Proof.
  intros Hk Hc Hs Hb Hp.
  assert (Hdiv : 4 * k / 4 = k) by (rewrite Nat.mul_comm; apply Nat.div_mul; lia).
  destruct (GATConv_new_returns rnd 0 nfeat (4 * k / 4) 4 true) as [c1 Hc1];
    [rewrite Hdiv; lia|lia|].
  destruct (GATConv_new_returns rnd 4 (4 * k) nclass 1 false) as [c2 Hc2]; [lia|lia|].
  eexists. split; [unfold StandGAT2.init; rewrite Hc1, Hc2; reflexivity|].
  unfold StandGAT2.forward. rewrite bind_run. cbn [get_self fst snd].
  rewrite bind_run.
  destruct (new_layer_returns rnd 0 nfeat (4 * k / 4) 4 true c1 mode x N ei true g Hc1)
    as (x1 & c1' & g1 & e1 & Hr1 & Hs1 & Hb1); [rewrite Hdiv; lia|assumption|assumption|].
  erewrite zoom_run by exact Hr1. cbn [fst snd].
  rewrite bind_run.
  match goal with
  | |- context [F_dropout_tensor ?a ?q ?tr (?s, ?h)] =>
      destruct (F_dropout_tensor_returns a q tr s h Hp) as (x2 & g2 & Hd & Hs2)
  end.
  rewrite Hd. rewrite bind_run.
  destruct (new_layer_returns rnd 4 (4 * k) nclass 1 false c2 mode x2 N e1 true g2 Hc2)
    as (x3 & c3 & g3 & e3 & Hr3 & Hs3 & Hb3); [lia| |assumption|].
  { rewrite Hs2. cbn [F_relu shape]. rewrite Hs1, Hdiv. reflexivity. }
  erewrite zoom_run by exact Hr3. cbn [fst snd].
  eexists _, _. split; [reflexivity|]. exact Hs3.
Qed.

Lemma StandGAT2_returns_witness :
  exists out s',
    StandGAT2.forward path_tensor (EdgeIndex path_edge_list) None
      (StandGAT2.train true
         (returned (StandGAT2.init glorot_ones 3 (4 * 2) 2 (1 # 2)%Q 2) eq_refl), rng_keep)
    = (Ok out, s')
    /\ shape out = [4; 2].
Proof.
  destruct (StandGAT2_returns glorot_ones 3 2 2 (1 # 2)%Q 2 true path_tensor 4
              path_edge_list None rng_keep) as (m & Hm & H).
  - lia.
  - lia.
  - reflexivity.
  - repeat constructor; cbn; lia.
  - reflexivity.
  - name_returned m Hm. exact H.
Defined.

(** ** The one-layer model and the encoder *)

(** X10: a [StandGAT1] with at least one class is constructed and returns
    from [forward] on every [N x nfeat] feature matrix and edge list over
    the nodes below [N], in either mode; the output is [N x nclass] and,
    being rectified, has no negative entry.  [nhid], [dropout] and
    [edge_weight] play no part. *)
Theorem StandGAT1_returns rnd nfeat nhid nclass p nlayer flag mode x N ei ew g :
  0 < nclass ->
  shape x = [N; nfeat] ->
  in_bounds N ei ->
  exists m,
    StandGAT1.init rnd nfeat nhid nclass p nlayer flag = Ok m
    /\ exists out s',
         StandGAT1.forward x (EdgeIndex ei) ew (StandGAT1.train mode m, g) = (Ok out, s')
         /\ shape out = [N; nclass]
         /\ Forall (fun v => (0 <= v)%R) (data out).
Proof.
  intros Hc Hs Hb.
  destruct (GATConv_new_returns rnd 0 nfeat nclass 1 true) as [c1 Hc1]; [lia|lia|].
  eexists. split; [unfold StandGAT1.init; rewrite Hc1; reflexivity|].
  unfold StandGAT1.forward. rewrite bind_run. cbn [get_self fst snd].
  rewrite bind_run.
  destruct (new_layer_returns rnd 0 nfeat nclass 1 true c1 mode x N ei flag g Hc1)
    as (x1 & c1' & g1 & e1 & Hr1 & Hs1 & Hb1); [lia|assumption|assumption|].
  erewrite zoom_run by exact Hr1. cbn [fst snd].
  eexists _, _. split; [reflexivity|]. cbn [F_relu shape data]. split.
  - rewrite Hs1, Nat.mul_1_l. reflexivity.
  - apply List.Forall_forall. intros v Hv. apply in_map_iff in Hv as (u & <- & _).
    apply Rmax_l.
Qed.

Lemma StandGAT1_returns_witness :
  exists out s',
    StandGAT1.forward path_tensor (EdgeIndex path_edge_list) None
      (StandGAT1.train false
         (returned (StandGAT1.init glorot_ones 3 8 2 0%Q 1 true) eq_refl), rng_keep)
    = (Ok out, s')
    /\ shape out = [4; 2]
    /\ Forall (fun v => (0 <= v)%R) (data out).
Proof.
  destruct (StandGAT1_returns glorot_ones 3 8 2 0%Q 1 true false path_tensor 4
              path_edge_list None rng_keep) as (m & Hm & H).
  - lia.
  - reflexivity.
  - repeat constructor; cbn; lia.
  - name_returned m Hm. exact H.
Defined.

Lemma elu_lower_bound (v : R) : (-1 < Rmax 0 v + Rmin 0 (exp v - 1))%R.
Proof.
  pose proof (Rmax_l 0 v). pose proof (exp_pos v).
  assert (-1 < Rmin 0 (exp v - 1))%R by (apply Rmin_glb_lt; lra). lra.
Qed.

(** X15: a [StandGATEncoder] with an embedding width of at least eight and
    a dropout probability in [0, 1] is constructed and returns from
    [forward] on every [N x nfeat] feature matrix and edge list over the
    nodes below [N]; the embedding has [8 * (nembed // 8)] columns (not
    [nembed] when that is no multiple of eight) and, after ELU, no entry is
    below -1. *)
Theorem StandGATEncoder_returns rnd nfeat nhid nembed p flag mode x N ei ew g :
  8 <= nembed ->
  shape x = [N; nfeat] ->
  in_bounds N ei ->
  Qle_bool 0 p && Qle_bool p 1 = true ->
  exists m,
    StandGATEncoder.init rnd nfeat nhid nembed p flag = Ok m
    /\ exists out s',
         StandGATEncoder.forward x (EdgeIndex ei) ew (StandGATEncoder.train mode m, g)
         = (Ok out, s')
         /\ shape out = [N; 8 * (nembed / 8)]
         /\ Forall (fun v => ~ (v < -1)%R) (data out).
Proof.
  intros He Hs Hb Hp.
  assert (Hdiv : 0 < nembed / 8) by (apply Nat.div_str_pos; lia).
  destruct (GATConv_new_returns rnd 0 nfeat (nembed / 8) 8 true) as [c1 Hc1]; [lia|lia|].
  destruct (GATConv_new_returns rnd 4 nhid (nembed / 8) 8 true) as [c2 Hc2]; [lia|lia|].
  eexists. split; [unfold StandGATEncoder.init; rewrite Hc1, Hc2; reflexivity|].
  unfold StandGATEncoder.forward. rewrite bind_run. cbn [get_self fst snd].
  rewrite bind_run.
  destruct (new_layer_returns rnd 0 nfeat (nembed / 8) 8 true c1 mode x N ei flag g Hc1)
    as (x1 & c1' & g1 & e1 & Hr1 & Hs1 & Hb1); [lia|assumption|assumption|].
  erewrite zoom_run by exact Hr1. cbn [fst snd].
  rewrite bind_run.
  match goal with
  | |- context [F_dropout_tensor ?a ?q ?tr (?s, ?h)] =>
      destruct (F_dropout_tensor_returns a q tr s h Hp) as (x2 & g2 & Hd & Hs2)
  end.
  rewrite Hd. eexists _, _. split; [reflexivity|]. cbn [F_elu shape data]. split.
  - rewrite Hs2. exact Hs1.
  - apply List.Forall_forall. intros v Hv. apply in_map_iff in Hv as (u & <- & _).
    pose proof (elu_lower_bound u). lra.
Qed.

Lemma StandGATEncoder_returns_witness :
  exists out s',
    StandGATEncoder.forward path_tensor (EdgeIndex path_edge_list) None
      (StandGATEncoder.train false
         (returned (StandGATEncoder.init glorot_ones 3 8 12 0%Q true) eq_refl), rng_keep)
    = (Ok out, s')
    /\ shape out = [4; 8 * (12 / 8)]
    /\ Forall (fun v => ~ (v < -1)%R) (data out).
Proof.
  destruct (StandGATEncoder_returns glorot_ones 3 8 12 0%Q true false path_tensor 4
              path_edge_list None rng_keep) as (m & Hm & H).
  - lia.
  - reflexivity.
  - repeat constructor; cbn; lia.
  - reflexivity.
  - name_returned m Hm. exact H.
Defined.

(** ** The classifier *)

(** X16: a [StandGATClssifier] built with a hidden width [nhid] that is not
    a multiple of its eight heads never returns from [forward], whatever
    the input. *)
Theorem StandGATClssifier_hidden_width rnd nembed nhid nclass p nlayer m mode x adj ew g :
  nhid mod 8 <> 0 ->
  StandGATClssifier.init rnd nembed nhid nclass p nlayer = Ok m ->
  is_ok (fst (StandGATClssifier.forward x adj ew (StandGATClssifier.train mode m, g)))
  = false.
Proof.
  intros Hm Hi. apply StandGATClssifier_init_ok in Hi as (c1 & c2 & Hc1 & Hc2 & ->).
  destruct (GATConv_new_facts _ _ _ _ _ _ _ mode Hc1) as (_ & _ & Hh1 & Ho1 & Hcat1 & _).
  destruct (GATConv_new_facts _ _ _ _ _ _ _ mode Hc2) as (_ & Hin2 & _).
  unfold StandGATClssifier.forward. rewrite bind_run. cbn [get_self fst snd].
  rewrite bind_run.
  destruct (zoom StandGATClssifier.conv1 _ _ _) as [[[x1 e1]|e] [m1 g1]] eqn:Hz;
    [|reflexivity].
  apply zoom_inv in Hz as (c1' & Hc & Hm1). cbn [fst snd] in Hc, Hm1.
  apply call_conv_shape in Hc as [n Hn].
  cbn [StandGATClssifier.conv1 StandGATClssifier.train] in Hn.
  rewrite Hcat1, Hh1, Ho1 in Hn.
  rewrite bind_run.
  destruct (F_dropout_tensor _ _ _ _) as [[x2|e] [m2 g2]] eqn:Hd; [|reflexivity].
  apply F_dropout_tensor_ok in Hd as (Hs2 & Hm2 & _). cbn [fst snd F_relu shape] in Hs2, Hm2.
  rewrite bind_run. unfold zoom. cbn [fst snd]. subst m2 m1.
  cbn [StandGATClssifier.conv2 StandGATClssifier.set_conv1 StandGATClssifier.train].
  width_mismatch n (8 * (nhid / 8)); [rewrite Hs2; exact Hn| |reflexivity].
  rewrite Hin2. apply not_multiple; [lia|assumption].
Qed.

Lemma StandGATClssifier_hidden_width_witness :
  is_ok (fst (StandGATClssifier.forward path_tensor path_edges None
                (StandGATClssifier.train false
                   (returned (StandGATClssifier.init glorot_ones 3 12 2 0%Q 2) eq_refl),
                 rng_keep)))
  = false.
Proof.
  apply (StandGATClssifier_hidden_width glorot_ones 3 12 2 0%Q 2 _ false path_tensor
           path_edges None rng_keep).
  - cbn. lia.
  - reflexivity.
Defined.

Lemma Rsum_exp_In (v : R) (l : list R) : In v l -> (exp v <= Rsum (map exp l))%R.
Proof.
  assert (Hnn : forall k, (0 <= Rsum (map exp k))%R).
  { induction k as [|u k IH]; cbn [map Rsum fold_right]; [lra|].
    fold (Rsum (map exp k)). pose proof (exp_pos u). lra. }
  induction l as [|u l IH]; [contradiction|].
  cbn [map Rsum fold_right]. fold (Rsum (map exp l)). intros [->|Hin].
  - specialize (Hnn l). lra.
  - pose proof (exp_pos u). specialize (IH Hin). lra.
Qed.

Lemma log_softmax_returns t n m :
  shape t = [n; m] -> exists t', F_log_softmax_dim1 t = Ok t' /\ shape t' = [n; m].
Proof.
  intros Hs. unfold F_log_softmax_dim1. rewrite Hs. eexists. split; reflexivity.
Qed.

(** No entry of a log-softmax over the rows of a matrix is positive. *)
Lemma log_softmax_nonpositive t t' n m :
  F_log_softmax_dim1 t = Ok t' ->
  shape t = [n; m] ->
  Forall (fun v => ~ (0 < v)%R) (data t').
Proof.
  intros H Hs. unfold F_log_softmax_dim1 in H. rewrite Hs in H.
  injection H as <-. unfold numel. rewrite Hs. cbn [shape data fold_right].
  apply List.Forall_forall. intros v Hv. apply in_map_iff in Hv as (q & <- & Hq).
  apply in_seq in Hq. cbv zeta. rewrite !Nat.mul_1_r in *.
  assert (Hm : m <> 0) by (intros ->; lia).
  change (0 - snd (Nat.divmod q 0 0 0)) with (q mod 1). rewrite Nat.mod_1_r.
  set (e := nth q (data t) 0%R).
  set (along := map _ (seq 0 m)).
  assert (Hin : In e along).
  { unfold along. apply in_map_iff. exists (q mod m). split.
    - unfold e. f_equal.
      pose proof (Nat.div_mod_eq q m). lia.
    - apply in_seq. split; [lia|]. cbn. apply Nat.mod_upper_bound. exact Hm. }
  pose proof (Rsum_exp_In e along Hin) as Hle.
  pose proof (exp_pos e) as Hpos.
  intros Hgt.
  assert (Hlt : (ln (Rsum (map exp along)) < e)%R) by lra.
  apply exp_increasing in Hlt. rewrite exp_ln in Hlt by lra. lra.
Qed.

(** X17: a [StandGATClssifier] whose hidden width is a positive multiple of
    eight, with at least one class and a dropout probability in [0, 1], is
    constructed and returns from [forward] on every [N x nembed] feature
    matrix and edge list over the nodes below [N]: class logits and
    log-probabilities are [N x nclass], the real/fake scores and their
    log-probabilities are [N x 2], and no log-probability is positive. *)
Theorem StandGATClssifier_returns rnd nembed k nclass p nlayer mode x N ei ew g :
  0 < k -> 0 < nclass ->
  shape x = [N; nembed] ->
  in_bounds N ei ->
  Qle_bool 0 p && Qle_bool p 1 = true ->
  exists m,
    StandGATClssifier.init rnd nembed (8 * k) nclass p nlayer = Ok m
    /\ exists o s',
         StandGATClssifier.forward x (EdgeIndex ei) ew
           (StandGATClssifier.train mode m, g)
         = (Ok o, s')
         /\ shape (StandGATClssifier.logits o) = [N; nclass]
         /\ shape (StandGATClssifier.fakeorreal o) = [N; 2]
         /\ shape (StandGATClssifier.x_class o) = [N; nclass]
         /\ shape (StandGATClssifier.x_fakereal o) = [N; 2]
         /\ Forall (fun v => ~ (0 < v)%R) (data (StandGATClssifier.x_class o))
         /\ Forall (fun v => ~ (0 < v)%R) (data (StandGATClssifier.x_fakereal o)).
Proof.
  intros Hk Hc Hs Hb Hp.
  assert (Hdiv : 8 * k / 8 = k) by (rewrite Nat.mul_comm; apply Nat.div_mul; lia).
  destruct (GATConv_new_returns rnd 0 nembed (8 * k / 8) 8 true) as [c1 Hc1];
    [rewrite Hdiv; lia|lia|].
  destruct (GATConv_new_returns rnd 4 (8 * k) nclass 1 false) as [c2 Hc2]; [lia|lia|].
  eexists. split; [unfold StandGATClssifier.init; rewrite Hc1, Hc2; reflexivity|].
  unfold StandGATClssifier.forward. rewrite bind_run. cbn [get_self fst snd].
  rewrite bind_run.
  destruct (new_layer_returns rnd 0 nembed (8 * k / 8) 8 true c1 mode x N ei true g Hc1)
    as (x1 & c1' & g1 & e1 & Hr1 & Hs1 & Hb1); [rewrite Hdiv; lia|assumption|assumption|].
  erewrite zoom_run by exact Hr1. cbn [fst snd].
  rewrite bind_run.
  match goal with
  | |- context [F_dropout_tensor ?a ?q ?tr (?s, ?h)] =>
      destruct (F_dropout_tensor_returns a q tr s h Hp) as (x2 & g2 & Hd & Hs2)
  end.
  rewrite Hd. rewrite bind_run.
  assert (Hx2 : shape x2 = [N; 8 * k]).
  { rewrite Hs2. cbn [F_relu shape]. rewrite Hs1, Hdiv. reflexivity. }
  destruct (new_layer_returns rnd 4 (8 * k) nclass 1 false c2 mode x2 N e1 true g2 Hc2)
    as (x3 & c3 & g3 & e3 & Hr3 & Hs3 & Hb3); [lia|assumption|assumption|].
  erewrite zoom_run by exact Hr3. cbn [fst snd].
  rewrite bind_run. unfold lift at 1.
  cbn [StandGATClssifier.fakereal StandGATClssifier.fakereal_bias
       StandGATClssifier.set_conv1 StandGATClssifier.set_conv2
       StandGATClssifier.train].
  unfold Linear_call at 1. unfold dim, last_dim. rewrite Hx2.
  cbn [length List.last in_features out_features removelast app]. rewrite Nat.eqb_refl.
  rewrite bind_run. unfold lift at 1.
  destruct (log_softmax_returns x3 N nclass Hs3) as (xc & Hxc & Hsc). rewrite Hxc.
  rewrite bind_run. unfold lift at 1.
  match goal with
  | |- context [F_log_softmax_dim1 ?f] =>
      assert (Hf : shape f = [N; 2]) by reflexivity;
      destruct (log_softmax_returns f N 2 Hf) as (xf & Hxf & Hsf); rewrite Hxf
  end.
  eexists _, _. split; [reflexivity|].
  cbn [StandGATClssifier.logits StandGATClssifier.fakeorreal StandGATClssifier.x_class
       StandGATClssifier.x_fakereal].
  repeat (split; [assumption || reflexivity|]).
  split.
  - eapply log_softmax_nonpositive; eassumption.
  - eapply log_softmax_nonpositive; [exact Hxf|exact Hf].
Qed.

Lemma StandGATClssifier_returns_witness :
  exists o s',
    StandGATClssifier.forward path_tensor (EdgeIndex path_edge_list) None
      (StandGATClssifier.train false
         (returned (StandGATClssifier.init glorot_ones 3 (8 * 1) 2 0%Q 2) eq_refl),
       rng_keep)
    = (Ok o, s')
    /\ shape (StandGATClssifier.logits o) = [4; 2]
    /\ shape (StandGATClssifier.fakeorreal o) = [4; 2]
    /\ shape (StandGATClssifier.x_class o) = [4; 2]
    /\ shape (StandGATClssifier.x_fakereal o) = [4; 2]
    /\ Forall (fun v => ~ (0 < v)%R) (data (StandGATClssifier.x_class o))
    /\ Forall (fun v => ~ (0 < v)%R) (data (StandGATClssifier.x_fakereal o)).
Proof.
  destruct (StandGATClssifier_returns glorot_ones 3 1 2 0%Q 2 false path_tensor 4
              path_edge_list None rng_keep) as (m & Hm & H).
  - lia.
  - lia.
  - reflexivity.
  - repeat constructor; cbn; lia.
  - reflexivity.
  - name_returned m Hm. exact H.
Defined.

(** ** The N-layer model *)

Lemma bind_not_ok {T A B} (m : M T A) (k : A -> M T B) s :
  is_ok (fst (m s)) = false -> is_ok (fst ((m ≫= k) s)) = false.
Proof. rewrite bind_run. destruct (m s) as [[a|e] s']; [discriminate|reflexivity]. Qed.

(** X13: a [StandGATX] built with a hidden width [nhid] that is not a
    multiple of its four heads never returns from [forward], whatever the
    depth and the input. *)
Theorem StandGATX_hidden_width rnd nfeat nhid nclass p nlayer m mode x adj ew g :
  nhid mod 4 <> 0 ->
  StandGATX.init rnd nfeat nhid nclass p nlayer = Ok m ->
  is_ok (fst (StandGATX.forward x adj ew (StandGATX.train mode m, g))) = false.
Proof.
  intros Hm Hi. apply StandGATX_init_ok in Hi as (c1 & c2 & cx & Hc1 & Hc2 & Hcx & ->).
  destruct (GATConv_new_facts _ _ _ _ _ _ _ mode Hc1) as (_ & _ & Hh1 & Ho1 & Hcat1 & _).
  destruct (GATConv_new_facts _ _ _ _ _ _ _ mode Hc2) as (_ & Hin2 & _).
  unfold StandGATX.forward. apply bind_not_ok.
  unfold StandGATX.forward_locals. rewrite bind_run. cbn [get_self fst snd].
  rewrite bind_run.
  destruct (zoom StandGATX.conv1 _ _ _) as [[[x1 e1]|e] [m1 g1]] eqn:Hz; [|reflexivity].
  apply zoom_inv in Hz as (c1' & Hc & Hm1). cbn [fst snd] in Hc, Hm1.
  apply call_conv_shape in Hc as [n Hn].
  cbn [StandGATX.conv1 StandGATX.train] in Hn. rewrite Hcat1, Hh1, Ho1 in Hn.
  assert (Hne : 4 * (nhid / 4) <> nhid) by (apply not_multiple; [lia|assumption]).
  rewrite bind_run. subst m1.
  cbn [StandGATX.convx StandGATX.train StandGATX.set_conv1].
  rewrite length_map.
  destruct Hcx as [|i c idx cx2 Hci Hrest].
  - cbn [length seq StandGATX.middle_layers]. cbn [mret M_ret ret]. rewrite bind_run.
    destruct (F_dropout_tensor _ _ _ _) as [[x2|e] [m2 g2]] eqn:Hd; [|reflexivity].
    apply F_dropout_tensor_ok in Hd as (Hs2 & Hm2 & _).
    cbn [fst snd F_relu shape] in Hs2, Hm2. subst m2.
    unfold zoom. cbn [fst snd StandGATX.conv2 StandGATX.set_conv1 StandGATX.train].
    width_mismatch n (4 * (nhid / 4)); [rewrite Hs2; exact Hn| |reflexivity].
    rewrite Hin2. exact Hne.
  - destruct (GATConv_new_facts _ _ _ _ _ _ _ mode Hci) as (_ & Hinx & _).
    cbn [length seq StandGATX.middle_layers]. rewrite bind_run. cbn [get_self fst snd].
    rewrite bind_run.
    destruct (F_dropout_tensor _ _ _ _) as [[x2|e] [m2 g2]] eqn:Hd; [|reflexivity].
    apply F_dropout_tensor_ok in Hd as (Hs2 & Hm2 & _).
    cbn [fst snd F_relu shape] in Hs2, Hm2. subst m2.
    rewrite bind_run. unfold zoom at 1.
    cbn [fst snd StandGATX.convx StandGATX.set_conv1 StandGATX.train map nth].
    width_mismatch n (4 * (nhid / 4)); [rewrite Hs2; exact Hn| |reflexivity].
    rewrite Hinx. exact Hne.
Qed.

Lemma StandGATX_hidden_width_witness :
  is_ok (fst (StandGATX.forward path_tensor path_edges None
                (StandGATX.train false
                   (returned (StandGATX.init glorot_ones 3 6 2 0%Q 3) eq_refl), rng_keep)))
  = false.
Proof.
  apply (StandGATX_hidden_width glorot_ones 3 6 2 0%Q 3 _ false path_tensor path_edges None
           rng_keep).
  - cbn. lia.
  - reflexivity.
Defined.

Lemma Forall2_in_r {A B} (P : A -> B -> Prop) l l' b :
  Forall2 P l l' -> In b l' -> exists a, P a b.
Proof.
  induction 1 as [|a b' l l' Hab _ IH]; [contradiction|].
  intros [<-|Hin]; [eauto|apply IH; exact Hin].
Qed.

Lemma middle_layers_return nhid N : forall positions self x e g,
  nhid <> 0 ->
  Forall (fun i => i < length (StandGATX.convx self)) positions ->
  Forall (hidden_layer nhid) (StandGATX.convx self) ->
  shape x = [N; nhid] ->
  in_bounds N e ->
  Qle_bool 0 (StandGATX.dropout_p self) && Qle_bool (StandGATX.dropout_p self) 1 = true ->
  exists x' e' s',
    StandGATX.middle_layers positions x (EdgeIndex e) (self, g)
    = (Ok (x', EdgeIndex e'), s')
    /\ shape x' = [N; nhid]
    /\ in_bounds N e'
    /\ StandGATX.conv2 (fst s') = StandGATX.conv2 self.
Proof.
  induction positions as [|i rest IH]; intros self x e g Hnz Hpos Hlayers Hs Hb Hp.
  - exists x, e, (self, g). cbn. auto.
  - inversion Hpos as [|? ? Hi Hrest]; subst.
    cbn [StandGATX.middle_layers]. rewrite bind_run. cbn [get_self fst snd].
    rewrite bind_run.
    destruct (F_dropout_tensor_returns x (StandGATX.dropout_p self)
                (StandGATX.training self) self g Hp) as (x2 & g2 & Hd & Hs2).
    rewrite Hd. rewrite bind_run.
    set (c := nth i (StandGATX.convx self) (StandGATX.conv1 self)).
    assert (Hc : hidden_layer nhid c).
    { rewrite List.Forall_forall in Hlayers. apply Hlayers. apply nth_In. exact Hi. }
    destruct Hc as (Hwf & Hin & Hhc & Hcat & Hpc).
    destruct (call_conv_returns c x2 N e (StandGATX.is_add_self_loops self) g2 Hwf)
      as (x3 & g3 & e3 & Hcall & Hs3 & Hb3);
      [rewrite Hhc; exact Hnz|rewrite Hs2, Hin; exact Hs|exact Hb|exact Hpc|].
    erewrite zoom_run by exact Hcall. cbn [fst snd].
    rewrite Hcat, Hhc in Hs3.
    destruct (IH (StandGATX.set_convx i (set_alpha c None) self) (F_relu x3) e3 g3)
      as (x' & e' & s' & Hrun & Hs' & Hb' & Hc2); try assumption.
    + cbn [StandGATX.convx StandGATX.set_convx]. rewrite length_insert. exact Hrest.
    + cbn [StandGATX.convx StandGATX.set_convx]. apply Forall_insert; [exact Hlayers|].
      exact (conj Hwf (conj Hin (conj Hhc (conj Hcat Hpc)))).
    + exists x', e', s'. rewrite Hrun. auto.
Qed.

(** X14: a [StandGATX] of any depth whose hidden width is a positive
    multiple of four, with at least one class and a dropout probability in
    [0, 1], is constructed and returns from [forward] without
    [edge_weight] on every [N x nfeat] feature matrix and edge list over
    the nodes below [N], in either mode, with an [N x nclass] output. *)
Theorem StandGATX_returns rnd nfeat k nclass p nlayer mode x N ei g :
  0 < k -> 0 < nclass ->
  shape x = [N; nfeat] ->
  in_bounds N ei ->
  Qle_bool 0 p && Qle_bool p 1 = true ->
  exists m,
    StandGATX.init rnd nfeat (4 * k) nclass p nlayer = Ok m
    /\ exists out s',
         StandGATX.forward x (EdgeIndex ei) None (StandGATX.train mode m, g)
         = (Ok out, s')
         /\ shape out = [N; nclass].
Proof.
  intros Hk Hc Hs Hb Hp.
  assert (Hdiv : 4 * k / 4 = k) by (rewrite Nat.mul_comm; apply Nat.div_mul; lia).
  destruct (GATConv_new_returns rnd 0 nfeat (4 * k / 4) 4 true) as [c1 Hc1];
    [rewrite Hdiv; lia|lia|].
  destruct (GATConv_new_returns rnd 4 (4 * k) nclass 1 true) as [c2 Hc2]; [lia|lia|].
  destruct (mapM_Result_returns
              (fun i => GATConv_new rnd (8 + 4 * i) (4 * k) (4 * k / 4) 4 true)
              (seq 0 (Z.to_nat (nlayer - 2)))) as [cx Hcx].
  { apply List.Forall_forall. intros i _. apply GATConv_new_returns; rewrite Hdiv; lia. }
  eexists. split.
  { unfold StandGATX.init. rewrite Hc1, Hc2. cbn [mbind Result_bind].
    rewrite Hcx. reflexivity. }
  apply mapM_Result_ok in Hcx.
  set (self := StandGATX.train mode _).
  unfold StandGATX.forward. rewrite bind_run.
  unfold StandGATX.forward_locals. rewrite bind_run. cbn [get_self fst snd].
  rewrite bind_run.
  destruct (new_layer_returns rnd 0 nfeat (4 * k / 4) 4 true c1 mode x N ei true g Hc1)
    as (x1 & c1' & g1 & e1 & Hr1 & Hs1 & Hb1); [rewrite Hdiv; lia|assumption|assumption|].
  erewrite zoom_run by exact Hr1. cbn [fst snd].
  rewrite bind_run.
  destruct (middle_layers_return (4 * k) N
              (seq 0 (length (StandGATX.convx self)))
              (StandGATX.set_conv1 c1' self) (F_relu x1) e1 g1)
    as (x2 & e2 & [m2 g2] & Hmid & Hs2 & Hb2 & Hconv2); try assumption.
  - lia.
  - apply List.Forall_forall. intros i Hi. apply in_seq in Hi.
    cbn [StandGATX.convx StandGATX.set_conv1]. lia.
  - cbn [StandGATX.convx StandGATX.set_conv1 StandGATX.train self].
    apply List.Forall_forall. intros c Hin.
    apply in_map_iff in Hin as (c0 & <- & Hin).
    destruct (Forall2_in_r _ _ _ _ Hcx Hin) as (i & Hi).
    destruct (GATConv_new_facts _ _ _ _ _ _ _ mode Hi) as (Hwf & Hin' & Hh & Ho & Hcat & Hd).
    repeat split; try assumption.
    + apply Hwf.
    + apply Hwf.
    + rewrite Hh, Ho, Hdiv. reflexivity.
    + rewrite Hd. reflexivity.
  - cbn [F_relu shape]. rewrite Hs1, Hdiv. reflexivity.
  - rewrite Hmid. cbn [fst snd] in Hconv2.
    rewrite bind_run.
    destruct (F_dropout_tensor_returns x2 p mode m2 g2 Hp) as (x3 & g3 & Hd & Hs3).
    cbn [StandGATX.dropout_p StandGATX.training StandGATX.train self].
    rewrite Hd.
    destruct (new_layer_returns rnd 4 (4 * k) nclass 1 true c2 mode x3 N e2 true g3 Hc2)
      as (x4 & c4 & g4 & e4 & Hr4 & Hs4 & Hb4); [lia|congruence|assumption|].
    unfold zoom. cbn [fst snd]. rewrite Hconv2.
    cbn [StandGATX.conv2 StandGATX.set_conv1 StandGATX.train self
         StandGATX.is_add_self_loops].
    rewrite Hr4. eexists _, _. split; [reflexivity|].
    rewrite Hs4, Nat.mul_1_l. reflexivity.
Qed.

Lemma StandGATX_returns_witness :
  exists out s',
    StandGATX.forward path_tensor (EdgeIndex path_edge_list) None
      (StandGATX.train true
         (returned (StandGATX.init glorot_ones 3 (4 * 1) 2 (1 # 2)%Q 4) eq_refl), rng_keep)
    = (Ok out, s')
    /\ shape out = [4; 2].
Proof.
  destruct (StandGATX_returns glorot_ones 3 1 2 (1 # 2)%Q 4 true path_tensor 4
              path_edge_list rng_keep) as (m & Hm & H).
  - lia.
  - lia.
  - reflexivity.
  - repeat constructor; cbn; lia.
  - reflexivity.
  - name_returned m Hm. exact H.
Defined.

(** ** Layers without attention dropout *)

Lemma F_dropout_zero {T} a p tr (s : T * Rng) :
  Qeq_bool p 0 = true -> fst (F_dropout a p tr s) = Ok a.
Proof.
  intros Hz. pose proof (Qeq_bool_eq _ _ Hz) as Hq. unfold F_dropout.
  assert (H0 : Qle_bool 0 p = true) by (apply Qle_bool_iff; rewrite Hq; apply Qle_refl).
  assert (H1 : Qle_bool p 1 = true) by (apply Qle_bool_iff; rewrite Hq; discriminate).
  assert (H2 : Qeq_bool p 1 = false).
  { destruct (Qeq_bool p 1) eqn:He; [|reflexivity].
    apply Qeq_bool_eq in He. rewrite Hq in He. discriminate He. }
  rewrite H0, H1, H2, Hz. destruct tr; reflexivity.
Qed.

Lemma forward_zero_dropout_result x edge_index size rw flag self a1 a2 m1 m2 g1 g2 :
  Qeq_bool (dropout self) 0 = true ->
  fst (forward x edge_index size rw flag (set_training (set_alpha self a1) m1, g1))
  = fst (forward x edge_index size rw flag (set_training (set_alpha self a2) m2, g2)).
Proof.
  intros Hz. rewrite !forward_run.
  destruct (shape_1 edge_index) as [original_size|e]; [|reflexivity].
  change (project (set_training (set_alpha self a1) m1) x) with (project self x).
  change (project (set_training (set_alpha self a2) m2) x) with (project self x).
  destruct (project self x) as [[[[x_l x_r] alpha_l] alpha_r]|e]; [|reflexivity].
  destruct (adjust_self_loops _ _ _ _ _) as [edge_index'|e]; [|reflexivity].
  rewrite !propagate_run.
  destruct (check_input _ _) as [sz|e]; [|reflexivity].
  destruct (collect _ _ _ _) as [c|e]; [|reflexivity].
  rewrite !message_run.
  change (edge_scores (set_training (set_alpha self a1) m1) (alpha_j c) (alpha_i c))
    with (edge_scores self (alpha_j c) (alpha_i c)).
  change (edge_scores (set_training (set_alpha self a2) m2) (alpha_j c) (alpha_i c))
    with (edge_scores self (alpha_j c) (alpha_i c)).
  destruct (softmax _ _ _ _) as [a|e]; [|reflexivity].
  cbn [training dropout set_alpha set_training].
  pose proof (F_dropout_zero a (dropout self) m1
                (set_alpha (set_training (set_alpha self a1) m1) (Some a), g1) Hz) as E1.
  pose proof (F_dropout_zero a (dropout self) m2
                (set_alpha (set_training (set_alpha self a2) m2) (Some a), g2) Hz) as E2.
  pose proof (F_dropout_self a (dropout self) m1
                (set_alpha (set_training (set_alpha self a1) m1) (Some a), g1)) as S1.
  pose proof (F_dropout_self a (dropout self) m2
                (set_alpha (set_training (set_alpha self a2) m2) (Some a), g2)) as S2.
  destruct (F_dropout a (dropout self) m1 _) as [r1 [t1 h1]].
  destruct (F_dropout a (dropout self) m2 _) as [r2 [t2 h2]].
  cbn [fst snd] in E1, E2, S1, S2. subst r1 r2 t1 t2.
  cbn [heads out_channels set_alpha set_training].
  destruct (scatter_add _ _ _ _ _) as [agg|e]; [|reflexivity].
  cbn [fst snd concat bias _alpha set_alpha set_training heads out_channels].
  destruct (if concat self then _ else _); [|reflexivity].
  destruct (isinstance_bool rw); reflexivity.
Qed.

(** X20: a layer whose dropout probability is zero (the default, which all
    the stacked models use) gives the same result of [GATConv.forward],
    value or exception, in training mode and in inference mode, whatever
    the random generator holds. *)
Theorem forward_without_dropout_ignores_mode x edge_index size rw flag self m1 m2 g1 g2 :
  Qeq_bool (dropout self) 0 = true ->
  fst (forward x edge_index size rw flag (set_training self m1, g1))
  = fst (forward x edge_index size rw flag (set_training self m2, g2)).
Proof.
  intros Hz. rewrite <- (set_alpha_id self).
  apply forward_zero_dropout_result. exact Hz.
Qed.

Lemma forward_without_dropout_ignores_mode_witness :
  fst (forward path_x path_edges None (PyBool true) true
         (set_training path_layer true, rng_keep))
  = fst (forward path_x path_edges None (PyBool true) true
           (set_training path_layer false, {| draws := fun _ => false; pos := 3 |})).
Proof.
  apply (forward_without_dropout_ignores_mode path_x path_edges None (PyBool true) true
           path_layer true false).
  reflexivity.
Defined.

Lemma zoom_fst {S T A} (proj : S -> T) (upd : T -> S -> S) (m : M T A) s :
  fst (zoom proj upd m s) = fst (m (proj (fst s), snd s)).
Proof. unfold zoom. destruct (m _) as [r [t' g']]. reflexivity. Qed.

Lemma call_conv_fst x edge_index size flag s1 s2 :
  fst (forward (XTensor x) edge_index size PyNone flag s1)
  = fst (forward (XTensor x) edge_index size PyNone flag s2) ->
  fst (call_conv x edge_index size flag s1) = fst (call_conv x edge_index size flag s2).
Proof.
  rewrite !call_conv_run.
  destruct (forward _ _ _ _ _ s1) as [[[o1 [ei1 al1|e1]]|e1] t1];
    destruct (forward _ _ _ _ _ s2) as [[[o2 [ei2 al2|e2]]|e2] t2];
    cbn [fst]; intros [= ]; subst; reflexivity.
Qed.

Lemma StandGAT1_forward_fst x adj ew self g :
  fst (StandGAT1.forward x adj ew (self, g))
  = match fst (call_conv x adj None (StandGAT1.is_add_self_loops self)
                 (StandGAT1.conv1 self, g)) with
    | Ok (x1, _) => Ok (F_relu x1)
    | Raise e => Raise e
    end.
Proof.
  unfold StandGAT1.forward. rewrite bind_run. cbn [get_self fst snd].
  rewrite bind_run. unfold zoom. cbn [fst snd].
  destruct (call_conv _ _ _ _ _) as [[[x1 e1]|e] [t' g']]; reflexivity.
Qed.

(** X21: the result of [StandGAT1.forward] depends neither on the
    constructor arguments [nhid], [dropout] and [nlayer], nor on
    [edge_weight], the training flag or the random generator: the model
    applies no dropout and its only layer is built without any.  The
    constructor itself returns or raises whatever these arguments are. *)
Theorem StandGAT1_ignores_mode_and_dropout rnd nfeat nhid nhid' nclass p p'
    nlayer nlayer' flag m1 m2 x adj ew ew' g1 g2 :
  is_ok (StandGAT1.init rnd nfeat nhid nclass p nlayer flag)
  = is_ok (StandGAT1.init rnd nfeat nhid' nclass p' nlayer' flag)
  /\ forall ma mb,
       StandGAT1.init rnd nfeat nhid nclass p nlayer flag = Ok ma ->
       StandGAT1.init rnd nfeat nhid' nclass p' nlayer' flag = Ok mb ->
       fst (StandGAT1.forward x adj ew (StandGAT1.train m1 ma, g1))
       = fst (StandGAT1.forward x adj ew' (StandGAT1.train m2 mb, g2)).
Proof.
  split; [reflexivity|]. intros ma mb Ha Hb.
  apply StandGAT1_init_ok in Ha as (c1 & Hc1 & ->).
  apply StandGAT1_init_ok in Hb as (c1' & Hc1' & ->).
  rewrite Hc1 in Hc1'. injection Hc1' as <-.
  rewrite !StandGAT1_forward_fst.
  cbn [StandGAT1.conv1 StandGAT1.train StandGAT1.is_add_self_loops].
  rewrite (call_conv_fst x adj None flag (set_training c1 m1, g1)
             (set_training c1 m2, g2)); [reflexivity|].
  rewrite <- (set_alpha_id c1).
  apply forward_zero_dropout_result.
  destruct (GATConv_new_facts _ _ _ _ _ _ _ true Hc1) as (_ & _ & _ & _ & _ & Hd).
  cbn [dropout set_training] in Hd. rewrite Hd. reflexivity.
Qed.

Lemma StandGAT1_ignores_mode_and_dropout_witness :
  fst (StandGAT1.forward path_tensor path_edges None
         (StandGAT1.train true
            (returned (StandGAT1.init glorot_ones 3 8 2 0%Q 1 true) eq_refl), rng_keep))
  = fst (StandGAT1.forward path_tensor path_edges (Some [4%Z])
           (StandGAT1.train false
              (returned (StandGAT1.init glorot_ones 3 16 2 (1 # 2)%Q 7 true) eq_refl),
            {| draws := fun _ => false; pos := 3 |})).
Proof.
  apply (proj2 (StandGAT1_ignores_mode_and_dropout glorot_ones 3 8 16 2 0%Q (1 # 2)%Q
                  1 7 true true false path_tensor path_edges None (Some [4%Z])
                  rng_keep {| draws := fun _ => false; pos := 3 |}));
    reflexivity.
Defined.

(** ** The models that the factory builds *)

(** X18: no depth makes [create_gat] return the N-layer model: a model that
    the factory returns is never a [StandGATX]. *)
Theorem create_gat_never_StandGATX rnd nfeat nhid nclass dropout nlayer nembed m :
  create_gat rnd nfeat nhid nclass dropout nlayer nembed = Ok m ->
  class_name m <> "StandGATX"%string.
Proof.
  unfold create_gat, mbind, Result_bind.
  destruct (nlayer =? 1)%Z.
  { destruct (StandGAT1.init _ _ _ _ _ _ _); intros [= <-]; discriminate. }
  destruct (nlayer =? 2)%Z.
  { destruct (StandGAT2.init _ _ _ _ _ _); intros [= <-]; discriminate. }
  destruct (nlayer =? 3)%Z.
  { destruct (StandGATEncoder.init _ _ _ _ _ _); intros [= <-]; discriminate. }
  destruct (nlayer =? 4)%Z.
  { destruct (StandGATClssifier.init _ _ _ _ _ _); intros [= <-]; discriminate. }
  discriminate.
Qed.

Lemma create_gat_never_StandGATX_witness :
  exists m, create_gat glorot_ones 3 8 2 0%Q 4 64 = Ok m
            /\ class_name m <> "StandGATX"%string.
Proof.
  eexists. split; [reflexivity|].
  apply (create_gat_never_StandGATX glorot_ones 3 8 2 0%Q 4 64).
  reflexivity.
Defined.

(** X19: the encoder and the classifier that [create_gat] builds from the
    same arguments (depths 3 and 4) fit together only when [nhid] equals
    [8 * (nembed // 8)]: otherwise the classifier, whose first layer was
    built for [nhid] input features, raises on every embedding that the
    encoder returns, before any of its state changes; on an edge-index
    tensor the exception is the one of the projection. *)
Theorem create_gat_encoder_feeds_classifier rnd nfeat nhid nclass p nembed enc cls
    x adj ew g h s1 adj' ew' g' :
  create_gat rnd nfeat nhid nclass p 3 nembed = Ok (IsStandGATEncoder enc) ->
  create_gat rnd nfeat nhid nclass p 4 nembed = Ok (IsStandGATClssifier cls) ->
  StandGATEncoder.forward x adj ew (enc, g) = (Ok h, s1) ->
  8 * (nembed / 8) <> nhid ->
  exists e,
    StandGATClssifier.forward h adj' ew' (cls, g') = (Raise e, (cls, g'))
    /\ (forall ei, adj' = EdgeIndex ei -> e = RuntimeError).
Proof.
  intros He Hc Hf Hne.
  unfold create_gat in He, Hc. cbn [Z.eqb Pos.eqb mbind Result_bind] in He, Hc.
  destruct (StandGATEncoder.init _ _ _ _ _ _) as [enc0|] eqn:Hienc; [|discriminate].
  destruct (StandGATClssifier.init _ _ _ _ _ _) as [cls0|] eqn:Hicls; [|discriminate].
  injection He as <-. injection Hc as <-.
  apply StandGATEncoder_init_ok in Hienc as (c1 & c2 & Hc1 & Hc2 & ->).
  apply StandGATClssifier_init_ok in Hicls as (d1 & d2 & Hd1 & Hd2 & ->).
  destruct (GATConv_new_facts _ _ _ _ _ _ _ true Hc1) as (_ & _ & Hh1 & Ho1 & Hcat1 & _).
  destruct (GATConv_new_facts _ _ _ _ _ _ _ true Hd1) as (_ & Hin1 & _).
  cbn [set_training heads out_channels concat lin_l] in Hh1, Ho1, Hcat1, Hin1.
  assert (Hh : exists n, shape h = [n; 8 * (nembed / 8)]).
  { unfold StandGATEncoder.forward in Hf. rewrite bind_run in Hf.
    cbn [get_self fst snd] in Hf. rewrite bind_run in Hf.
    destruct (zoom StandGATEncoder.conv1 _ _ _) as [[[x1 e1]|e] [m1 g1]] eqn:Hz;
      [|discriminate].
    apply zoom_inv in Hz as (c1' & Hcall & _). cbn [fst snd] in Hcall.
    apply call_conv_shape in Hcall as [n Hn].
    cbn [StandGATEncoder.conv1] in Hn. rewrite Hcat1, Hh1, Ho1 in Hn.
    rewrite bind_run in Hf.
    destruct (F_dropout_tensor _ _ _ _) as [[x2|e] s2] eqn:Hd; [|discriminate].
    apply F_dropout_tensor_ok in Hd as (Hs2 & _).
    injection Hf as <- _. exists n. cbn [F_elu shape]. rewrite Hs2. exact Hn. }
  destruct Hh as [n Hn].
  unfold StandGATClssifier.forward. rewrite bind_run. cbn [get_self fst snd].
  rewrite bind_run. unfold zoom. cbn [fst snd StandGATClssifier.conv1].
  destruct (call_conv_width_mismatch h adj' None
              (StandGATClssifier.is_add_self_loops
                 (StandGATClssifier.mk d1 d2 (mkLinear nembed 2 (rnd 10 [2; nembed]))
                    (rnd 9 [2]) p true true))
              d1 g' n (8 * (nembed / 8)) Hn) as (e & He & Hedge).
  { rewrite Hin1. exact Hne. }
  exists e. rewrite He. split; [reflexivity|exact Hedge].
Qed.

Lemma create_gat_encoder_feeds_classifier_witness :
  let enc := returned (StandGATEncoder.init glorot_ones 3 16 8 0%Q true) eq_refl in
  let cls := returned (StandGATClssifier.init glorot_ones 16 8 2 0%Q 2) eq_refl in
  exists h s1,
    StandGATEncoder.forward path_tensor path_edges None (enc, rng_keep) = (Ok h, s1)
    /\ StandGATClssifier.forward h (EdgeIndex []) None (cls, rng_keep)
       = (Raise RuntimeError, (cls, rng_keep)).
Proof.
  intros enc cls.
  destruct (StandGATEncoder.forward path_tensor path_edges None (enc, rng_keep))
    as [[h|e] s1] eqn:Hf.
  2:{ exfalso. revert Hf. lazy -[exp Rmax Rmin Q2R]. discriminate. }
  exists h, s1. split; [reflexivity|].
  destruct (create_gat_encoder_feeds_classifier glorot_ones 3 16 2 0%Q 8 enc cls
              path_tensor path_edges None rng_keep h s1 (EdgeIndex []) None rng_keep)
    as (e & He & Hedge); [reflexivity|reflexivity|exact Hf|cbn; lia|].
  rewrite (Hedge [] eq_refl) in He. exact He.
Defined.
